(** * btowntickets.utils: loaders and the null profiler

    A shallow embedding of [src/btowntickets/utils.py].  The module is a
    thin layer over the pandas API, so the development has two parts:

    - [Float64] and [Pandas]: the fragment of the library the module
      calls ([read_csv], [read_parquet], [DataFrame.isna], [sum],
      [to_frame], [reset_index], [rename], [__getitem__], [__truediv__],
      [__setitem__], [len]) over an explicit object store, because the
      last statement of [profile_nulls] mutates a frame in place;
    - [utils]: the classes and the function of the source file, statement
      by statement, on top of that fragment. *)

From Stdlib Require Import ZArith QArith Qabs Lia Ascii String Sorted.
From Stdlib Require Import Floats.SpecFloat.
From stdpp Require Import gmap strings pretty list fin_maps.

Local Open Scope Z_scope.

(** ** IEEE-754 binary64, as numpy's [float64] *)

Module Float64.

Definition prec : Z := 53.
Definition emax : Z := 1024.

(** [float(z)]: conversion of an integer, rounding to nearest even. *)
Definition of_int (z : Z) : spec_float := binary_normalize prec emax z 0 false.

Definition div (x y : spec_float) : spec_float := SFdiv prec emax x y.

Definition is_nan (x : spec_float) : bool :=
  match x with S754_nan => true | _ => false end.

(** The rational a float denotes; none for the infinities and not-a-number. *)
Definition to_Q (x : spec_float) : option Q :=
  match x with
  | S754_zero _ => Some (0 # 1)%Q
  | S754_finite s m e =>
      let n := if s then Zneg m else Zpos m in
      Some (match e with
            | Zneg k => Qmake n (2 ^ k)
            | _ => Qmake (n * 2 ^ e) 1
            end)
  | _ => None
  end.

End Float64.

(** Two's complement wrap-around of numpy's [int64]. *)
Definition wrap64 (z : Z) : Z := (z + 2 ^ 63) mod 2 ^ 64 - 2 ^ 63.

(** ** The pandas fragment *)

Module Pandas.

(** *** Values, labels, dtypes *)

(** A cell of a table.  [NA] stands for every missing-value marker of the
    library ([pd.NA], [None], [NaT], and the [NaN] that fills missing cells of
    object and categorical columns); a [float64] not-a-number is a [VFloat]. *)
Inductive scalar : Type :=
| NA
| VBool (b : bool)
| VInt (z : Z)
| VFloat (f : spec_float)
| VStr (s : string)
| VTime (ns : Z).


(** Axis labels: text, or the integer [0] that [Series.to_frame] gives an
    unnamed series. *)
Inductive label : Type :=
| LStr (s : string)
| LInt (z : Z).

#[global] Instance label_eq_dec : EqDecision label.
Proof. solve_decision. Defined.

Definition scalar_of_label (l : label) : scalar :=
  match l with
  | LStr s => VStr s
  | LInt z => VInt z
  end.

Inductive dtype : Type :=
| dt_bool
| dt_int64
| dt_float64
| dt_object
| dt_datetime64
| dt_Int64                              (* nullable extension integer *)
| dt_Float64                            (* nullable extension float *)
| dt_category (categories : list string).

#[global] Instance dtype_eq_dec : EqDecision dtype.
Proof. solve_decision. Defined.

(** The nullable extension dtypes keep a mask beside the values. *)
Definition masked (t : dtype) : bool :=
  match t with
  | dt_Int64 | dt_Float64 => true
  | _ => false
  end.

(** [isna] on one cell of a column of dtype [t]: in a masked column only the
    masked cells, elsewhere the missing marker and not-a-number. *)
Definition scalar_isna (t : dtype) (v : scalar) : bool :=
  match v with
  | NA => true
  | VFloat f => negb (masked t) && Float64.is_nan f
  | _ => false
  end.

(** *** Indexes, series, frames *)

Inductive Index : Type :=
| RangeIndex (stop : nat)
| LabelIndex (labels : list label).

Definition Index_len (i : Index) : nat :=
  match i with
  | RangeIndex n => n
  | LabelIndex ls => length ls
  end.

(** The index as a column of values, as [reset_index] inserts it. *)
Definition Index_values (i : Index) : list scalar :=
  match i with
  | RangeIndex n => map (fun k => VInt (Z.of_nat k)) (seq 0 n)
  | LabelIndex ls => map scalar_of_label ls
  end.

Definition is_int_label (l : label) : bool :=
  match l with
  | LInt _ => true
  | LStr _ => false
  end.

(** Integer labels make an [int64] index; text, a mix or no label at all
    an [object] one. *)
Definition Index_dtype (i : Index) : dtype :=
  match i with
  | RangeIndex _ => dt_int64
  | LabelIndex [] => dt_object
  | LabelIndex ls => if forallb is_int_label ls then dt_int64 else dt_object
  end.

Record Column : Type := mkColumn {
  c_dtype : dtype;
  c_values : list scalar
}.

Record Series : Type := mkSeries {
  s_index : Index;
  s_name : option label;
  s_data : Column
}.

(** A frame: a row index and the columns in order.  The column axis is a
    flat, unnamed list of labels, which is what both readers produce. *)
Record DataFrame : Type := mkDataFrame {
  df_index : Index;
  df_columns : list (label * Column)
}.

Definition columns (d : DataFrame) : list label := map fst (df_columns d).
Definition dtypes_of (d : DataFrame) : list (label * dtype) :=
  map (fun lc => (fst lc, c_dtype (snd lc))) (df_columns d).
Definition nrows (d : DataFrame) : nat := Index_len (df_index d).

(** Every column is as long as the index, and the length fits the
    machine integer the library counts rows with. *)
Definition wf_frame (d : DataFrame) : bool :=
  forallb (fun lc => Nat.eqb (length (c_values (snd lc))) (nrows d)) (df_columns d)
  && (Z.of_nat (nrows d) <? 2 ^ 63).

(** The first column labelled [key], its values, and one cell of it. *)
Definition column_of (d : DataFrame) (key : string) : option Column :=
  snd <$> head (List.filter (fun lc => bool_decide (fst lc = LStr key)) (df_columns d)).

Definition values_of (d : DataFrame) (key : string) : option (list scalar) :=
  c_values <$> column_of d key.

Definition cell (d : DataFrame) (key : string) (i : nat) : option scalar :=
  values_of d key ≫= fun vs => vs !! i.

(** *** Files *)

Definition Path : Type := string.

(** A delimited-text file after tokenisation: the header record and, line
    by line, the data records, each a list of fields (a blank line, empty or
    of blanks only, has none).  Quoting, escaping and line splitting are the
    tokenizer's business and not the module's. *)
Record CSVFile : Type := mkCSVFile {
  csv_header : list string;
  csv_records : list (list string)
}.

(** A stored column of a columnar file: its values under the type the
    schema embeds, each present or null. *)
Inductive ArrowArray : Type :=
| Int64Array (vs : list (option Z))
| DoubleArray (vs : list (option spec_float))
| StringArray (vs : list (option string))
| BoolArray (vs : list (option bool)).

(** A columnar file: the stored columns under their names, in the order of
    the schema, and whether the file carries the metadata with which pandas
    rebuilds indexes and extension dtypes. *)
Record ParquetFile : Type := mkParquetFile {
  pq_columns : list (string * ArrowArray);
  pq_pandas_metadata : bool
}.

Inductive FileContent : Type :=
| CSVContent (f : CSVFile)
| ParquetContent (f : ParquetFile).

(** *** The object store and the monad of library calls *)

Definition loc : Type := positive.

Inductive obj : Type :=
| ODataFrame (d : DataFrame)
| OSeries (s : Series).

Inductive exn : Type :=
| FileNotFoundError (p : Path)
| EmptyDataError
| ParserError
| UsecolsError (missing : list string)     (* ValueError: Usecols do not match columns *)
| ValueError (what : string)
| KeyError (l : label)
| TypeError
| ArrowInvalid
| NotModelled (what : string).             (* outside the modelled fragment *)

Inductive result (A : Type) : Type :=
| Ok (a : A)
| Raise (e : exn).
Arguments Ok {A} a.
Arguments Raise {A} e.

(** The world a call runs in: the file system (read only), the Python
    objects alive, and the files opened so far. *)
Record World : Type := mkWorld {
  fs : gmap Path FileContent;
  heap : gmap loc obj;
  opened : list Path
}.

Definition M (A : Type) : Type := World -> result A * World.

#[global] Instance M_ret : MRet M := fun A a w => (Ok a, w).
#[global] Instance M_bind : MBind M := fun A B f m w =>
  match m w with
  | (Ok a, w') => f a w'
  | (Raise e, w') => (Raise e, w')
  end.

Definition raise {A} (e : exn) : M A := fun w => (Raise e, w).

Definition alloc (o : obj) : M loc := fun w =>
  let l := fresh (dom (heap w)) in
  (Ok l, mkWorld (fs w) (<[l := o]> (heap w)) (opened w)).

Definition get_frame (l : loc) : M DataFrame := fun w =>
  match heap w !! l with
  | Some (ODataFrame d) => (Ok d, w)
  | _ => (Raise TypeError, w)
  end.

Definition get_series (l : loc) : M Series := fun w =>
  match heap w !! l with
  | Some (OSeries s) => (Ok s, w)
  | _ => (Raise TypeError, w)
  end.

Definition store (l : loc) (o : obj) : M unit := fun w =>
  (Ok tt, mkWorld (fs w) (<[l := o]> (heap w)) (opened w)).

Definition open_file (p : Path) : M FileContent := fun w =>
  let w' := mkWorld (fs w) (heap w) (opened w ++ [p]) in
  match fs w !! p with
  | Some c => (Ok c, w')
  | None => (Raise (FileNotFoundError p), w')
  end.

(** [mapM] in the error monad, left to right. *)
Fixpoint traverse {A B} (f : A -> result B) (l : list A) : result (list B) :=
  match l with
  | [] => Ok []
  | a :: l' =>
      match f a with
      | Raise e => Raise e
      | Ok b =>
          match traverse f l' with
          | Raise e => Raise e
          | Ok bs => Ok (b :: bs)
          end
      end
  end.

Definition lift {A} (r : result A) : M A := fun w => (r, w).

(** *** Frame and series operations used by the profiler

    Each operation is given on values first and then as the method call on
    an object reference, which reads its receiver from the store and, except
    for [__setitem__], returns a newly allocated object. *)

#[global] Instance Index_eq_dec : EqDecision Index.
Proof. solve_decision. Defined.

(** [len(df)], a Python integer. *)
Definition len (df : loc) : M Z :=
  d ← get_frame df; mret (Z.of_nat (nrows d)).

Definition isna_column (c : Column) : Column :=
  mkColumn dt_bool (map (fun v => VBool (scalar_isna (c_dtype c) v)) (c_values c)).

Definition isna_frame (d : DataFrame) : DataFrame :=
  mkDataFrame (df_index d) (map (fun lc => (fst lc, isna_column (snd lc))) (df_columns d)).

(** [df.isna()]: a new boolean frame of the same shape. *)
Definition DataFrame_isna (df : loc) : M loc :=
  d ← get_frame df; alloc (ODataFrame (isna_frame d)).

Definition count_true (vs : list scalar) : Z :=
  fold_right (fun v acc => match v with VBool true => 1 + acc | _ => acc end) 0 vs.

(** Column reduction of [sum(axis=0)]; only boolean columns are modelled
    (they add up in [int64]). *)
Definition sum_column (c : Column) : result scalar :=
  match c_dtype c with
  | dt_bool => Ok (VInt (wrap64 (count_true (c_values c))))
  | _ => Raise (NotModelled "sum of a non-boolean column")
  end.

Definition sum_frame (d : DataFrame) : result Series :=
  match traverse sum_column (map snd (df_columns d)) with
  | Raise e => Raise e
  | Ok vs =>
      Ok (mkSeries (LabelIndex (columns d)) None
            (mkColumn (match vs with [] => dt_float64 | _ => dt_int64 end) vs))
  end.

(** [df.sum(axis=0)]: a new unnamed series indexed by the column labels.
    A frame without columns reduces to an empty [float64] series. *)
Definition DataFrame_sum (df : loc) : M loc :=
  d ← get_frame df; s ← lift (sum_frame d); alloc (OSeries s).

Definition to_frame (x : Series) : DataFrame :=
  mkDataFrame (s_index x) [(default (LInt 0) (s_name x), s_data x)].

(** [s.to_frame()]: a one-column frame; an unnamed series gets the label [0]. *)
Definition Series_to_frame (s : loc) : M loc :=
  x ← get_series s; alloc (ODataFrame (to_frame x)).

Definition reset_index (d : DataFrame) : result DataFrame :=
  let name :=
    if bool_decide (LStr "index" ∈ columns d) then LStr "level_0" else LStr "index" in
  if bool_decide (name ∈ columns d)
  then Raise (ValueError "cannot insert, already exists")
  else Ok (mkDataFrame (RangeIndex (nrows d))
             ((name, mkColumn (Index_dtype (df_index d)) (Index_values (df_index d)))
              :: df_columns d)).

(** [df.reset_index()]: the index becomes the first column, named ["index"]
    (["level_0"] when that label is taken); inserting a label that exists
    raises [ValueError].  The new frame has a default range index. *)
Definition DataFrame_reset_index (df : loc) : M loc :=
  d ← get_frame df; d' ← lift (reset_index d); alloc (ODataFrame d').

Fixpoint rename_label (mapping : list (label * label)) (l : label) : label :=
  match mapping with
  | [] => l
  | (k, v) :: rest => if bool_decide (k = l) then v else rename_label rest l
  end.

Definition rename (mapping : list (label * label)) (d : DataFrame) : DataFrame :=
  mkDataFrame (df_index d)
    (map (fun lc => (rename_label mapping (fst lc), snd lc)) (df_columns d)).

(** [df.rename(columns=mapping)]: a new frame with relabelled columns. *)
Definition DataFrame_rename (df : loc) (mapping : list (label * label)) : M loc :=
  d ← get_frame df; alloc (ODataFrame (rename mapping d)).

Definition select (key : label) (cols : list (label * Column)) : list (label * Column) :=
  List.filter (fun lc => bool_decide (fst lc = key)) cols.

Definition getitem (d : DataFrame) (key : label) : result obj :=
  match select key (df_columns d) with
  | [] => Raise (KeyError key)
  | [(_, c)] => Ok (OSeries (mkSeries (df_index d) (Some key) c))
  | cs => Ok (ODataFrame (mkDataFrame (df_index d) cs))
  end.

(** [df[key]]: the column as a series named [key]; [KeyError] when absent;
    a label carried by several columns selects the sub-frame of them. *)
Definition DataFrame_getitem (df : loc) (key : label) : M loc :=
  d ← get_frame df; o ← lift (getitem d key); alloc o.

Definition truediv_scalar (n : Z) (v : scalar) : scalar :=
  match v with
  | VInt z => VFloat (Float64.div (Float64.of_int z) (Float64.of_int n))
  | VFloat f => VFloat (Float64.div f (Float64.of_int n))
  | _ => VFloat S754_nan
  end.

Definition truediv (x : Series) (n : Z) : result Series :=
  match c_dtype (s_data x) with
  | dt_int64 | dt_float64 =>
      Ok (mkSeries (s_index x) (s_name x)
            (mkColumn dt_float64 (map (truediv_scalar n) (c_values (s_data x)))))
  | _ => Raise (NotModelled "division of a non-numeric series")
  end.

(** [s / n] for a numeric series and a Python integer: elementwise true
    division in [float64]; a zero divisor gives [nan] or an infinity, never
    an exception. *)
Definition Series_truediv (s : loc) (n : Z) : M loc :=
  x ← get_series s; q ← lift (truediv x n); alloc (OSeries q).

Definition set_column (key : label) (c : Column) (cols : list (label * Column))
  : list (label * Column) :=
  if bool_decide (key ∈ map fst cols)
  then map (fun lc => if bool_decide (fst lc = key) then (key, c) else lc) cols
  else cols ++ [(key, c)].

Definition setitem (d : DataFrame) (key : label) (x : Series) : result DataFrame :=
  if bool_decide (s_index x = df_index d)
  then Ok (mkDataFrame (df_index d) (set_column key (s_data x) (df_columns d)))
  else Raise (NotModelled "assignment of a series on another index").

(** [df[key] = s]: updates the frame object in place; a new label is
    appended as the last column.  Only a series on the frame's own index is
    modelled (no realignment). *)
Definition DataFrame_setitem (df : loc) (key : label) (value : loc) : M unit :=
  d ← get_frame df; x ← get_series value; d' ← lift (setitem d key x);
  store df (ODataFrame d').

(** *** Reading numbers from text *)

Definition digit_val (c : ascii) : option N :=
  let n := N_of_ascii c in
  if ((48 <=? n) && (n <=? 57))%N then Some (n - 48)%N else None.

(** The longest run of decimal digits at the head of [s]: the number read
    (continuing [acc]), how many digits, and what is left. *)
Fixpoint read_digits (s : string) (acc : N) (k : nat) : N * nat * string :=
  match s with
  | String c s' =>
      match digit_val c with
      | Some d => read_digits s' (10 * acc + d)%N (S k)
      | None => (acc, k, s)
      end
  | EmptyString => (acc, k, s)
  end.

Definition read_sign (s : string) : bool * string :=
  match s with
  | String "-" s' => (true, s')
  | String "+" s' => (false, s')
  | _ => (false, s)
  end.

Definition is_letter (c : ascii) : bool :=
  let n := N_of_ascii c in
  ((65 <=? n) && (n <=? 90) || (97 <=? n) && (n <=? 122))%N.

(** Text that opens with a letter, other than one that opens the spellings
    of infinity and not-a-number. *)
Definition starts_a_word (s : string) : bool :=
  match s with
  | String c _ => is_letter c && negb (bool_decide (c ∈ ["i"; "I"; "n"; "N"]%char))
  | EmptyString => false
  end.

(** The plain decimal numerals: [sign? digits] and [sign? digits . digits],
    the digits read as one integer. *)
Inductive numeral : Type :=
| Whole (neg : bool) (digits : N)
| Decimal (neg : bool) (digits : N) (places : nat).

(** What the numeric reader makes of a field.  The reader converts a column
    as a whole and along several internal paths (all integers, some
    decimals, with or without missing cells).  A field is classified only
    when every path gives it the same value: a plain numeral of at most 15
    digits that is not a negative zero is a [Number]; text that opens with a
    letter is [NotANumber]; anything else (exponents, more digits, blanks,
    the spellings of infinity) is left [Unclassified]. *)
Inductive field_class : Type :=
| Number (x : numeral)
| NotANumber
| Unclassified.

Definition classify (s : string) : field_class :=
  let '(neg, s1) := read_sign s in
  let '(ip, ni, s2) := read_digits s1 0%N 0%nat in
  if Nat.eqb ni 0 then (if starts_a_word s then NotANumber else Unclassified)
  else
    match s2 with
    | EmptyString =>
        if (ni <=? 15)%nat && negb (neg && (ip =? 0)%N) then Number (Whole neg ip)
        else Unclassified
    | String "." s3 =>
        let '(m, nf, s4) := read_digits s3 ip 0%nat in
        if negb (Nat.eqb nf 0) && bool_decide (s4 = EmptyString) && (ni + nf <=? 15)%nat
           && negb (neg && (m =? 0)%N)
        then Number (Decimal neg m nf)
        else Unclassified
    | _ => Unclassified
    end.

Definition signed (neg : bool) (digits : N) : Z :=
  if neg then - Z.of_N digits else Z.of_N digits.

(** The [float64] of a plain numeral: the integer itself (exact below
    [10 ^ 15]), divided by the power of ten of its decimal places. *)
Definition float_of_numeral (x : numeral) : spec_float :=
  match x with
  | Whole neg d => Float64.of_int (signed neg d)
  | Decimal neg d k =>
      Float64.div (Float64.of_int (signed neg d)) (Float64.of_int (10 ^ Z.of_nat k))
  end.

(** *** [read_csv] *)

(** The reader's default missing-value markers. *)
Definition STR_NA_VALUES : list string :=
  ["-1.#IND"; "1.#QNAN"; "1.#IND"; "-1.#QNAN"; "#N/A N/A"; "#N/A"; "N/A"; "n/a";
   "NA"; "<NA>"; "#NA"; "NULL"; "null"; "NaN"; "-NaN"; "nan"; "-nan"; "None"; ""].

Definition is_na (s : string) : bool := bool_decide (s ∈ STR_NA_VALUES).

(** A value of the [dtype=] mapping: a dtype given by name, or the Python
    type [str]. *)
Inductive dtype_arg : Type :=
| by_name (name : string)
| py_str.

(** The library's conversion of a [parse_dates] column with at least one
    record, a collaborator the module does not control: it decides for the
    column as a whole, and returns either a [datetime64] column or the column
    unconverted.  All that is known of it is that it keeps the row count. *)
Class DateParser : Type := {
  to_datetime : list string -> Column;
  to_datetime_length : forall raw, length (c_values (to_datetime raw)) = length raw
}.

Fixpoint insert_sorted (s : string) (l : list string) : list string :=
  match l with
  | [] => [s]
  | x :: l' => if String.leb s x then s :: l else x :: insert_sorted s l'
  end.

Definition sort_strings (l : list string) : list string :=
  fold_right insert_sorted [] l.

(** Categories of a categorical column read from text in one chunk: the
    distinct non-missing fields, sorted. *)
Definition categories_of (raw : list string) : list string :=
  sort_strings (remove_dups (filter (fun s => is_na s = false) raw)).

(** One field of a numeric column: missing, a number, or an error. *)
Definition read_number (s : string) : result (option numeral) :=
  if is_na s then Ok None
  else match classify s with
       | Number x => Ok (Some x)
       | NotANumber => Raise (ValueError "Unable to parse string")
       | Unclassified => Raise (NotModelled "numeric field outside the plain numerals")
       end.

Definition Float64_cell (o : option numeral) : scalar :=
  match o with
  | None => NA
  | Some x => VFloat (float_of_numeral x)
  end.

Definition Int64_cell (o : option numeral) : result scalar :=
  match o with
  | None => Ok NA
  | Some (Whole neg d) => Ok (VInt (signed neg d))
  | Some (Decimal _ _ _) => Raise (NotModelled "decimal number in an Int64 column")
  end.

Definition text_field (s : string) : scalar := if is_na s then NA else VStr s.

(** Conversion of the raw fields of one column to a declared dtype.  The
    numeric dtypes read every field first and build the masked column
    afterwards; a missing-value marker is a masked cell. *)
Definition convert_column (spec : dtype_arg) (raw : list string) : result Column :=
  match spec with
  | py_str => Ok (mkColumn dt_object (map text_field raw))
  | by_name name =>
      if bool_decide (name = "Float64") then
        match traverse read_number raw with
        | Ok xs => Ok (mkColumn dt_Float64 (map Float64_cell xs))
        | Raise e => Raise e
        end
      else if bool_decide (name = "Int64") then
        match traverse read_number raw with
        | Ok xs =>
            match traverse Int64_cell xs with
            | Ok vs => Ok (mkColumn dt_Int64 vs)
            | Raise e => Raise e
            end
        | Raise e => Raise e
        end
      else if bool_decide (name = "category") then
        Ok (mkColumn (dt_category (categories_of raw)) (map text_field raw))
      else Raise TypeError
  end.

(** Conversion of a [parse_dates] column: a file without records keeps the
    column as an empty [object] column; otherwise the library decides. *)
Definition convert_dates `{DateParser} (raw : list string) : Column :=
  match raw with
  | [] => mkColumn dt_object []
  | _ => to_datetime raw
  end.

Fixpoint lookup_dtype (dtype : list (string * dtype_arg)) (name : string) : option dtype_arg :=
  match dtype with
  | [] => None
  | (k, v) :: rest => if bool_decide (k = name) then Some v else lookup_dtype rest name
  end.

(** Field [j] of every record; a record that ends early has missing fields,
    which read as empty. *)
Definition raw_column (records : list (list string)) (j : nat) : list string :=
  map (fun r => default EmptyString (r !! j)) records.

Definition read_column `{DateParser}
    (parse_dates : list string) (dtype : list (string * dtype_arg))
    (records : list (list string)) (jn : nat * string) : result (label * Column) :=
  let raw := raw_column records (fst jn) in
  if bool_decide (snd jn ∈ parse_dates) then Ok (LStr (snd jn), convert_dates raw)
  else match lookup_dtype dtype (snd jn) with
       | Some spec =>
           match convert_column spec raw with
           | Ok c => Ok (LStr (snd jn), c)
           | Raise e => Raise e
           end
       | None => Raise (NotModelled "dtype inference")
       end.

(** Column names from the header record: an empty name at position [i]
    reads as ["Unnamed: i"]. *)
Definition header_names (raw : list string) : list string :=
  imap (fun i n => if bool_decide (n = EmptyString) then "Unnamed: " +:+ pretty i else n) raw.

Fixpoint contains_dot (s : string) : bool :=
  match s with
  | EmptyString => false
  | String c s' => bool_decide (c = "."%char) || contains_dot s'
  end.

Fixpoint index_of (n : string) (names : list string) : option nat :=
  match names with
  | [] => None
  | x :: rest => if bool_decide (x = n) then Some 0%nat else S <$> index_of n rest
  end.

(** The columns [usecols] selects, in file order, each with its position.
    The reader renames the second and later columns of a repeated name with
    a dotted suffix, so a name without a dot selects the first column
    carrying it. *)
Definition select_usecols (usecols names : list string) : list (nat * string) :=
  filter (fun jn => snd jn ∈ usecols /\ index_of (snd jn) names = Some (fst jn))
    (imap (fun j n => (j, n)) names).

(** The data records: a line without any field is a blank line, which the
    reader skips. *)
Definition data_records (f : CSVFile) : list (list string) :=
  filter (fun r => r <> []) (csv_records f).

(** [pd.read_csv(filepath, parse_dates=, dtype=, usecols=)] with the C
    parser's defaults.  Outside the fragment: selecting by a dotted name from
    a header with repeated names, a record with more fields than the header,
    a file so large that the reader takes it in several chunks (the bound
    keeps well within the first chunk), and a selected column with neither a
    declared dtype nor date parsing.  For a file with a record longer than
    the header the order of the reader's own checks is not modelled either. *)
Definition read_csv `{DateParser} (filepath : Path)
    (parse_dates : list string) (dtype : list (string * dtype_arg))
    (usecols : list string) : M loc :=
  content ← open_file filepath;
  match content with
  | ParquetContent _ => raise ParserError
  | CSVContent f =>
      if bool_decide (csv_header f = []) then raise EmptyDataError
      else
        let names := header_names (csv_header f) in
        if negb (bool_decide (NoDup names)) && existsb contains_dot usecols
        then raise (NotModelled "selection of a renamed column")
        else
          let missing := filter (fun c => c ∉ names) usecols in
          if negb (bool_decide (missing = [])) then raise (UsecolsError missing)
          else if negb (forallb (fun r => (length r <=? length names)%nat) (csv_records f))
          then raise (NotModelled "record longer than the header")
          else
            let records := data_records f in
            if 2 ^ 16 <? Z.of_nat (length records) * Z.of_nat (length names)
            then raise (NotModelled "file read in several chunks")
            else
              cols ← lift (traverse (read_column parse_dates dtype records)
                             (select_usecols usecols names));
              alloc (ODataFrame (mkDataFrame (RangeIndex (length records)) cols))
  end.

(** *** [read_parquet] *)

Definition has_null {A} (vs : list (option A)) : bool :=
  existsb (fun o => match o with None => true | Some _ => false end) vs.

Definition array_length (a : ArrowArray) : nat :=
  match a with
  | Int64Array vs => length vs
  | DoubleArray vs => length vs
  | StringArray vs => length vs
  | BoolArray vs => length vs
  end.

(** The frame column the reader makes of a stored column.  numpy's integers
    and booleans have no missing value, so a stored integer column with a
    null becomes [float64] with not-a-number for the nulls, and a boolean
    one becomes [object]. *)
Definition to_pandas (a : ArrowArray) : Column :=
  match a with
  | Int64Array vs =>
      if has_null vs
      then mkColumn dt_float64
             (map (fun o => VFloat (from_option Float64.of_int S754_nan o)) vs)
      else mkColumn dt_int64 (map (from_option VInt NA) vs)
  | DoubleArray vs => mkColumn dt_float64 (map (fun o => VFloat (default S754_nan o)) vs)
  | StringArray vs => mkColumn dt_object (map (from_option VStr NA) vs)
  | BoolArray vs =>
      mkColumn (if has_null vs then dt_object else dt_bool) (map (from_option VBool NA) vs)
  end.

(** The stored row count. *)
Definition stored_rows (f : ParquetFile) : nat :=
  from_option (fun nc => array_length (snd nc)) 0%nat (head (pq_columns f)).

(** Stored integers are 64-bit. *)
Definition fits_int64 (z : Z) : bool := (- 2 ^ 63 <=? z) && (z <? 2 ^ 63).

Definition array_ok (a : ArrowArray) : bool :=
  match a with
  | Int64Array vs => forallb (from_option fits_int64 true) vs
  | _ => true
  end.

(** The files of the fragment: at least one column, distinct names, columns
    of one length with integers in range, and no pandas metadata. *)
Definition pq_plain (f : ParquetFile) : bool :=
  negb (pq_pandas_metadata f)
  && negb (bool_decide (pq_columns f = []))
  && bool_decide (NoDup (map fst (pq_columns f)))
  && forallb (fun nc => Nat.eqb (array_length (snd nc)) (stored_rows f) && array_ok (snd nc))
       (pq_columns f).

(** [pd.read_parquet(path, engine=, columns=)] without a column selection:
    every stored column, under its name, converted by [to_pandas]. *)
Definition read_parquet (path : Path) (engine : string) (cols : option (list string)) : M loc :=
  if negb (bool_decide (engine ∈ ["auto"; "pyarrow"; "fastparquet"]))
  then raise (ValueError "engine must be one of 'pyarrow', 'fastparquet'")
  else
    content ← open_file path;
    match content with
    | CSVContent _ => raise ArrowInvalid
    | ParquetContent f =>
        if negb (pq_plain f) then raise (NotModelled "columnar file outside the fragment")
        else
          match cols with
          | None =>
              alloc (ODataFrame
                       (mkDataFrame (RangeIndex (stored_rows f))
                          (map (fun nc => (LStr (fst nc), to_pandas (snd nc))) (pq_columns f))))
          | Some _ => raise (NotModelled "column selection")
          end
    end.

End Pandas.

(** ** The module [btowntickets.utils] *)

Module utils.
Import Pandas.

(** [class Loader(ABC)]: a file path and an abstract [load]. *)
Class Loader (L : Type) : Type := {
  file_path : L -> Path;
  load : L -> M loc
}.

(** [class CSVLoader(Loader)] *)
Record CSVLoader : Type := mkCSVLoader { CSVLoader_file_path : Path }.

(** The locals [dtypes] and [datetime_cols] of [CSVLoader.load]. *)
Definition dtypes : list (string * dtype_arg) :=
  [("X", by_name "Float64");
   ("Y", by_name "Float64");
   ("OBJECTID", by_name "Int64");
   ("ADDRESS", py_str);
   ("LICSTATEPROV", by_name "category");
   ("VIODESCRIPTION", by_name "category");
   ("VIOFINE", by_name "Float64");
   ("VOIDSTATUS", by_name "category")].

Definition datetime_cols : list string := ["ISSUEDATE"; "ISSUETIME"].

(** [CSVLoader.load] *)
Definition CSVLoader_load {date_parser : DateParser} (self : CSVLoader) : M loc :=
  df ← read_csv (CSVLoader_file_path self) datetime_cols dtypes
         (map fst dtypes ++ datetime_cols);
  mret df.

#[global] Instance CSVLoader_Loader {date_parser : DateParser} : Loader CSVLoader := {
  file_path := CSVLoader_file_path;
  load := CSVLoader_load
}.

(** [class ParquetLoader(Loader)] *)
Record ParquetLoader : Type := mkParquetLoader { ParquetLoader_file_path : Path }.

(** [ParquetLoader.load] *)
Definition ParquetLoader_load (self : ParquetLoader) : M loc :=
  read_parquet (ParquetLoader_file_path self) "pyarrow" None.

#[global] Instance ParquetLoader_Loader : Loader ParquetLoader := {
  file_path := ParquetLoader_file_path;
  load := ParquetLoader_load
}.

(** [class LoadProcess]: holds the loader it was constructed with; [run]
    calls its [load]. *)
Record LoadProcess (L : Type) : Type := mkLoadProcess { data_loader : L }.
Arguments mkLoadProcess {L} data_loader.
Arguments data_loader {L} _.

Definition run {L} `{Loader L} (self : LoadProcess L) : M loc :=
  load (data_loader self).

(** [profile_nulls(df)] *)
Definition profile_nulls (df : loc) : M loc :=
  isna ← DataFrame_isna df;
  summed ← DataFrame_sum isna;
  framed ← Series_to_frame summed;
  reset ← DataFrame_reset_index framed;
  null_profile ← DataFrame_rename reset
    [(LStr "index", LStr "Column"); (LInt 0, LStr "Null Count")];
  null_count ← DataFrame_getitem null_profile (LStr "Null Count");
  n ← len df;
  null_pct ← Series_truediv null_count n;
  DataFrame_setitem null_profile (LStr "Null Pct") null_pct;;
  mret null_profile.

End utils.

Import Pandas utils.

(** * The vocabulary of the statements *)

(** ** Worlds *)

(** The reference the next allocation returns. *)
Definition next (w : World) : loc := fresh (dom (heap w)).

Definition alloc_world (w : World) (o : obj) : World :=
  mkWorld (fs w) (<[next w := o]> (heap w)) (opened w).

Definition store_world (w : World) (l : loc) (o : obj) : World :=
  mkWorld (fs w) (<[l := o]> (heap w)) (opened w).

Definition open_world (w : World) (p : Path) : World :=
  mkWorld (fs w) (heap w) (opened w ++ [p]).

(** [w'] keeps every file, every opened path and every object of [w]. *)
Definition extends (w w' : World) : Prop :=
  fs w' = fs w /\ opened w' = opened w /\
  forall l o, heap w !! l = Some o -> heap w' !! l = Some o.

(** ** The report of the profiler, as a value *)

(** The number of cells of a column that [isna] marks. *)
Definition nulls_in (c : Column) : nat :=
  length (List.filter (scalar_isna (c_dtype c)) (c_values c)).

Definition null_counts (T : DataFrame) : list Z :=
  map (fun lc => wrap64 (Z.of_nat (nulls_in (snd lc)))) (df_columns T).

Definition null_pcts (T : DataFrame) : list spec_float :=
  map (fun c => Float64.div (Float64.of_int c) (Float64.of_int (Z.of_nat (nrows T))))
      (null_counts T).

(** The intermediate objects of [profile_nulls] on a table [T]. *)
Definition summed (T : DataFrame) : Series :=
  mkSeries (LabelIndex (columns T)) None
    (mkColumn (match df_columns T with [] => dt_float64 | _ => dt_int64 end)
       (map VInt (null_counts T))).

Definition label_column (T : DataFrame) : Column :=
  mkColumn (Index_dtype (LabelIndex (columns T))) (map scalar_of_label (columns T)).

Definition renamed (T : DataFrame) : DataFrame :=
  mkDataFrame (RangeIndex (length (columns T)))
    [(LStr "Column", label_column T);
     (LStr "Null Count",
      mkColumn (match df_columns T with [] => dt_float64 | _ => dt_int64 end)
        (map VInt (null_counts T)))].

Definition null_count_series (T : DataFrame) : Series :=
  mkSeries (RangeIndex (length (columns T))) (Some (LStr "Null Count"))
    (mkColumn (match df_columns T with [] => dt_float64 | _ => dt_int64 end)
       (map VInt (null_counts T))).

Definition null_pct_series (T : DataFrame) : Series :=
  mkSeries (RangeIndex (length (columns T))) (Some (LStr "Null Count"))
    (mkColumn dt_float64 (map VFloat (null_pcts T))).

(** The frame [profile_nulls] leaves at the reference it returns. *)
Definition report (T : DataFrame) : DataFrame :=
  mkDataFrame (RangeIndex (length (columns T)))
    [(LStr "Column", label_column T);
     (LStr "Null Count",
      mkColumn (match df_columns T with [] => dt_float64 | _ => dt_int64 end)
        (map VInt (null_counts T)));
     (LStr "Null Pct", mkColumn dt_float64 (map VFloat (null_pcts T)))].

(** Which cells are null, column by column. *)
Definition null_pattern (T : DataFrame) : list (list bool) :=
  map (fun lc => map (scalar_isna (c_dtype (snd lc))) (c_values (snd lc))) (df_columns T).

(** ** Null cells, in the words of the specification *)

(** A cell is null when it holds no value: the missing marker of any
    column, and not-a-number in a column that has no mask of its own (in a
    nullable integer or float column a stored not-a-number is a value). *)
Inductive null_cell (t : dtype) : scalar -> Prop :=
| null_missing : null_cell t NA
| null_not_a_number : t <> dt_Int64 -> t <> dt_Float64 -> null_cell t (VFloat S754_nan).

#[global] Instance null_cell_dec t v : Decision (null_cell t v).
Proof.
  destruct v as [|b|z|f|s|ns]; try (right; by inversion 1); [left; constructor|].
  destruct f as [| | |]; try (right; by inversion 1).
  destruct (decide (t = dt_Int64)) as [->|H1]; [right; by inversion 1|].
  destruct (decide (t = dt_Float64)) as [->|H2]; [right; by inversion 1|].
  left. by constructor.
Defined.

(** The number of rows whose value in the column is null. *)
Definition null_rows (c : Column) : nat :=
  length (filter (null_cell (c_dtype c)) (c_values c)).

(** ** Delimited-text files *)

(** [usecols] of the call in [CSVLoader.load]. *)
Definition required_columns : list string := map fst dtypes ++ datetime_cols.

Definition names_of (f : CSVFile) : list string := header_names (csv_header f).

(** The raw fields of the column named [c], record by record, when the
    header has it. *)
Definition csv_raw (f : CSVFile) (c : string) : option (list string) :=
  raw_column (data_records f) <$> index_of c (names_of f).

Definition read_columns {date_parser : DateParser} (f : CSVFile)
  : result (list (label * Column)) :=
  traverse (read_column datetime_cols dtypes (data_records f))
    (select_usecols required_columns (names_of f)).

(** The header has every required column and no record is longer than it. *)
Definition shape_ok (f : CSVFile) : bool :=
  forallb (fun c => bool_decide (c ∈ csv_header f)) required_columns
  && forallb (fun r => (length r <=? length (csv_header f))%nat) (csv_records f).

(** No record has more fields than the header. *)
Definition records_fit (f : CSVFile) : bool :=
  forallb (fun r => (length r <=? length (csv_header f))%nat) (csv_records f).

(** The columns with a declared dtype: X, Y, OBJECTID, ADDRESS,
    LICSTATEPROV, VIODESCRIPTION, VIOFINE, VOIDSTATUS. *)
Definition typed_columns : list string := map fst dtypes.

(** The file is small enough to be read in one chunk: records times
    columns is at most [2 ^ 16]. *)
Definition chunk_ok (f : CSVFile) : bool :=
  Z.of_nat (length (data_records f)) * Z.of_nat (length (csv_header f)) <=? 2 ^ 16.

#[global] Instance dtype_arg_eq_dec : EqDecision dtype_arg.
Proof. solve_decision. Defined.

(** The nullable numeric dtypes, and the columns declared with one: X, Y,
    OBJECTID, VIOFINE. *)
Definition is_numeric (spec : dtype_arg) : bool :=
  bool_decide (spec = by_name "Float64" \/ spec = by_name "Int64").


(** A plain number: an optional sign and at most 15 digits, in a float
    column with an optional decimal point among them; not a negative zero. *)
Definition plain_number (spec : dtype_arg) (s : string) : bool :=
  match classify s with
  | Number (Whole _ _) => true
  | Number (Decimal _ _ _) => bool_decide (spec = by_name "Float64")
  | _ => false
  end.

(** Every field is a missing-value marker or a plain number. *)
Definition fields_ok (spec : dtype_arg) (raw : list string) : bool :=
  forallb (fun s => is_na s || plain_number spec s) raw.

Definition numeric_ok (f : CSVFile) : bool :=
  forallb (fun cs =>
             if is_numeric (snd cs)
             then from_option (fields_ok (snd cs)) false (csv_raw f (fst cs))
             else true) dtypes.


(** The files the loader is known to load: the required columns, no record
    longer than the header, one chunk, plain numbers or missing-value markers
    in the numeric columns. *)
Definition loads_ok (f : CSVFile) : bool :=
  shape_ok f && chunk_ok f && numeric_ok f.



(** The missing-value markers, as the documentation of [read_csv] lists
    them. *)
Definition default_markers : list string :=
  [""; "#N/A"; "#N/A N/A"; "#NA"; "-1.#IND"; "-1.#QNAN"; "-NaN"; "-nan";
   "1.#IND"; "1.#QNAN"; "<NA>"; "N/A"; "NA"; "NULL"; "NaN"; "None"; "n/a";
   "nan"; "null"].

(** The number of missing-value markers among the fields of a column. *)
Definition markers_in (raw : list string) : nat :=
  length (filter (fun s => s ∈ default_markers) raw).

(** The columns declared categorical: LICSTATEPROV, VIODESCRIPTION,
    VOIDSTATUS. *)
Definition categorical_columns : list string :=
  fst <$> filter (fun cs => snd cs = by_name "category") dtypes.


(** ** The table of section 3 of the specification *)

Inductive column_type : Type :=
| nullable_float
| nullable_integer
| text
| categorical
| date_time.


Definition has_type (t : dtype) (ty : column_type) : bool :=
  match t, ty with
  | dt_Float64, nullable_float
  | dt_Int64, nullable_integer
  | dt_object, text
  | dt_category _, categorical
  | dt_datetime64, date_time => true
  | _, _ => false
  end.

Definition type_of_spec (spec : dtype_arg) : column_type :=
  match spec with
  | py_str => text
  | by_name name =>
      if bool_decide (name = "Float64") then nullable_float
      else if bool_decide (name = "Int64") then nullable_integer
      else categorical
  end.


(** ** Columnar files, in the words of the specification *)

(** The type the schema embeds for a column, and the frame dtype that
    stands for it. *)
Inductive stored_type : Type :=
| stored_integer
| stored_float
| stored_text
| stored_boolean.

Definition type_of_array (a : ArrowArray) : stored_type :=
  match a with
  | Int64Array _ => stored_integer
  | DoubleArray _ => stored_float
  | StringArray _ => stored_text
  | BoolArray _ => stored_boolean
  end.

Definition embedded_dtype (t : stored_type) : dtype :=
  match t with
  | stored_integer => dt_int64
  | stored_float => dt_float64
  | stored_text => dt_object
  | stored_boolean => dt_bool
  end.

(** The dtype a stored column is loaded with: the one of its stored type,
    except that integers with a null among them are loaded as [float64] and
    booleans with a null as [object]. *)
Definition loaded_dtype (t : stored_type) (with_nulls : bool) : dtype :=
  match t, with_nulls with
  | stored_integer, true => dt_float64
  | stored_boolean, true => dt_object
  | _, _ => embedded_dtype t
  end.

(** The stored entries of a column as cells: a value, or nothing. *)
Definition entries (a : ArrowArray) : list (option scalar) :=
  match a with
  | Int64Array vs => map (option_map VInt) vs
  | DoubleArray vs => map (option_map VFloat) vs
  | StringArray vs => map (option_map VStr) vs
  | BoolArray vs => map (option_map VBool) vs
  end.

(** The number of stored nulls. *)
Definition stored_nulls (a : ArrowArray) : nat :=
  length (List.filter (fun o => match o with None => true | Some _ => false end) (entries a)).

(** The number of entries without a value: the stored nulls and, in a float
    column, the stored not-a-numbers. *)
Definition missing_entries (a : ArrowArray) : nat :=
  length (List.filter
            (fun o => match o with
                      | None | Some (VFloat S754_nan) => true
                      | Some _ => false
                      end) (entries a)).

(** ** Sample data *)

(** A date/time conversion to run the examples with.  A field is
    [YYYY-MM-DD], or that followed by [ HH:MM:SS], read as UTC; a column is
    converted when all its present fields are of the one format of its first
    present field, and is left as text otherwise. *)
Definition take_digits (k : nat) (s : string) : option (Z * string) :=
  let '(n, read, rest) := read_digits (String.substring 0 k s) 0%N 0%nat in
  if Nat.eqb read k && bool_decide (rest = EmptyString)
  then Some (Z.of_N n, String.substring k (String.length s - k) s)
  else None.

Definition expect (c : ascii) (s : string) : option string :=
  match s with
  | String c' s' => if bool_decide (c' = c) then Some s' else None
  | EmptyString => None
  end.

Definition days_from_civil (y m d : Z) : Z :=
  let y' := if m <=? 2 then y - 1 else y in
  let era := y' / 400 in
  let yoe := y' - era * 400 in
  let doy := (153 * ((m + 9) mod 12) + 2) / 5 + d - 1 in
  era * 146097 + (yoe * 365 + yoe / 4 - yoe / 100 + doy) - 719468.

(** One field: whether it has a time of day, and the nanoseconds since the
    epoch. *)
Definition iso_field (s : string) : option (bool * Z) :=
  '(y, s) ← take_digits 4 s; s ← expect "-" s;
  '(m, s) ← take_digits 2 s; s ← expect "-" s;
  '(d, s) ← take_digits 2 s;
  if negb ((1 <=? m) && (m <=? 12) && (1 <=? d) && (d <=? 31)) then None
  else
    let midnight := days_from_civil y m d * 86400 in
    match s with
    | EmptyString => Some (false, midnight * 10 ^ 9)
    | _ =>
        s ← expect " " s;
        '(h, s) ← take_digits 2 s; s ← expect ":" s;
        '(mi, s) ← take_digits 2 s; s ← expect ":" s;
        '(sec, s) ← take_digits 2 s;
        if bool_decide (s = EmptyString) && (h <? 24) && (mi <? 60) && (sec <? 60)
        then Some (true, (midnight + h * 3600 + mi * 60 + sec) * 10 ^ 9)
        else None
    end.

Definition iso_column (raw : list string) : Column :=
  let with_time :=
    from_option fst false (head (filter (fun s => is_na s = false) raw) ≫= iso_field) in
  let cell s :=
    if is_na s then Some NA
    else match iso_field s with
         | Some (t, ns) => if Bool.eqb t with_time then Some (VTime ns) else None
         | None => None
         end in
  match mapM cell raw with
  | Some vs => mkColumn dt_datetime64 vs
  | None => mkColumn dt_object (map text_field raw)
  end.

Definition iso_datetime : DateParser.
Proof.
  refine {| to_datetime := iso_column |}.
  intros raw. unfold iso_column.
  destruct (mapM _ raw) as [vs|] eqn:Hm; simpl.
  - apply mapM_Some in Hm. symmetry. by eapply Forall2_length.
  - apply length_map.
Defined.

Definition tickets_header : list string :=
  ["OBJECTID"; "X"; "Y"; "OFFICER"; "ADDRESS"; "LICSTATEPROV"; "VIODESCRIPTION";
   "VIOFINE"; "VOIDSTATUS"; "ISSUEDATE"; "ISSUETIME"].

(** Scenario A: three records, VIOFINE = 10.0, empty, 20.0. *)
Definition tickets_csv : CSVFile :=
  mkCSVFile tickets_header
    [["1"; "-86.53"; "39.16"; "12"; "100 N WALNUT ST"; "IN"; "EXPIRED METER"; "10.0"; "";
      "2021-01-04"; "2021-01-04 09:15:00"];
     ["2"; "NA"; ""; "7"; ""; "OH"; "NO PERMIT"; ""; "VOID";
      "2021-01-05"; "2021-01-05 14:30:00"];
     ["3"; "-86.52"; "39.17"; "12"; "200 E KIRKWOOD AVE"; "IN"; "EXPIRED METER"; "20.0"; "";
      "2021-01-06"; ""]].

(** The same file with a VIOFINE field that is not a number. *)
Definition garbled_csv : CSVFile :=
  mkCSVFile tickets_header
    [["1"; "-86.53"; "39.16"; "12"; "100 N WALNUT ST"; "IN"; "EXPIRED METER"; "10.0"; "";
      "2021-01-04"; "2021-01-04 09:15:00"];
     ["2"; ""; ""; "7"; ""; "OH"; "NO PERMIT"; "abc"; "VOID";
      "2021-01-05"; "2021-01-05 14:30:00"]].

(** Scenario B: no OBJECTID column. *)
Definition no_objectid_csv : CSVFile :=
  mkCSVFile
    ["X"; "Y"; "ADDRESS"; "LICSTATEPROV"; "VIODESCRIPTION"; "VIOFINE"; "VOIDSTATUS";
     "ISSUEDATE"; "ISSUETIME"]
    [["-86.53"; "39.16"; "100 N WALNUT ST"; "IN"; "EXPIRED METER"; "10.0"; "";
      "2021-01-04"; "2021-01-04 09:15:00"]].

(** Scenario C: embedded schema A: integer, B: text. *)
Definition ab_parquet : ParquetFile :=
  mkParquetFile
    [("A", Int64Array [Some 1; Some 2]); ("B", StringArray [Some "x"; None])] false.

(** The same schema with a null among the integers. *)
Definition ab_null_parquet : ParquetFile :=
  mkParquetFile
    [("A", Int64Array [Some 1; None]); ("B", StringArray [Some "x"; Some "y"])] false.

Definition disk : gmap Path FileContent :=
  {[ "tickets.csv" := CSVContent tickets_csv;
     "garbled.csv" := CSVContent garbled_csv;
     "no_objectid.csv" := CSVContent no_objectid_csv;
     "ab.parquet" := ParquetContent ab_parquet ]}.

(** A table with nulls in two of its three columns. *)
Definition fines : DataFrame :=
  mkDataFrame (RangeIndex 3)
    [(LStr "OBJECTID", mkColumn dt_Int64 [VInt 1; VInt 2; VInt 3]);
     (LStr "VIOFINE",
      mkColumn dt_Float64 [VFloat (Float64.of_int 10); NA; VFloat (Float64.of_int 20)]);
     (LStr "ADDRESS", mkColumn dt_object [NA; NA; VStr "200 E KIRKWOOD AVE"])].

(** The same columns and null cells, other values. *)
Definition other_fines : DataFrame :=
  mkDataFrame (RangeIndex 3)
    [(LStr "OBJECTID", mkColumn dt_Int64 [VInt 7; VInt 8; VInt 9]);
     (LStr "VIOFINE",
      mkColumn dt_Float64 [VFloat (Float64.of_int 55); NA; VFloat (Float64.of_int 0)]);
     (LStr "ADDRESS", mkColumn dt_object [NA; NA; VStr "1 MAIN ST"])].

(** Scenario D: no rows, two columns. *)
Definition empty_table : DataFrame :=
  mkDataFrame (RangeIndex 0)
    [(LStr "A", mkColumn dt_int64 []); (LStr "B", mkColumn dt_object [])].

Definition world0 : World :=
  mkWorld disk
    {[ 1%positive := ODataFrame fines;
       2%positive := ODataFrame other_fines;
       3%positive := ODataFrame empty_table ]} [].

(** Further files and tables. *)

(** A file with the header alone. *)
Definition header_only_csv : CSVFile := mkCSVFile tickets_header [].

(** The records of [tickets_csv] in a file that lacks the OFFICER column,
    has two columns of its own and lists the columns in another order. *)
Definition wide_csv : CSVFile :=
  mkCSVFile
    ["NOTE"; "ISSUETIME"; "ISSUEDATE"; "VOIDSTATUS"; "VIOFINE"; "VIODESCRIPTION";
     "LICSTATEPROV"; "ADDRESS"; "Y"; "X"; "OBJECTID"; "ZONE"]
    [["paid"; "2021-01-04 09:15:00"; "2021-01-04"; ""; "10.0"; "EXPIRED METER"; "IN";
      "100 N WALNUT ST"; "39.16"; "-86.53"; "1"; "A"];
     [""; "2021-01-05 14:30:00"; "2021-01-05"; "VOID"; ""; "NO PERMIT"; "OH";
      ""; ""; "NA"; "2"; "B"];
     ["towed"; ""; "2021-01-06"; ""; "20.0"; "EXPIRED METER"; "IN";
      "200 E KIRKWOOD AVE"; "39.17"; "-86.52"; "3"; "A"]].

(** A file whose second record ends after the third field. *)
Definition short_csv : CSVFile :=
  mkCSVFile tickets_header
    [["1"; "-86.53"; "39.16"; "12"; "100 N WALNUT ST"; "IN"; "EXPIRED METER"; "10.0"; "";
      "2021-01-04"; "2021-01-04 09:15:00"];
     ["2"; "-86.50"; "39.10"]].

(** The rows of [fines], the last one first. *)
Definition shuffled_fines : DataFrame :=
  mkDataFrame (RangeIndex 3)
    [(LStr "OBJECTID", mkColumn dt_Int64 [VInt 3; VInt 1; VInt 2]);
     (LStr "VIOFINE",
      mkColumn dt_Float64 [VFloat (Float64.of_int 20); VFloat (Float64.of_int 10); NA]);
     (LStr "ADDRESS", mkColumn dt_object [VStr "200 E KIRKWOOD AVE"; NA; NA])].

(** A table with a not-a-number in a [float64] column, where it is the
    missing value, and in a nullable [Float64] column, where it is a stored
    value beside a masked cell. *)
Definition readings : DataFrame :=
  mkDataFrame (RangeIndex 2)
    [(LStr "raw", mkColumn dt_float64 [VFloat S754_nan; VFloat (Float64.of_int 1)]);
     (LStr "ratio", mkColumn dt_Float64 [VFloat S754_nan; NA])].

Definition world1 : World :=
  mkWorld
    (<["header_only.csv" := CSVContent header_only_csv]>
       (<["wide.csv" := CSVContent wide_csv]>
          (<["short.csv" := CSVContent short_csv]>
             (<["ab_null.parquet" := ParquetContent ab_null_parquet]> disk))))
    (<[5%positive := ODataFrame readings]>
       (<[4%positive := ODataFrame shuffled_fines]> (heap world0))) [].

(** * Properties *)

(** ** The store *)

Section Store.

Lemma next_fresh w : heap w !! next w = None.
Proof. unfold next. apply (not_elem_of_dom (D := gset positive)). apply is_fresh. Qed.

Lemma lookup_alloc_new w o : heap (alloc_world w o) !! next w = Some o.
Proof. apply lookup_insert_eq. Qed.

Lemma lookup_alloc_old w o l x :
  heap w !! l = Some x -> heap (alloc_world w o) !! l = Some x.
Proof.
  intros Hl. simpl. rewrite lookup_insert_ne; [done|].
  intros <-. rewrite next_fresh in Hl. discriminate.
Qed.

Lemma extends_refl w : extends w w.
Proof. by repeat split. Qed.

Lemma extends_trans w1 w2 w3 : extends w1 w2 -> extends w2 w3 -> extends w1 w3.
Proof.
  intros (?&?&H12) (?&?&H23). repeat split; try congruence.
  intros l o Hl. by apply H23, H12.
Qed.

Lemma extends_alloc w o : extends w (alloc_world w o).
Proof. repeat split. intros l x. apply lookup_alloc_old. Qed.

Lemma extends_store w w' l o :
  extends w w' -> heap w !! l = None -> extends w (store_world w' l o).
Proof.
  intros (?&?&H) Hl. repeat split; [done..|].
  intros l' x Hl'. simpl. rewrite lookup_insert_ne; [by apply H|].
  intros ->. congruence.
Qed.

Lemma bind_run {A B} (m : M A) (f : A -> M B) w a w' :
  m w = (Ok a, w') -> (m ≫= f) w = f a w'.
Proof. intros Hm. unfold mbind, M_bind. by rewrite Hm. Qed.

Lemma get_frame_run w l d :
  heap w !! l = Some (ODataFrame d) -> get_frame l w = (Ok d, w).
Proof. intros Hl. unfold get_frame. by rewrite Hl. Qed.

Lemma get_series_run w l x :
  heap w !! l = Some (OSeries x) -> get_series l w = (Ok x, w).
Proof. intros Hl. unfold get_series. by rewrite Hl. Qed.

End Store.

(** ** Division of converted integers in [float64] *)

Section Float64_division.
Import Float64.

Lemma digits2_pos_bounds p :
  2 ^ (Zpos (digits2_pos p) - 1) <= Zpos p < 2 ^ Zpos (digits2_pos p).
Proof.
  assert (forall d, 0 < d -> 2 ^ d = 2 * 2 ^ (d - 1)) as Hpow.
  { intros d Hd. rewrite <- Z.pow_succ_r by lia. f_equal. lia. }
  induction p as [p IH|p IH|]; simpl digits2_pos.
  - rewrite Pos2Z.inj_succ.
    replace (Z.succ (Zpos (digits2_pos p)) - 1) with (Zpos (digits2_pos p)) by lia.
    rewrite Z.pow_succ_r by lia. rewrite (Hpow (Zpos (digits2_pos p))) in * by lia. lia.
  - rewrite Pos2Z.inj_succ.
    replace (Z.succ (Zpos (digits2_pos p)) - 1) with (Zpos (digits2_pos p)) by lia.
    rewrite Z.pow_succ_r by lia. rewrite (Hpow (Zpos (digits2_pos p))) in * by lia. lia.
  - simpl. lia.
Qed.

Lemma digits2_pos_unique p d :
  2 ^ (d - 1) <= Zpos p < 2 ^ d -> Zpos (digits2_pos p) = d.
Proof.
  intros [Hlo Hhi]. pose proof (digits2_pos_bounds p) as [Hlo' Hhi'].
  assert (0 < d) as Hd.
  { destruct (Z_lt_le_dec 0 d); [done|]. 
    assert (2 ^ d <= 1); [|lia].
    destruct (Z.eq_dec d 0) as [->|]; [simpl; lia|]. rewrite Z.pow_neg_r by lia. lia. }
  destruct (Z_lt_le_dec (Zpos (digits2_pos p)) d) as [Hlt|Hge].
  - assert (2 ^ Zpos (digits2_pos p) <= 2 ^ (d - 1)) by (apply Z.pow_le_mono_r; lia). lia.
  - destruct (Z.eq_dec (Zpos (digits2_pos p)) d) as [|Hne]; [done|].
    assert (2 ^ d <= 2 ^ (Zpos (digits2_pos p) - 1)) by (apply Z.pow_le_mono_r; lia). lia.
Qed.

Lemma iter_xO_mul p k : Zpos (Pos.iter xO p k) = Zpos p * 2 ^ Zpos k.
Proof.
  induction k as [|k IH] using Pos.peano_ind.
  - simpl. lia.
  - rewrite Pos.iter_succ, Pos2Z.inj_xO, IH, Pos2Z.inj_succ, Z.pow_succ_r by lia. ring.
Qed.

Lemma fexp_normal e : -1021 <= e -> fexp prec emax e = e - 53.
Proof. unfold fexp, emin, prec, emax. lia. Qed.

Lemma shr_fexp_normal m e l :
  Zpos (digits2_pos m) = 53 -> -1074 <= e ->
  shr_fexp prec emax (Zpos m) e l = (shr_record_of_loc (Zpos m) l, e).
Proof.
  intros Hd He. unfold shr_fexp. simpl Zdigits2. rewrite Hd.
  rewrite fexp_normal by lia. replace (53 + e - 53 - e) with 0 by lia. reflexivity.
Qed.

Lemma loc_of_shr_record_of_loc m l : loc_of_shr_record (shr_record_of_loc m l) = l.
Proof. by destruct l as [|[]]. Qed.

Lemma shr_m_of_loc m l : shr_m (shr_record_of_loc m l) = m.
Proof. by destruct l as [|[]]. Qed.

Lemma binary_round_aux_exact s m e :
  Zpos (digits2_pos m) = 53 -> -1074 <= e <= 971 ->
  binary_round_aux prec emax s (Zpos m) e loc_Exact = S754_finite s m e.
Proof.
  intros Hd He. unfold binary_round_aux.
  rewrite shr_fexp_normal by lia. simpl.
  rewrite shr_fexp_normal by lia. simpl.
  replace (e <=? emax - prec) with true; [done|].
  symmetry. apply Z.leb_le. unfold emax, prec. lia.
Qed.

Lemma of_int_exact z :
  0 < z < 2 ^ 53 ->
  of_int z = S754_finite false (Z.to_pos (z * 2 ^ (53 - Zdigits2 z))) (Zdigits2 z - 53).
Proof.
  intros Hz. destruct z as [|p|p]; try lia.
  unfold of_int, binary_normalize, binary_round.
  pose proof (digits2_pos_bounds p) as Hd.
  simpl Zdigits2.
  set (d := Zpos (digits2_pos p)) in *.
  assert (0 < d <= 53) as Hd53.
  { split; [lia|]. destruct (Z_lt_le_dec 53 d) as [H|H]; [|lia].
    assert (2 ^ 53 <= 2 ^ (d - 1)) by (apply Z.pow_le_mono_r; lia). lia. }
  replace (d + 0) with d by lia. rewrite fexp_normal by lia.
  unfold shl_align.
  destruct (d - 53 - 0) as [|k|k] eqn:Hk; try lia.
  - assert (d = 53) as Hd' by lia. rewrite Hd'. simpl (53 - 53). 
    rewrite Z.mul_1_r. simpl Z.to_pos.
    apply binary_round_aux_exact; [exact Hd'|lia].
  - assert (Zpos (Pos.iter xO p k) = Zpos p * 2 ^ (53 - d)) as Hm.
    { rewrite iter_xO_mul. f_equal. f_equal. lia. }
    rewrite <- Hm. simpl Z.to_pos.
    apply binary_round_aux_exact; [|lia].
    apply digits2_pos_unique. rewrite Hm.
    assert (2 ^ (53 - 1) = 2 ^ (d - 1) * 2 ^ (53 - d)) as E1
      by (rewrite <- Z.pow_add_r by lia; f_equal; lia).
    assert (2 ^ 53 = 2 ^ d * 2 ^ (53 - d)) as E2
      by (rewrite <- Z.pow_add_r by lia; f_equal; lia).
    assert (0 < 2 ^ (53 - d)) by (apply Z.pow_pos_nonneg; lia).
    rewrite E1, E2. nia.
Qed.

(** Rounding to nearest even of [q + r / d] from the position of the remainder. *)
Lemma rne_new_location q d r :
  0 <= r < d ->
  let m := round_nearest_even q (new_location d r) in
  (m = q \/ m = q + 1) /\ 2 * Z.abs (m * d - (q * d + r)) <= d.
Proof.
  intros Hr. unfold new_location, new_location_even, new_location_odd.
  destruct (Z.even d) eqn:Hd; destruct (Z.eqb_spec r 0) as [->|Hr0]; simpl.
  - split; [by left|lia].
  - destruct (Z.compare_spec (2 * r) d) as [H|H|H]; simpl.
    + destruct (Z.even q); split; try tauto; lia.
    + split; [by left|lia].
    + split; [by right|lia].
  - split; [by left|lia].
  - destruct (Z.compare_spec (2 * r + 1) d) as [H|H|H]; simpl.
    + split; [by left|lia].
    + split; [by left|lia].
    + split; [by right|].
      assert (2 * r <> d).
      { intros <-. rewrite Z.even_mul in Hd. discriminate. }
      lia.
Qed.

Lemma new_location_exact d r : 0 <= r < d -> (new_location d r = loc_Exact <-> r = 0).
Proof.
  intros Hr. unfold new_location, new_location_even, new_location_odd.
  destruct (Z.even d); destruct (Z.eqb_spec r 0); try tauto;
    (split; [|done]); by destruct (_ ?= _).
Qed.

(** The same after one more bit [q = 2 h + b] has been shifted out. *)
Lemma rne_shifted q d r :
  0 <= r < d ->
  let mrs := shr_1 (shr_record_of_loc (Zpos q) (new_location d r)) in
  let m := round_nearest_even (shr_m mrs) (loc_of_shr_record mrs) in
  2 * m - 1 <= Zpos q <= 2 * m + 1 /\
  Z.abs (2 * m * d - (Zpos q * d + r)) <= d.
Proof.
  intros Hr. pose proof (new_location_exact d r Hr) as Hex.
  destruct (new_location d r) as [|[]] eqn:Hl;
    [assert (r = 0) as -> by tauto
    |assert (r <> 0) by (intros Hr0; apply Hex in Hr0; discriminate)..];
    destruct q as [h|h|];
    cbn [shr_1 shr_record_of_loc shr_m loc_of_shr_record round_nearest_even orb];
    try destruct (Z.even (Zpos h)); simpl; lia.
Qed.

(** The second rounding step of [binary_round_aux]: a mantissa that the
    first step carried to [2 ^ 53] is halved. *)
Lemma round_finish s m2 e :
  2 ^ 52 <= m2 <= 2 ^ 53 -> -1074 <= e <= 960 ->
  exists M E,
    (let '(mrs, e') := shr_fexp prec emax m2 e loc_Exact in
     match shr_m mrs with
     | Z0 => S754_zero s
     | Zpos m => if e' <=? emax - prec then S754_finite s m e' else S754_infinity s
     | Zneg _ => S754_nan
     end) = S754_finite s M E /\
    2 ^ 52 <= Zpos M < 2 ^ 53 /\
    ((Zpos M = m2 /\ E = e) \/ (2 * Zpos M = m2 /\ E = e + 1)).
Proof.
  intros Hm He. destruct m2 as [|p|p]; try lia.
  destruct (Z.eq_dec (Zpos p) (2 ^ 53)) as [Heq|Hne].
  - assert (p = 9007199254740992%positive) as ->
      by (change (2 ^ 53) with 9007199254740992 in Heq; lia).
    unfold shr_fexp.
    change (Zdigits2 (Zpos 9007199254740992)) with 54.
    rewrite fexp_normal by lia. replace (54 + e - 53 - e) with 1 by lia.
    cbn [shr SpecFloat.iter_pos shr_record_of_loc shr_1 shr_m].
    replace (e + 1 <=? emax - prec) with true
      by (symmetry; apply Z.leb_le; unfold emax, prec; lia).
    eexists _, _. split; [reflexivity|].
    change (2 ^ 52) with 4503599627370496. change (2 ^ 53) with 9007199254740992.
    split; [lia|]. right. lia.
  - assert (Zpos (digits2_pos p) = 53) as Hd by (apply digits2_pos_unique; lia).
    rewrite shr_fexp_normal by lia. cbn [shr_record_of_loc shr_m].
    replace (e <=? emax - prec) with true
      by (symmetry; apply Z.leb_le; unfold emax, prec; lia).
    eexists _, _. split; [reflexivity|]. split; [lia|]. left. lia.
Qed.

Lemma binary_round_aux_div s q e d r :
  2 ^ 52 <= Zpos q < 2 ^ 54 -> 0 <= r < d -> -1074 <= e <= 900 ->
  exists M E k,
    binary_round_aux prec emax s (Zpos q) e (new_location d r) = S754_finite s M E /\
    E = e + k /\ 0 <= k <= 2 /\ 2 ^ 52 <= Zpos M < 2 ^ 53 /\
    2 * Z.abs (Zpos M * 2 ^ k * d - (Zpos q * d + r)) <= d * 2 ^ k.
Proof.
  intros Hq Hr He. unfold binary_round_aux.
  destruct (Z_lt_le_dec (Zpos q) (2 ^ 53)) as [Hlt|Hge].
  - assert (Zpos (digits2_pos q) = 53) as Hd by (apply digits2_pos_unique; lia).
    rewrite shr_fexp_normal by lia.
    rewrite shr_m_of_loc, loc_of_shr_record_of_loc.
    pose proof (rne_new_location (Zpos q) d r Hr) as [Hm Hacc].
    set (m := round_nearest_even (Zpos q) (new_location d r)) in *.
    destruct (round_finish s m e) as (M & E & -> & HM & HE); [lia|lia|].
    destruct HE as [[HMm ->]|[HMm ->]].
    + exists M, e, 0. rewrite HMm. repeat split; try lia.
    + exists M, (e + 1), 1. repeat split; try lia.
  - assert (Zpos (digits2_pos q) = 54) as Hd by (apply digits2_pos_unique; lia).
    unfold shr_fexp at 1. simpl Zdigits2. rewrite Hd.
    rewrite fexp_normal by lia. replace (54 + e - 53 - e) with 1 by lia.
    cbn [shr SpecFloat.iter_pos]. cbv beta iota.
    pose proof (rne_shifted q d r Hr) as [Hm Hacc]. cbv zeta in Hm, Hacc.
    set (mrs := shr_1 (shr_record_of_loc (Zpos q) (new_location d r))) in *.
    set (m := round_nearest_even (shr_m mrs) (loc_of_shr_record mrs)) in *.
    destruct (round_finish s m (e + 1)) as (M & E & -> & HM & HE); [lia|lia|].
    destruct HE as [[HMm ->]|[HMm ->]].
    + exists M, (e + 1), 1. rewrite HMm. repeat split; try lia.
    + exists M, (e + 1 + 1), 2. repeat split; try lia.
Qed.

Lemma div_finite mx ex my ey :
  Zpos (digits2_pos mx) = 53 -> Zpos (digits2_pos my) = 53 ->
  -60 <= ex <= 0 -> -60 <= ey <= 0 ->
  exists M E k,
    div (S754_finite false mx ex) (S754_finite false my ey) = S754_finite false M E /\
    E = ex - ey - 53 + k /\ 0 <= k <= 2 /\ 2 ^ 52 <= Zpos M < 2 ^ 53 /\
    2 * Z.abs (Zpos M * 2 ^ k * Zpos my - Zpos mx * 2 ^ 53) <= Zpos my * 2 ^ k.
Proof.
  intros Hdx Hdy Hex Hey. unfold div, SFdiv, SFdiv_core_binary.
  simpl Zdigits2. rewrite Hdx, Hdy. rewrite fexp_normal by lia.
  replace (Z.min (53 + ex - (53 + ey) - 53) (ex - ey)) with (ex - ey - 53) by lia.
  replace (ex - ey - (ex - ey - 53)) with 53 by lia.
  rewrite Z.shiftl_mul_pow2 by lia.
  pose proof (digits2_pos_bounds mx) as Hbx. rewrite Hdx in Hbx.
  pose proof (digits2_pos_bounds my) as Hby. rewrite Hdy in Hby.
  pose proof (Z_div_mod (Zpos mx * 2 ^ 53) (Zpos my) ltac:(lia)) as Hdiv.
  destruct (Z.div_eucl (Zpos mx * 2 ^ 53) (Zpos my)) as [q r].
  destruct Hdiv as [Hqr Hr].
  change (53 - 1) with 52 in *.
  assert (2 ^ 52 <= q < 2 ^ 54) as Hq.
  { change (2 ^ 52) with 4503599627370496 in *. change (2 ^ 53) with 9007199254740992 in *.
    change (2 ^ 54) with 18014398509481984. nia. }
  destruct q as [|q|q]; try lia.
  destruct (binary_round_aux_div (xorb false false) q (ex - ey - 53) (Zpos my) r Hq Hr)
    as (M & E & k & Hres & HE & Hk & HM & Hacc); [lia|].
  exists M, E, k. rewrite Hres. simpl xorb. repeat split; try lia.
Qed.

Lemma Zdigits2_bounds z : 0 < z -> 2 ^ (Zdigits2 z - 1) <= z < 2 ^ Zdigits2 z.
Proof. intros Hz. destruct z as [|p|p]; try lia. apply digits2_pos_bounds. Qed.

Lemma pow2_cancel a x y : 0 <= a -> 2 ^ a * x <= 2 ^ a * y -> x <= y.
Proof. intros Ha H. assert (0 < 2 ^ a) by (apply Z.pow_pos_nonneg; lia). nia. Qed.

(** Division of two converted integers: the quotient of [0 < c <= n < 2 ^ 53]
    is the normal float [M * 2 ^ E] within half a unit in the last place of
    [c / n], and [E <= -52]. *)
Lemma div_of_int_normal c n :
  0 < c <= n -> n < 2 ^ 53 ->
  exists M E,
    div (of_int c) (of_int n) = S754_finite false M E /\
    E <= -52 /\ 2 ^ 52 <= Zpos M < 2 ^ 53 /\
    2 * Z.abs (Zpos M * n - c * 2 ^ (- E)) <= n.
Proof.
  intros Hc Hn.
  rewrite (of_int_exact c), (of_int_exact n) by lia.
  pose proof (Zdigits2_bounds c ltac:(lia)) as Hdc.
  pose proof (Zdigits2_bounds n ltac:(lia)) as Hdn.
  set (dc := Zdigits2 c) in *. set (dn := Zdigits2 n) in *.
  assert (0 < dc) as Hdc0.
  { destruct c as [|p|p]; try lia. unfold dc. simpl. lia. }
  assert (dc <= dn) as Hle.
  { destruct (Z_lt_le_dec dn dc) as [H|H]; [|lia].
    assert (2 ^ dn <= 2 ^ (dc - 1)) by (apply Z.pow_le_mono_r; lia). lia. }
  assert (dn <= 53) as Hdn53.
  { destruct (Z_lt_le_dec 53 dn) as [H|H]; [|lia].
    assert (2 ^ 53 <= 2 ^ (dn - 1)) by (apply Z.pow_le_mono_r; lia). lia. }
  assert (forall z d, 0 < d <= 53 -> 2 ^ (d - 1) <= z < 2 ^ d ->
            2 ^ (53 - 1) <= z * 2 ^ (53 - d) < 2 ^ 53) as Hnorm.
  { intros z d Hd Hz.
    assert (2 ^ (53 - 1) = 2 ^ (d - 1) * 2 ^ (53 - d)) as E1
      by (rewrite <- Z.pow_add_r by lia; f_equal; lia).
    assert (2 ^ 53 = 2 ^ d * 2 ^ (53 - d)) as E2
      by (rewrite <- Z.pow_add_r by lia; f_equal; lia).
    assert (0 < 2 ^ (53 - d)) by (apply Z.pow_pos_nonneg; lia).
    rewrite E1, E2. nia. }
  pose proof (Hnorm c dc ltac:(lia) Hdc) as Hmc.
  pose proof (Hnorm n dn ltac:(lia) Hdn) as Hmn.
  set (mc := c * 2 ^ (53 - dc)) in *. set (mn := n * 2 ^ (53 - dn)) in *.
  assert (0 < mc) as Hmc0 by (assert (0 < 2 ^ (53 - 1)) by (apply Z.pow_pos_nonneg; lia); lia).
  assert (0 < mn) as Hmn0 by (assert (0 < 2 ^ (53 - 1)) by (apply Z.pow_pos_nonneg; lia); lia).
  destruct (div_finite (Z.to_pos mc) (dc - 53) (Z.to_pos mn) (dn - 53))
    as (M & E & k & Hres & HE & Hk & HM & Hacc);
    [apply digits2_pos_unique; rewrite Z2Pos.id by lia; exact Hmc
    |apply digits2_pos_unique; rewrite Z2Pos.id by lia; exact Hmn
    |lia|lia|].
  rewrite !Z2Pos.id in Hacc by lia.
  exists M, E. split; [exact Hres|].
  set (t := 53 + dn - dc - k).
  assert (- E = t) as Ht by (unfold t; lia).
  assert (51 <= t) as Ht51 by (unfold t; lia).
  rewrite Ht.
  assert (2 * Z.abs (Zpos M * n - c * 2 ^ t) <= n) as Hhalf.
  { apply (pow2_cancel (53 - dn + k)); [lia|].
    assert (mc * 2 ^ 53 = 2 ^ (53 - dn + k) * (c * 2 ^ t)) as Ec.
    { unfold mc, t. rewrite <- Z.mul_assoc, <- Z.pow_add_r by lia.
      rewrite (Z.mul_comm (2 ^ _) (c * _)), <- Z.mul_assoc, <- Z.pow_add_r by lia.
      f_equal. f_equal. lia. }
    assert (Zpos M * 2 ^ k * mn = 2 ^ (53 - dn + k) * (Zpos M * n)) as Em.
    { unfold mn. rewrite Z.pow_add_r by lia. ring. }
    assert (mn * 2 ^ k = 2 ^ (53 - dn + k) * n) as En.
    { unfold mn. rewrite Z.pow_add_r by lia. ring. }
    rewrite Ec, Em, En in Hacc.
    rewrite <- Z.mul_sub_distr_l, Z.abs_mul, Z.abs_eq in Hacc
      by (apply Z.pow_nonneg; lia).
    lia. }
  split; [|split; [exact HM|exact Hhalf]].
  destruct (Z.eq_dec t 51) as [Heq|Hne]; [|lia].
  exfalso. rewrite Heq in Hhalf.
  change (2 ^ 51) with 2251799813685248 in Hhalf.
  change (2 ^ 52) with 4503599627370496 in HM.
  nia.
Qed.

Lemma div_of_int_accuracy c n :
  0 < c <= n -> n < 2 ^ 53 ->
  exists M E,
    div (of_int c) (of_int n) = S754_finite false M E /\
    E <= -52 /\ 2 * Z.abs (Zpos M * n - c * 2 ^ (- E)) <= n.
Proof.
  intros Hc Hn.
  destruct (div_of_int_normal c n Hc Hn) as (M & E & Hres & HE & _ & Hacc). eauto.
Qed.

Lemma div_zero_of_int n :
  0 < n < 2 ^ 53 -> div (of_int 0) (of_int n) = S754_zero false.
Proof. intros Hn. by rewrite (of_int_exact n). Qed.

Lemma div_of_int_close c n :
  0 <= c <= n -> 0 < n < 2 ^ 53 ->
  exists v,
    to_Q (div (of_int c) (of_int n)) = Some v /\
    (Qabs (v - (c # Z.to_pos n)) <= 1 # 2 ^ 53)%Q.
Proof.
  intros Hc Hn. destruct (Z.eq_dec c 0) as [->|Hc0].
  - rewrite div_zero_of_int by lia. eexists. split; [reflexivity|]. done.
  - destruct (div_of_int_accuracy c n) as (M & E & -> & HE & Hacc); [lia|lia|].
    destruct E as [|k|k]; try lia. eexists. split; [reflexivity|].
    change (- Zneg k) with (Zpos k) in Hacc.
    assert (52 <= Zpos k) as Hk by lia.
    unfold Qle, Qabs, Qminus, Qplus, Qopp. cbn [Qnum Qden].
    rewrite Pos2Z.inj_mul, Pos2Z.inj_pow, Z2Pos.id by lia.
    change (Zpos (2 ^ 53)) with (2 ^ 53).
    assert (2 ^ Zpos k = 2 ^ 52 * 2 ^ (Zpos k - 52)) as Epow
      by (rewrite <- Z.pow_add_r by lia; f_equal; lia).
    assert (0 < 2 ^ (Zpos k - 52)) by (apply Z.pow_pos_nonneg; lia).
    replace (Zpos M * n + - c * 2 ^ Zpos k) with (Zpos M * n - c * 2 ^ Zpos k) by ring.
    set (a := Z.abs (Zpos M * n - c * 2 ^ Zpos k)) in *.
    assert (0 <= a) by apply Z.abs_nonneg.
    rewrite Epow. change (2 ^ 53) with (2 * 2 ^ 52). 
    assert (0 < 2 ^ 52) by done.
    nia.
Qed.

(** The quotient of two converted integers [0 <= c <= n < 2 ^ 53] lies in
    the unit interval and meets its ends exactly when [c / n] does. *)
Lemma div_of_int_unit c n :
  0 <= c <= n -> 0 < n < 2 ^ 53 ->
  exists v,
    to_Q (div (of_int c) (of_int n)) = Some v /\
    (0 <= v <= 1)%Q /\ ((v == 0)%Q <-> c = 0) /\ ((v == 1)%Q <-> c = n).
Proof.
  intros Hc Hn. destruct (Z.eq_dec c 0) as [->|Hc0].
  - rewrite div_zero_of_int by lia. eexists. split; [reflexivity|].
    split; [done|]. split; [done|]. split; [done|lia].
  - destruct (div_of_int_accuracy c n) as (M & E & -> & HE & Hacc); [lia|lia|].
    destruct E as [|k|k]; try lia. eexists. split; [reflexivity|].
    change (- Zneg k) with (Zpos k) in Hacc.
    assert (52 <= Zpos k) as Hk by lia.
    assert (2 ^ Zpos k = 2 ^ 52 * 2 ^ (Zpos k - 52)) as Epow
      by (rewrite <- Z.pow_add_r by lia; f_equal; lia).
    assert (0 < 2 ^ (Zpos k - 52)) as Hpos by (apply Z.pow_pos_nonneg; lia).
    assert (0 < 2 ^ 52) as H52 by done.
    assert (n < 2 * 2 ^ 52) as Hn' by (change (2 * 2 ^ 52) with (2 ^ 53); lia).
    unfold Qle, Qeq. cbn [Qnum Qden].
    rewrite Pos2Z.inj_pow. change (Zpos 2) with 2.
    set (P := 2 ^ Zpos k) in *.
    assert (2 ^ 52 <= P) as HP by nia.
    split; [|split]; [split| |].
    + lia.
    + nia.
    + split; [lia|done].
    + split.
      * intros HM. assert (Zpos M = P) as HMP by lia. rewrite HMP in Hacc.
        destruct (Z.eq_dec c n) as [|Hne]; [done|]. exfalso.
        assert (c <= n - 1) by lia.
        rewrite Z.abs_eq in Hacc by nia. nia.
      * intros ->. 
        assert (Zpos M * n - n * P = n * (Zpos M - P)) as Heq by ring.
        rewrite Heq, Z.abs_mul, (Z.abs_eq n) in Hacc by lia.
        assert (Z.abs (Zpos M - P) = 0) by nia. lia.
Qed.

(** The quotients by one divisor are ordered as the dividends are. *)
Lemma div_of_int_lt c1 c2 n :
  0 <= c1 < c2 -> c2 <= n -> n < 2 ^ 53 ->
  exists u v,
    to_Q (div (of_int c1) (of_int n)) = Some u /\
    to_Q (div (of_int c2) (of_int n)) = Some v /\ (u < v)%Q.
Proof.
  intros Hc1 Hc2 Hn.
  destruct (div_of_int_normal c2 n) as (M2 & E2 & -> & HE2 & HM2 & Hacc2); [lia|lia|].
  destruct E2 as [|k2|k2]; try lia.
  change (- Zneg k2) with (Zpos k2) in Hacc2.
  assert (0 < 2 ^ 52) as H52 by done.
  assert (2 ^ 53 = 2 * 2 ^ 52) as E53 by done.
  assert (forall k, 52 <= Zpos k -> 2 ^ Zpos k = 2 ^ 52 * 2 ^ (Zpos k - 52) /\
                                  1 <= 2 ^ (Zpos k - 52)) as Hpow.
  { intros k Hk. split; [rewrite <- Z.pow_add_r by lia; f_equal; lia|].
    assert (0 < 2 ^ (Zpos k - 52)) by (apply Z.pow_pos_nonneg; lia). lia. }
  destruct (Z.eq_dec c1 0) as [->|Hc10].
  - rewrite div_zero_of_int by lia. do 2 eexists. split; [reflexivity|]. split; [reflexivity|].
    unfold Qlt. simpl. lia.
  - destruct (div_of_int_normal c1 n) as (M1 & E1 & -> & HE1 & HM1 & Hacc1); [lia|lia|].
    destruct E1 as [|k1|k1]; try lia.
    change (- Zneg k1) with (Zpos k1) in Hacc1.
    do 2 eexists. split; [reflexivity|]. split; [reflexivity|].
    unfold Qlt. cbn [Qnum Qden]. rewrite !Pos2Z.inj_pow. change (Zpos 2) with 2.
    destruct (Hpow k1 ltac:(lia)) as [Ek1 Ha]. destruct (Hpow k2 ltac:(lia)) as [Ek2 Hb].
    set (a := 2 ^ (Zpos k1 - 52)) in *. set (b := 2 ^ (Zpos k2 - 52)) in *.
    rewrite Ek1 in Hacc1 |- *. rewrite Ek2 in Hacc2 |- *.
    set (P := 2 ^ 52) in *.
    (* the first quotient is below one, so its exponent is below -52 *)
    assert (2 <= a) as Ha2.
    { destruct (Z.eq_dec a 1) as [Ha1|]; [|lia]. exfalso. rewrite Ha1 in Hacc1.
      assert (c1 <= n - 1) by lia.
      assert (Zpos M1 * n - c1 * (P * 1) >= n * P - (n - 1) * P) by nia.
      rewrite Z.abs_eq in Hacc1 by nia. nia. }
    assert (Zpos M1 * b < Zpos M2 * a); [|nia].
    assert (2 * (Zpos M1 * n) <= 2 * (c1 * (P * a)) + n) as B1 by lia.
    assert (2 * (c2 * (P * b)) - n <= 2 * (Zpos M2 * n)) as B2 by lia.
    destruct (Z.eq_dec c2 n) as [->|Hc2n].
    + (* the second quotient is one *)
      assert (Zpos M2 = P * b) as HM2b.
      { assert (Zpos M2 * n - n * (P * b) = n * (Zpos M2 - P * b)) as Heq by ring.
        rewrite Heq, Z.abs_mul, (Z.abs_eq n) in Hacc2 by lia.
        assert (Z.abs (Zpos M2 - P * b) = 0) by nia. lia. }
      rewrite HM2b.
      assert (Zpos M1 < P * a); [|nia].
      assert (2 * (Zpos M1 * n) <= 2 * ((n - 1) * (P * a)) + n) by nia.
      nia.
    + assert (2 <= b) as Hb2.
      { destruct (Z.eq_dec b 1) as [Hb1|]; [|lia]. exfalso. rewrite Hb1 in Hacc2.
        assert (c2 <= n - 1) by lia.
        rewrite Z.abs_eq in Hacc2 by nia. nia. }
      assert (c1 + 1 <= c2) as Hc by lia.
      assert (2 * n * (Zpos M1 * b) <= 2 * (c1 * (P * a)) * b + n * b) as B1' by nia.
      assert (2 * (c2 * (P * b)) * a - n * a <= 2 * n * (Zpos M2 * a)) as B2' by nia.
      assert (n * a + n * b < 2 * P * a * b).
      { assert (a + b <= a * b) by nia. assert (n < 2 * P) by lia. nia. }
      assert (2 * (c1 * (P * a)) * b + 2 * P * a * b <= 2 * (c2 * (P * b)) * a) by nia.
      nia.
Qed.

End Float64_division.

(** ** Converted integers are numbers *)

Section Float64_numbers.
Import Float64.

Lemma iter_pos_invariant {A} (P : A -> Prop) (f : A -> A) :
  (forall x, P x -> P (f x)) -> forall n x, P x -> P (SpecFloat.iter_pos f n x).
Proof.
  intros Hf. induction n as [n IH|n IH|]; intros x Hx; simpl; auto.
Qed.

Lemma shr_1_nonneg mrs : 0 <= shr_m mrs -> 0 <= shr_m (shr_1 mrs).
Proof. destruct mrs as [[|[p|p|]|p] r s]; simpl; lia. Qed.

Lemma shr_fexp_nonneg m e l : 0 <= m -> 0 <= shr_m (fst (shr_fexp prec emax m e l)).
Proof.
  intros Hm. unfold shr_fexp, shr.
  assert (0 <= shr_m (shr_record_of_loc m l)) as H0 by (by destruct l as [|[]]).
  destruct (fexp prec emax (Zdigits2 m + e) - e) as [|p|p]; simpl; [done| |done].
  apply (iter_pos_invariant (fun mrs => 0 <= shr_m mrs)); [apply shr_1_nonneg|exact H0].
Qed.

Lemma round_nearest_even_nonneg m l : 0 <= m -> 0 <= round_nearest_even m l.
Proof. intros Hm. destruct l as [|[]]; simpl; try lia. destruct (Z.even m); lia. Qed.

Lemma binary_round_aux_not_nan s m e l :
  0 <= m -> binary_round_aux prec emax s m e l <> S754_nan.
Proof.
  intros Hm. unfold binary_round_aux.
  pose proof (shr_fexp_nonneg m e l Hm) as H1.
  destruct (shr_fexp prec emax m e l) as [mrs1 e1]. simpl in H1.
  pose proof (shr_fexp_nonneg (round_nearest_even (shr_m mrs1) (loc_of_shr_record mrs1))
                e1 loc_Exact (round_nearest_even_nonneg _ _ H1)) as H2.
  destruct (shr_fexp prec emax _ e1 loc_Exact) as [mrs2 e2]. simpl in H2.
  destruct (shr_m mrs2); [done| |lia]. by destruct (e2 <=? emax - prec).
Qed.

Lemma is_nan_false x : x <> S754_nan -> is_nan x = false.
Proof. by destruct x. Qed.

(** The conversion of an integer is never the not-a-number value. *)
Lemma of_int_not_nan z : is_nan (of_int z) = false.
Proof.
  unfold of_int, binary_normalize. destruct z as [|q|q]; [done| |].
  - unfold binary_round. destruct (shl_align _ _ _) as [mz ez].
    apply is_nan_false, binary_round_aux_not_nan. lia.
  - unfold binary_round. destruct (shl_align _ _ _) as [mz ez].
    apply is_nan_false, binary_round_aux_not_nan. lia.
Qed.

End Float64_numbers.

(** ** The null profiler *)

Section Profiler.

Lemma count_true_isna t vs :
  count_true (map (fun v => VBool (scalar_isna t v)) vs)
  = Z.of_nat (length (List.filter (scalar_isna t) vs)).
Proof.
  induction vs as [|v vs IH]; [done|].
  simpl. destruct (scalar_isna t v); simpl; rewrite IH; lia.
Qed.

Lemma traverse_sum_isna cols :
  traverse sum_column (map snd (map (fun lc : label * Column => (fst lc, isna_column (snd lc))) cols))
  = Ok (map (fun lc => VInt (wrap64 (Z.of_nat (nulls_in (snd lc))))) cols).
Proof.
  induction cols as [|[l c] cols IH]; [done|].
  simpl. rewrite IH. unfold sum_column. simpl. by rewrite count_true_isna.
Qed.

Lemma sum_isna_frame T :
  sum_frame (isna_frame T) = Ok (summed T).
Proof.
  unfold sum_frame, isna_frame. simpl. rewrite traverse_sum_isna.
  unfold summed, columns, null_counts. simpl. rewrite !map_map. simpl.
  by destruct (df_columns T).
Qed.

Lemma DataFrame_isna_run w df d :
  heap w !! df = Some (ODataFrame d) ->
  DataFrame_isna df w = (Ok (next w), alloc_world w (ODataFrame (isna_frame d))).
Proof. intros Hl. unfold DataFrame_isna. by erewrite bind_run by by apply get_frame_run. Qed.

Lemma DataFrame_sum_run w df d s :
  heap w !! df = Some (ODataFrame d) -> sum_frame d = Ok s ->
  DataFrame_sum df w = (Ok (next w), alloc_world w (OSeries s)).
Proof.
  intros Hl Hs. unfold DataFrame_sum. erewrite bind_run by by apply get_frame_run.
  unfold lift, mbind, M_bind. by rewrite Hs.
Qed.

Lemma Series_to_frame_run w s x :
  heap w !! s = Some (OSeries x) ->
  Series_to_frame s w = (Ok (next w), alloc_world w (ODataFrame (to_frame x))).
Proof. intros Hl. unfold Series_to_frame. by erewrite bind_run by by apply get_series_run. Qed.

Lemma DataFrame_reset_index_run w df d d' :
  heap w !! df = Some (ODataFrame d) -> reset_index d = Ok d' ->
  DataFrame_reset_index df w = (Ok (next w), alloc_world w (ODataFrame d')).
Proof.
  intros Hl Hs. unfold DataFrame_reset_index. erewrite bind_run by by apply get_frame_run.
  unfold lift, mbind, M_bind. by rewrite Hs.
Qed.

Lemma DataFrame_rename_run w df d mapping :
  heap w !! df = Some (ODataFrame d) ->
  DataFrame_rename df mapping w = (Ok (next w), alloc_world w (ODataFrame (rename mapping d))).
Proof. intros Hl. unfold DataFrame_rename. by erewrite bind_run by by apply get_frame_run. Qed.

Lemma DataFrame_getitem_run w df d key o :
  heap w !! df = Some (ODataFrame d) -> getitem d key = Ok o ->
  DataFrame_getitem df key w = (Ok (next w), alloc_world w o).
Proof.
  intros Hl Hs. unfold DataFrame_getitem. erewrite bind_run by by apply get_frame_run.
  unfold lift, mbind, M_bind. by rewrite Hs.
Qed.

Lemma len_run w df d :
  heap w !! df = Some (ODataFrame d) -> len df w = (Ok (Z.of_nat (nrows d)), w).
Proof. intros Hl. unfold len. by erewrite bind_run by by apply get_frame_run. Qed.

Lemma Series_truediv_run w s x n q :
  heap w !! s = Some (OSeries x) -> truediv x n = Ok q ->
  Series_truediv s n w = (Ok (next w), alloc_world w (OSeries q)).
Proof.
  intros Hl Hs. unfold Series_truediv. erewrite bind_run by by apply get_series_run.
  unfold lift, mbind, M_bind. by rewrite Hs.
Qed.

Lemma DataFrame_setitem_run w df d key s x d' :
  heap w !! df = Some (ODataFrame d) -> heap w !! s = Some (OSeries x) ->
  setitem d key x = Ok d' ->
  DataFrame_setitem df key s w = (Ok tt, store_world w df (ODataFrame d')).
Proof.
  intros Hl Hx Hs. unfold DataFrame_setitem.
  erewrite bind_run by by apply get_frame_run.
  erewrite bind_run by by apply get_series_run.
  unfold lift, mbind, M_bind. by rewrite Hs.
Qed.

Lemma reset_index_summed T :
  exists d, reset_index (to_frame (summed T)) = Ok d /\
    rename [(LStr "index", LStr "Column"); (LInt 0, LStr "Null Count")] d = renamed T.
Proof.
  eexists. split; reflexivity.
Qed.

Lemma getitem_renamed T :
  getitem (renamed T) (LStr "Null Count") = Ok (OSeries (null_count_series T)).
Proof. reflexivity. Qed.

Lemma truediv_null_count T :
  truediv (null_count_series T) (Z.of_nat (nrows T)) = Ok (null_pct_series T).
Proof.
  unfold truediv, null_count_series, null_pct_series, null_pcts. simpl.
  rewrite !map_map. simpl. by destruct (df_columns T).
Qed.

Lemma setitem_renamed T :
  setitem (renamed T) (LStr "Null Pct") (null_pct_series T) = Ok (report T).
Proof. unfold setitem. by rewrite bool_decide_eq_true_2. Qed.

Lemma profile_nulls_run w df T :
  heap w !! df = Some (ODataFrame T) ->
  exists r w',
    profile_nulls df w = (Ok r, w') /\ heap w !! r = None /\
    heap w' !! r = Some (ODataFrame (report T)) /\ extends w w'.
Proof.
  intros Hdf. unfold profile_nulls.
  destruct (reset_index_summed T) as (d4 & Hd4 & Hd5).
  set (w1 := alloc_world w (ODataFrame (isna_frame T))).
  set (w2 := alloc_world w1 (OSeries (summed T))).
  set (w3 := alloc_world w2 (ODataFrame (to_frame (summed T)))).
  set (w4 := alloc_world w3 (ODataFrame d4)).
  set (w5 := alloc_world w4 (ODataFrame (renamed T))).
  set (w6 := alloc_world w5 (OSeries (null_count_series T))).
  set (w7 := alloc_world w6 (OSeries (null_pct_series T))).
  assert (extends w w4) as E4.
  { do 4 (eapply extends_trans; [|apply extends_alloc]). apply extends_refl. }
  assert (extends w4 w7) as E7.
  { do 3 (eapply extends_trans; [|apply extends_alloc]). apply extends_refl. }
  assert (heap w4 !! next w4 = None) as Hfresh by apply next_fresh.
  assert (heap w !! next w4 = None) as Hnew.
  { destruct (heap w !! next w4) as [o|] eqn:Ho; [|done].
    apply E4 in Ho. congruence. }
  exists (next w4), (store_world w7 (next w4) (ODataFrame (report T))).
  split; [|split; [done|split]].
  - rewrite (bind_run _ _ w (next w) w1) by by apply DataFrame_isna_run.
    rewrite (bind_run _ _ w1 (next w1) w2)
      by (eapply DataFrame_sum_run; [apply lookup_alloc_new|apply sum_isna_frame]).
    rewrite (bind_run _ _ w2 (next w2) w3)
      by (eapply Series_to_frame_run; apply lookup_alloc_new).
    rewrite (bind_run _ _ w3 (next w3) w4)
      by (eapply DataFrame_reset_index_run; [apply lookup_alloc_new|done]).
    rewrite (bind_run _ _ w4 (next w4) w5)
      by (unfold w5; rewrite <- Hd5; eapply DataFrame_rename_run; apply lookup_alloc_new).
    rewrite (bind_run _ _ w5 (next w5) w6)
      by (eapply DataFrame_getitem_run; [apply lookup_alloc_new|apply getitem_renamed]).
    rewrite (bind_run _ _ w6 (Z.of_nat (nrows T)) w6).
    2:{ apply len_run. apply E4 in Hdf. by do 2 apply lookup_alloc_old. }
    rewrite (bind_run _ _ w6 (next w6) w7)
      by (eapply Series_truediv_run; [apply lookup_alloc_new|apply truediv_null_count]).
    rewrite (bind_run _ _ w7 tt (store_world w7 (next w4) (ODataFrame (report T)))); [done|].
    eapply DataFrame_setitem_run; [|apply lookup_alloc_new|apply setitem_renamed].
    do 2 apply lookup_alloc_old. apply lookup_alloc_new.
  - apply lookup_insert_eq.
  - apply extends_store; [|done]. by eapply extends_trans.
Qed.

Lemma wrap64_small z : 0 <= z < 2 ^ 63 -> wrap64 z = z.
Proof.
  intros Hz. unfold wrap64.
  rewrite Z.mod_small by lia. lia.
Qed.

Lemma nulls_in_le c : (nulls_in c <= length (c_values c))%nat.
Proof. unfold nulls_in. apply List.filter_length_le. Qed.

(** The cells [isna] marks are the null cells. *)
Lemma scalar_isna_null_cell t v : scalar_isna t v = true <-> null_cell t v.
Proof.
  split.
  - destruct v as [|b|z|f|s|ns]; simpl; try done; [constructor|].
    destruct f; try (by rewrite andb_false_r).
    destruct t; simpl; try done; by constructor.
  - destruct 1 as [|H1 H2]; [done|]. by destruct t.
Qed.

Lemma nulls_in_null_rows c : nulls_in c = null_rows c.
Proof.
  unfold nulls_in, null_rows. induction (c_values c) as [|v vs IH]; [done|].
  simpl. rewrite filter_cons. pose proof (scalar_isna_null_cell (c_dtype c) v) as Hv.
  destruct (scalar_isna (c_dtype c) v); case_decide as Hn; simpl; rewrite IH; try done.
  - destruct Hn. by apply Hv.
  - by apply Hv in Hn.
Qed.

Lemma wf_frame_columns T l c :
  wf_frame T = true -> (l, c) ∈ df_columns T -> length (c_values c) = nrows T.
Proof.
  unfold wf_frame. rewrite andb_true_iff, forallb_forall. intros [Hall _] Hin.
  apply list_elem_of_In, Hall in Hin. by apply Nat.eqb_eq in Hin.
Qed.

Lemma wf_frame_nrows T : wf_frame T = true -> Z.of_nat (nrows T) < 2 ^ 63.
Proof.
  unfold wf_frame. rewrite andb_true_iff. intros [_ H]. by apply Z.ltb_lt in H.
Qed.

Lemma wf_frame_nulls T :
  wf_frame T = true -> Forall (fun lc => (nulls_in (snd lc) <= nrows T)%nat) (df_columns T).
Proof.
  intros Hwf. apply Forall_forall. intros [l c] Hin. simpl.
  rewrite <- (wf_frame_columns T l c Hwf Hin). apply nulls_in_le.
Qed.

Lemma null_counts_wf T :
  wf_frame T = true ->
  null_counts T = map (fun lc => Z.of_nat (nulls_in (snd lc))) (df_columns T).
Proof.
  intros Hwf. unfold null_counts. apply map_ext_Forall.
  eapply Forall_impl; [apply (wf_frame_nulls T Hwf)|].
  intros [l c] Hle. simpl in *. apply wrap64_small.
  pose proof (wf_frame_nrows T Hwf). lia.
Qed.

(** C4.  For a table [T] in the store, [profile_nulls] returns a new frame
    with one row per column of [T], in the order of the columns: the
    [Column] cells are the column labels, and each [Null Count] is the
    number of rows of [T] whose value in that column is null, counted by
    [null_rows] from the cells themselves, between 0 and the row count. *)
Theorem profile_nulls_rows w df T :
  heap w !! df = Some (ODataFrame T) -> wf_frame T = true ->
  exists r w' R,
    profile_nulls df w = (Ok r, w') /\ heap w' !! r = Some (ODataFrame R) /\
    nrows R = length (columns T) /\
    values_of R "Column" = Some (map scalar_of_label (columns T)) /\
    values_of R "Null Count"
      = Some (map (fun lc => VInt (Z.of_nat (null_rows (snd lc)))) (df_columns T)) /\
    Forall (fun lc => 0 <= Z.of_nat (null_rows (snd lc)) <= Z.of_nat (nrows T)) (df_columns T).
Proof.
  intros Hdf Hwf.
  destruct (profile_nulls_run w df T Hdf) as (r & w' & Hrun & _ & Hr & _).
  exists r, w', (report T). repeat split; try done.
  - unfold values_of, column_of. simpl. rewrite (null_counts_wf T Hwf).
    rewrite map_map. f_equal. apply map_ext. intros lc.
    by rewrite nulls_in_null_rows.
  - eapply Forall_impl; [apply (wf_frame_nulls T Hwf)|]. simpl.
    intros lc. rewrite nulls_in_null_rows. lia.
Qed.

Lemma nrows_zero_counts T :
  wf_frame T = true -> nrows T = 0%nat ->
  null_counts T = replicate (length (columns T)) 0.
Proof.
  intros Hwf H0. rewrite (null_counts_wf T Hwf). unfold columns.
  pose proof (wf_frame_nulls T Hwf) as Hall. rewrite H0 in Hall.
  induction Hall as [|[l c] cols Hle _ IH]; [done|].
  simpl in *. rewrite IH. f_equal. lia.
Qed.

(** C3.  In every row of the report [Null Pct] is the [float64] quotient of
    that row's [Null Count] by the row count of the table.  For a table
    without rows every count is 0 and every percentage is the not-a-number
    value, and the call still returns.  For a table with rows (fewer than
    [2 ^ 53]) every percentage is a finite number within [2 ^ -53] of the
    exact quotient. *)
Theorem profile_nulls_pct w df T :
  heap w !! df = Some (ODataFrame T) -> wf_frame T = true ->
  exists r w' R counts,
    profile_nulls df w = (Ok r, w') /\ heap w' !! r = Some (ODataFrame R) /\
    length counts = length (columns T) /\
    values_of R "Null Count" = Some (map VInt counts) /\
    values_of R "Null Pct"
      = Some (map (fun n => VFloat (Float64.div (Float64.of_int n)
                                      (Float64.of_int (Z.of_nat (nrows T))))) counts) /\
    (nrows T = 0%nat ->
       values_of R "Null Count" = Some (replicate (length (columns T)) (VInt 0)) /\
       values_of R "Null Pct" = Some (replicate (length (columns T)) (VFloat S754_nan))) /\
    (0 < Z.of_nat (nrows T) < 2 ^ 53 ->
       Forall (fun n =>
                 exists v,
                   Float64.to_Q (Float64.div (Float64.of_int n)
                                   (Float64.of_int (Z.of_nat (nrows T)))) = Some v /\
                   (Qabs (v - (n # Z.to_pos (Z.of_nat (nrows T)))) <= 1 # 2 ^ 53)%Q)
         counts).
Proof.
  intros Hdf Hwf.
  destruct (profile_nulls_run w df T Hdf) as (r & w' & Hrun & _ & Hr & _).
  exists r, w', (report T), (null_counts T).
  split; [done|]. split; [done|]. split; [|split; [|split; [|split]]].
  - unfold null_counts, columns. by rewrite !length_map.
  - done.
  - unfold values_of, column_of. simpl. unfold null_pcts. by rewrite map_map.
  - intros H0. split.
    + unfold values_of, column_of. simpl. rewrite (nrows_zero_counts T Hwf H0).
      by rewrite fmap_replicate.
    + unfold values_of, column_of. simpl. unfold null_pcts.
      rewrite (nrows_zero_counts T Hwf H0), H0. by rewrite !fmap_replicate.
  - intros Hrows. rewrite (null_counts_wf T Hwf). apply Forall_fmap.
    eapply Forall_impl; [apply (wf_frame_nulls T Hwf)|].
    intros [l c] Hle. simpl in *. apply div_of_int_close; lia.
Qed.

(** C8.  Two calls of [profile_nulls] on the same table, one after the
    other, return two distinct frames with identical contents, and the
    second call leaves the first report as it was. *)
Theorem profile_nulls_twice w df T :
  heap w !! df = Some (ODataFrame T) ->
  exists r1 w1 r2 w2 R,
    profile_nulls df w = (Ok r1, w1) /\ profile_nulls df w1 = (Ok r2, w2) /\
    heap w1 !! r1 = Some (ODataFrame R) /\
    heap w2 !! r1 = Some (ODataFrame R) /\ heap w2 !! r2 = Some (ODataFrame R) /\
    r1 <> r2.
Proof.
  intros Hdf.
  destruct (profile_nulls_run w df T Hdf) as (r1 & w1 & Hrun1 & _ & Hr1 & E1).
  assert (heap w1 !! df = Some (ODataFrame T)) as Hdf1 by by apply E1.
  destruct (profile_nulls_run w1 df T Hdf1) as (r2 & w2 & Hrun2 & Hnew & Hr2 & E2).
  exists r1, w1, r2, w2, (report T). repeat split; try done.
  - by apply E2.
  - intros ->. congruence.
Qed.

(** C9.  [profile_nulls] leaves its argument unchanged: after the call the
    table is the same value at the same reference, as is every other object
    that existed before, the files and the list of opened paths; the report
    is a new object. *)
Theorem profile_nulls_leaves_table w df T :
  heap w !! df = Some (ODataFrame T) ->
  exists r w',
    profile_nulls df w = (Ok r, w') /\
    heap w' !! df = Some (ODataFrame T) /\
    (forall l o, heap w !! l = Some o -> heap w' !! l = Some o) /\
    fs w' = fs w /\ opened w' = opened w /\ r <> df.
Proof.
  intros Hdf.
  destruct (profile_nulls_run w df T Hdf) as (r & w' & Hrun & Hnew & _ & E).
  destruct E as (Hfs & Hop & Hheap).
  exists r, w'. repeat split; try done.
  - by apply Hheap.
  - intros ->. congruence.
Qed.

Lemma nulls_in_pattern c :
  nulls_in c
  = length (List.filter (fun b : bool => b) (map (scalar_isna (c_dtype c)) (c_values c))).
Proof.
  unfold nulls_in. induction (c_values c) as [|v vs IH]; [done|].
  simpl. destruct (scalar_isna (c_dtype c) v); simpl; by rewrite IH.
Qed.

Lemma null_counts_pattern T :
  null_counts T
  = map (fun bs => wrap64 (Z.of_nat (length (List.filter (fun b : bool => b) bs))))
      (null_pattern T).
Proof.
  unfold null_counts, null_pattern. rewrite map_map. apply map_ext.
  intros [l c]. simpl. by rewrite nulls_in_pattern.
Qed.

Lemma report_pattern T1 T2 :
  columns T1 = columns T2 -> nrows T1 = nrows T2 -> null_pattern T1 = null_pattern T2 ->
  report T1 = report T2.
Proof.
  intros Hc Hn Hp. unfold report, null_pcts, label_column.
  rewrite !null_counts_pattern, Hc, Hn, Hp.
  assert (length (df_columns T1) = length (df_columns T2)) as Hlen.
  { unfold columns in Hc. apply (f_equal length) in Hc. by rewrite !length_map in Hc. }
  destruct (df_columns T1), (df_columns T2); simpl in Hlen; done.
Qed.

(** C10.  The report depends only on the column labels, their order, the
    row count and which cells are null: two tables that agree on these give
    identical reports, whatever their non-null values. *)
Theorem profile_nulls_nullness_only w1 d1 T1 w2 d2 T2 :
  heap w1 !! d1 = Some (ODataFrame T1) -> heap w2 !! d2 = Some (ODataFrame T2) ->
  columns T1 = columns T2 -> nrows T1 = nrows T2 -> null_pattern T1 = null_pattern T2 ->
  exists r1 w1' r2 w2' R,
    profile_nulls d1 w1 = (Ok r1, w1') /\ profile_nulls d2 w2 = (Ok r2, w2') /\
    heap w1' !! r1 = Some (ODataFrame R) /\ heap w2' !! r2 = Some (ODataFrame R).
Proof.
  intros H1 H2 Hc Hn Hp.
  destruct (profile_nulls_run w1 d1 T1 H1) as (r1 & w1' & Hrun1 & _ & Hr1 & _).
  destruct (profile_nulls_run w2 d2 T2 H2) as (r2 & w2' & Hrun2 & _ & Hr2 & _).
  exists r1, w1', r2, w2', (report T1). repeat split; try done.
  by rewrite (report_pattern T1 T2).
Qed.

(** X13.  Whatever the labels of the table, the report has the three
    columns [Column], [Null Count] and [Null Pct], in this order, over a
    default range index with one row per column of the table. *)
Theorem profile_nulls_layout w df T :
  heap w !! df = Some (ODataFrame T) ->
  exists r w' R,
    profile_nulls df w = (Ok r, w') /\ heap w' !! r = Some (ODataFrame R) /\
    columns R = [LStr "Column"; LStr "Null Count"; LStr "Null Pct"] /\
    df_index R = RangeIndex (length (columns T)) /\
    Forall (fun lc => length (c_values (snd lc)) = length (columns T)) (df_columns R).
Proof.
  intros Hdf.
  destruct (profile_nulls_run w df T Hdf) as (r & w' & Hrun & _ & Hr & _).
  exists r, w', (report T). split; [done|]. split; [done|].
  split; [done|]. split; [done|].
  unfold report, label_column, null_pcts, null_counts, columns. simpl.
  repeat constructor; simpl; by rewrite !length_map.
Qed.

(** X14.  For a table with rows (fewer than [2 ^ 53]) every [Null Pct] is
    a number between 0 and 1: exactly 0 for a column without nulls and for no
    other, exactly 1 for a column of nulls only and for no other. *)
Theorem profile_nulls_pct_unit w df T :
  heap w !! df = Some (ODataFrame T) -> wf_frame T = true ->
  0 < Z.of_nat (nrows T) < 2 ^ 53 ->
  exists r w' R pcts,
    profile_nulls df w = (Ok r, w') /\ heap w' !! r = Some (ODataFrame R) /\
    values_of R "Null Pct" = Some (map VFloat pcts) /\
    Forall2 (fun lc x =>
               exists v, Float64.to_Q x = Some v /\ (0 <= v <= 1)%Q /\
                 ((v == 0)%Q <-> nulls_in (snd lc) = 0%nat) /\
                 ((v == 1)%Q <-> nulls_in (snd lc) = nrows T))
      (df_columns T) pcts.
Proof.
  intros Hdf Hwf Hrows.
  destruct (profile_nulls_run w df T Hdf) as (r & w' & Hrun & _ & Hr & _).
  exists r, w', (report T), (null_pcts T).
  split; [done|]. split; [done|]. split; [done|].
  unfold null_pcts. rewrite (null_counts_wf T Hwf), map_map.
  apply Forall2_fmap_r, Forall_Forall2_diag.
  eapply Forall_impl; [apply (wf_frame_nulls T Hwf)|].
  intros [l c] Hle. simpl in *.
  destruct (div_of_int_unit (Z.of_nat (nulls_in c)) (Z.of_nat (nrows T)))
    as (v & Hv & Hrange & H0 & H1); [lia|lia|].
  exists v. split; [done|]. split; [done|]. split; [rewrite H0; lia|rewrite H1; lia].
Qed.

Lemma nulls_in_Permutation (c1 c2 : Column) :
  c_dtype c1 = c_dtype c2 -> c_values c1 ≡ₚ c_values c2 -> nulls_in c1 = nulls_in c2.
Proof.
  unfold nulls_in. intros ->.
  induction 1 as [|v l1 l2 _ IH|v1 v2 l|l1 l2 l3 _ IH1 _ IH2]; simpl.
  - done.
  - destruct (scalar_isna _ v); simpl; by rewrite IH.
  - by destruct (scalar_isna _ v1), (scalar_isna _ v2).
  - by rewrite IH1.
Qed.

(** X16.  The report does not depend on the order of the rows: two tables
    with the same labels, dtypes and row count whose columns hold the same
    cells in another order give identical reports. *)
Theorem profile_nulls_row_order w1 d1 T1 w2 d2 T2 :
  heap w1 !! d1 = Some (ODataFrame T1) -> heap w2 !! d2 = Some (ODataFrame T2) ->
  nrows T1 = nrows T2 ->
  Forall2 (fun a b => fst a = fst b /\ c_dtype (snd a) = c_dtype (snd b) /\
                      c_values (snd a) ≡ₚ c_values (snd b))
    (df_columns T1) (df_columns T2) ->
  exists r1 w1' r2 w2' R,
    profile_nulls d1 w1 = (Ok r1, w1') /\ profile_nulls d2 w2 = (Ok r2, w2') /\
    heap w1' !! r1 = Some (ODataFrame R) /\ heap w2' !! r2 = Some (ODataFrame R).
Proof.
  intros H1 H2 Hn Hcols.
  destruct (profile_nulls_run w1 d1 T1 H1) as (r1 & w1' & Hrun1 & _ & Hr1 & _).
  destruct (profile_nulls_run w2 d2 T2 H2) as (r2 & w2' & Hrun2 & _ & Hr2 & _).
  exists r1, w1', r2, w2', (report T1). repeat split; try done.
  replace (report T1) with (report T2); [done|].
  assert (columns T2 = columns T1) as Hc.
  { unfold columns. induction Hcols as [|a b l1 l2 (Hab & _) _ IH]; [done|].
    simpl. by rewrite Hab, IH. }
  assert (null_counts T2 = null_counts T1) as Hk.
  { unfold null_counts. induction Hcols as [|a b l1 l2 (_ & Ht & Hab) _ IH]; [done|].
    simpl. by rewrite (nulls_in_Permutation _ _ Ht Hab), IH. }
  unfold report, null_pcts, label_column. rewrite Hc, Hk, Hn.
  by destruct Hcols.
Qed.

Lemma nulls_in_labels t (ls : list label) :
  nulls_in (mkColumn t (map scalar_of_label ls)) = 0%nat.
Proof. unfold nulls_in. simpl. induction ls as [|[s|z] ls IH]; simpl; done. Qed.

Lemma nulls_in_ints t (zs : list Z) : nulls_in (mkColumn t (map VInt zs)) = 0%nat.
Proof. unfold nulls_in. simpl. induction zs as [|z zs IH]; simpl; done. Qed.

Lemma nulls_in_nans (k : nat) :
  nulls_in (mkColumn dt_float64 (map VFloat (replicate k S754_nan))) = k.
Proof. unfold nulls_in. simpl. induction k as [|k IH]; simpl; [done|]. by rewrite IH. Qed.

Lemma nulls_in_numbers t (xs : list spec_float) :
  Forall (fun x => is_Some (Float64.to_Q x)) xs ->
  nulls_in (mkColumn t (map VFloat xs)) = 0%nat.
Proof.
  unfold nulls_in. simpl. induction 1 as [|x xs [v Hx] _ IH]; simpl; [done|].
  destruct x; simpl in *; try done; by rewrite andb_false_r.
Qed.

(** X17.  Profiling a report: the second report has the three rows
    [Column], [Null Count], [Null Pct].  The first report of a table with
    rows has no null, while in the report of a table without rows every
    [Null Pct] cell, being not-a-number, counts as null. *)
Theorem profile_nulls_of_report w df T :
  heap w !! df = Some (ODataFrame T) -> wf_frame T = true ->
  Z.of_nat (length (columns T)) < 2 ^ 63 ->
  exists r w1 r2 w2 R2,
    profile_nulls df w = (Ok r, w1) /\ profile_nulls r w1 = (Ok r2, w2) /\
    heap w2 !! r2 = Some (ODataFrame R2) /\
    values_of R2 "Column" = Some [VStr "Column"; VStr "Null Count"; VStr "Null Pct"] /\
    (nrows T = 0%nat ->
       values_of R2 "Null Count"
       = Some [VInt 0; VInt 0; VInt (Z.of_nat (length (columns T)))]) /\
    (0 < Z.of_nat (nrows T) < 2 ^ 53 ->
       values_of R2 "Null Count" = Some [VInt 0; VInt 0; VInt 0]).
Proof.
  intros Hdf Hwf Hcols.
  destruct (profile_nulls_run w df T Hdf) as (r & w1 & Hrun1 & _ & Hr & _).
  destruct (profile_nulls_run w1 r (report T) Hr) as (r2 & w2 & Hrun2 & _ & Hr2 & _).
  exists r, w1, r2, w2, (report (report T)).
  split; [done|]. split; [done|]. split; [done|]. split; [done|].
  assert (values_of (report (report T)) "Null Count"
          = Some [VInt 0; VInt 0;
                  VInt (wrap64 (Z.of_nat (nulls_in (mkColumn dt_float64
                                                      (map VFloat (null_pcts T))))))]) as Hv.
  { unfold values_of, column_of, report at 1, null_counts. simpl.
    unfold label_column. by rewrite nulls_in_labels, nulls_in_ints. }
  rewrite Hv. split.
  - intros H0. unfold null_pcts. rewrite (nrows_zero_counts T Hwf H0), H0.
    rewrite fmap_replicate. change (Float64.div _ _) with S754_nan.
    rewrite nulls_in_nans, wrap64_small; [done|lia].
  - intros Hrows. rewrite nulls_in_numbers; [done|].
    unfold null_pcts. rewrite (null_counts_wf T Hwf), map_map. apply Forall_fmap.
    eapply Forall_impl; [apply (wf_frame_nulls T Hwf)|].
    intros [l c] Hle. simpl in *.
    destruct (div_of_int_close (Z.of_nat (nulls_in c)) (Z.of_nat (nrows T)))
      as (v & -> & _); [lia|lia|done].
Qed.

(** X15.  For a table with rows (fewer than [2 ^ 53]) a column with more
    nulls has a strictly larger [Null Pct]: rounding never merges or swaps
    two counts. *)
Theorem profile_nulls_pct_order w df T :
  heap w !! df = Some (ODataFrame T) -> wf_frame T = true ->
  0 < Z.of_nat (nrows T) < 2 ^ 53 ->
  exists r w' R pcts,
    profile_nulls df w = (Ok r, w') /\ heap w' !! r = Some (ODataFrame R) /\
    values_of R "Null Pct" = Some (map VFloat pcts) /\
    forall i j a b,
      df_columns T !! i = Some a -> df_columns T !! j = Some b ->
      (nulls_in (snd a) < nulls_in (snd b))%nat ->
      exists x y u v,
        pcts !! i = Some x /\ pcts !! j = Some y /\
        Float64.to_Q x = Some u /\ Float64.to_Q y = Some v /\ (u < v)%Q.
Proof.
  intros Hdf Hwf Hrows.
  destruct (profile_nulls_run w df T Hdf) as (r & w' & Hrun & _ & Hr & _).
  exists r, w', (report T), (null_pcts T).
  split; [done|]. split; [done|]. split; [done|].
  intros i j [la a] [lb b] Hi Hj Hlt. simpl in Hlt.
  pose proof (wf_frame_nulls T Hwf) as Hall. rewrite Forall_lookup in Hall.
  pose proof (Hall j _ Hj) as Hb. simpl in Hb.
  destruct (div_of_int_lt (Z.of_nat (nulls_in a)) (Z.of_nat (nulls_in b)) (Z.of_nat (nrows T)))
    as (u & v & Hu & Hv & Huv); [lia|lia|lia|].
  unfold null_pcts. rewrite (null_counts_wf T Hwf), map_map.
  eexists _, _, u, v. split; [|split; [|done]].
  - change (map ?g ?l) with (g <$> l). by rewrite list_lookup_fmap, Hi.
  - change (map ?g ?l) with (g <$> l). by rewrite list_lookup_fmap, Hj.
Qed.

End Profiler.

Section Traverse.
Context {A B : Type} (f : A -> result B).

Lemma traverse_Ok l ys :
  traverse f l = Ok ys <-> Forall2 (fun x y => f x = Ok y) l ys.
Proof.
  revert ys. induction l as [|x l IH]; intros ys; simpl.
  - split; [intros [= <-]; constructor | by inversion 1].
  - destruct (f x) as [y|e] eqn:Hx.
    + destruct (traverse f l) as [ys'|e] eqn:Hl.
      * split.
        -- intros [= <-]. constructor; [done|]. by apply IH.
        -- inversion 1 as [|? y' ? ys'' Hy Hys]; subst.
           apply IH in Hys. congruence.
      * split; [done|]. inversion 1 as [|? y' ? ys'' Hy Hys]; subst.
        apply IH in Hys. done.
    + split; [done|]. inversion 1; congruence.
Qed.

Lemma traverse_total l :
  (forall x, x ∈ l -> exists y, f x = Ok y) -> exists ys, traverse f l = Ok ys.
Proof.
  induction l as [|x l IH]; intros Hall; simpl; [by eexists|].
  destruct (Hall x) as [y ->]; [by left|].
  destruct IH as [ys ->]; [|by eexists].
  intros x' Hx'. apply Hall. by right.
Qed.

End Traverse.

Section Header.

Lemma header_names_plain c raw :
  c <> EmptyString -> String.prefix "Unnamed: " c = false ->
  c ∈ header_names raw <-> c ∈ raw.
Proof.
  intros Hne Hpre. unfold header_names. rewrite elem_of_lookup_imap. split.
  - intros (i & n & -> & Hi). case_bool_decide as Hn.
    + assert (String.prefix "Unnamed: " ("Unnamed: " +:+ pretty i) = true) as Ht
        by (simpl; by destruct (pretty i)).
      congruence.
    + by eapply list_elem_of_lookup_2.
  - intros Hin. apply list_elem_of_lookup_1 in Hin as [i Hi].
    exists i, c. split; [|done]. by rewrite bool_decide_eq_false_2.
Qed.

Lemma index_of_Some n names j : index_of n names = Some j -> names !! j = Some n.
Proof.
  revert j. induction names as [|x names IH]; intros j; simpl; [done|].
  case_bool_decide as Hx.
  - intros [= <-]. by subst.
  - destruct (index_of n names) as [k|]; simpl; [|done].
    intros [= <-]. simpl. by apply IH.
Qed.

Lemma index_of_elem n names : n ∈ names -> exists j, index_of n names = Some j.
Proof.
  induction 1 as [x names|x y names Hin [j IH]]; simpl.
  - rewrite bool_decide_eq_true_2 by done. by eexists.
  - case_bool_decide; [by eexists|]. rewrite IH. by eexists.
Qed.

Lemma elem_of_select_usecols usecols names j n :
  (j, n) ∈ select_usecols usecols names <-> n ∈ usecols /\ index_of n names = Some j.
Proof.
  unfold select_usecols. rewrite list_elem_of_filter. simpl. split.
  - by intros [? _].
  - intros [Hu Hi]. split; [done|].
    apply (elem_of_lookup_imap_2 (fun j n => (j, n))). by apply index_of_Some.
Qed.

Lemma select_usecols_functional usecols names j1 j2 n :
  (j1, n) ∈ select_usecols usecols names -> (j2, n) ∈ select_usecols usecols names -> j1 = j2.
Proof. rewrite !elem_of_select_usecols. intros [_ H1] [_ H2]. congruence. Qed.

Lemma NoDup_imap_pair (names : list string) : NoDup (imap (fun j n => (j, n)) names).
Proof.
  apply (NoDup_fmap_1 fst). rewrite fmap_imap.
  rewrite (imap_ext _ (fun j _ => j)) by done.
  rewrite imap_seq_0. rewrite list_fmap_id. apply NoDup_seq.
Qed.

Lemma NoDup_select_usecols usecols names : NoDup (snd <$> select_usecols usecols names).
Proof.
  apply NoDup_fmap_2_strong.
  - intros [j1 n1] [j2 n2] H1 H2. simpl. intros <-.
    f_equal. by eapply select_usecols_functional.
  - apply NoDup_filter, NoDup_imap_pair.
Qed.

End Header.

(** ** Sorted categories *)

Section Sorting.

Lemma ascii_compare_Lt_trans x y z :
  Ascii.compare x y = Lt -> Ascii.compare y z = Lt -> Ascii.compare x z = Lt.
Proof. unfold Ascii.compare. rewrite !N.compare_lt_iff. lia. Qed.

Lemma ascii_compare_Eq x y : Ascii.compare x y = Eq -> x = y.
Proof.
  unfold Ascii.compare. intros H%N.compare_eq_iff.
  by rewrite <- (ascii_N_embedding x), <- (ascii_N_embedding y), H.
Qed.

Lemma string_leb_trans a b c :
  String.leb a b = true -> String.leb b c = true -> String.leb a c = true.
Proof.
  unfold String.leb. revert b c.
  induction a as [|x a IH]; intros [|y b] [|z c]; simpl; try done.
  destruct (Ascii.compare x y) eqn:Hxy; [|intros _|done].
  - apply ascii_compare_Eq in Hxy as ->.
    destruct (Ascii.compare y z) eqn:Hyz; [apply IH|done|done].
  - destruct (Ascii.compare y z) eqn:Hyz; [|intros _|done].
    + apply ascii_compare_Eq in Hyz as <-. by rewrite Hxy.
    + by rewrite (ascii_compare_Lt_trans x y z).
Qed.

Lemma insert_sorted_Permutation s l : insert_sorted s l ≡ₚ s :: l.
Proof.
  induction l as [|x l IH]; simpl; [done|].
  destruct (String.leb s x); [done|]. rewrite IH. apply perm_swap.
Qed.

Lemma sort_strings_Permutation l : sort_strings l ≡ₚ l.
Proof.
  unfold sort_strings. induction l as [|x l IH]; simpl; [done|].
  by rewrite insert_sorted_Permutation, IH.
Qed.

Lemma insert_sorted_sorted s l :
  StronglySorted (fun a b => String.leb a b = true) l ->
  StronglySorted (fun a b => String.leb a b = true) (insert_sorted s l).
Proof.
  induction 1 as [|x l Hl IH Hx]; simpl; [by repeat constructor|].
  destruct (String.leb s x) eqn:Hsx.
  - constructor; [by constructor|]. constructor; [done|].
    eapply Forall_impl; [exact Hx|]. intros y Hy. by eapply string_leb_trans.
  - constructor; [done|]. rewrite insert_sorted_Permutation. constructor; [|done].
    destruct (String.leb_total s x) as [H|H]; congruence.
Qed.

Lemma sort_strings_sorted l :
  StronglySorted (fun a b => String.leb a b = true) (sort_strings l).
Proof.
  unfold sort_strings. induction l as [|x l IH]; simpl; [constructor|].
  by apply insert_sorted_sorted.
Qed.

(** The categories of a column: the distinct fields that are not
    missing-value markers, in increasing order. *)
Lemma categories_of_spec raw :
  NoDup (categories_of raw) /\
  StronglySorted (fun a b => String.leb a b = true) (categories_of raw) /\
  forall s, s ∈ categories_of raw <-> s ∈ raw /\ is_na s = false.
Proof.
  unfold categories_of. split; [|split].
  - rewrite sort_strings_Permutation. apply NoDup_remove_dups.
  - apply sort_strings_sorted.
  - intros s. rewrite sort_strings_Permutation, elem_of_remove_dups, list_elem_of_filter.
    tauto.
Qed.

Lemma elem_of_text_fields s raw :
  VStr s ∈ map text_field raw <-> s ∈ raw /\ is_na s = false.
Proof.
  change (map text_field raw) with (text_field <$> raw). rewrite list_elem_of_fmap.
  unfold text_field. split.
  - intros (s' & Heq & Hin). destruct (is_na s') eqn:Hna; [done|].
    injection Heq as ->. done.
  - intros [Hin Hna]. exists s. by rewrite Hna.
Qed.

End Sorting.

Section CSVLoader.
Context {date_parser : DateParser}.

Lemma required_plain c :
  c ∈ required_columns -> c <> EmptyString /\ String.prefix "Unnamed: " c = false.
Proof.
  unfold required_columns. simpl. intros Hc.
  repeat (apply elem_of_cons in Hc as [->|Hc]; [done|]).
  by apply elem_of_nil in Hc.
Qed.

Lemma required_in_names f c :
  c ∈ required_columns -> c ∈ names_of f <-> c ∈ csv_header f.
Proof. intros [? ?]%required_plain. by apply header_names_plain. Qed.

Lemma open_file_run w p c :
  fs w !! p = Some c -> open_file p w = (Ok c, open_world w p).
Proof. intros Hp. unfold open_file. by rewrite Hp. Qed.

Lemma bind_ret {A} (m : M A) w : (m ≫= mret) w = m w.
Proof. unfold mbind, M_bind. by destruct (m w) as [[a|e] w']. Qed.

Lemma length_names_of f : length (names_of f) = length (csv_header f).
Proof. unfold names_of, header_names. by rewrite length_imap. Qed.

Lemma read_csv_header_run w p f :
  fs w !! p = Some (CSVContent f) -> csv_header f <> [] ->
  load (mkCSVLoader p) w =
    let w1 := open_world w p in
    let missing := filter (fun c => c ∉ names_of f) required_columns in
    if negb (bool_decide (missing = [])) then (Raise (UsecolsError missing), w1)
    else if negb (forallb (fun r => (length r <=? length (names_of f))%nat) (csv_records f))
    then (Raise (NotModelled "record longer than the header"), w1)
    else if 2 ^ 16 <? Z.of_nat (length (data_records f)) * Z.of_nat (length (names_of f))
    then (Raise (NotModelled "file read in several chunks"), w1)
    else match read_columns f with
         | Ok cols =>
             (Ok (next w), alloc_world w1
                (ODataFrame (mkDataFrame (RangeIndex (length (data_records f))) cols)))
         | Raise e => (Raise e, w1)
         end.
Proof.
  intros Hp Hne.
  change (load (mkCSVLoader p) w) with (CSVLoader_load (mkCSVLoader p) w).
  unfold CSVLoader_load. rewrite bind_ret. unfold read_csv, CSVLoader_file_path.
  rewrite (bind_run _ _ w (CSVContent f) (open_world w p)) by by apply open_file_run.
  rewrite (bool_decide_eq_false_2 _ Hne).
  change (map fst dtypes ++ datetime_cols) with required_columns.
  replace (existsb contains_dot required_columns) with false by reflexivity.
  rewrite andb_false_r. fold (names_of f).
  cbv zeta.
  destruct (negb (bool_decide (filter (fun c => c ∉ names_of f) required_columns = []))); [done|].
  destruct (negb (forallb _ (csv_records f))); [done|].
  destruct (2 ^ 16 <? _); [done|].
  unfold read_columns, mbind at 1, M_bind, lift.
  destruct (traverse _ _) as [cols|e]; [|done].
  reflexivity.
Qed.

Lemma read_csv_empty_run w p f :
  fs w !! p = Some (CSVContent f) -> csv_header f = [] ->
  load (mkCSVLoader p) w = (Raise EmptyDataError, open_world w p).
Proof.
  intros Hp He.
  change (load (mkCSVLoader p) w) with (CSVLoader_load (mkCSVLoader p) w).
  unfold CSVLoader_load. rewrite bind_ret. unfold read_csv, CSVLoader_file_path.
  rewrite (bind_run _ _ w (CSVContent f) (open_world w p)) by by apply open_file_run.
  by rewrite (bool_decide_eq_true_2 _ He).
Qed.

(** C5.  When the header of a delimited-text file lacks one of the columns
    [CSVLoader.load] selects, the load raises instead of returning a table:
    the reader's usecols error naming the column (the empty-data error when
    the file has no header at all), and no object is allocated. *)
Theorem CSVLoader_load_missing_column w p f c :
  fs w !! p = Some (CSVContent f) -> c ∈ required_columns -> c ∉ csv_header f ->
  exists e w',
    load (mkCSVLoader p) w = (Raise e, w') /\ heap w' = heap w /\
    (e = EmptyDataError \/ exists missing, e = UsecolsError missing /\ c ∈ missing).
Proof.
  intros Hp Hc Hnot.
  destruct (decide (csv_header f = [])) as [He|Hne].
  - exists EmptyDataError, (open_world w p). rewrite (read_csv_empty_run w p f) by done. auto.
  - set (missing := filter (fun c => c ∉ names_of f) required_columns).
    assert (c ∈ missing) as Hm.
    { apply list_elem_of_filter. split; [|done]. by rewrite (required_in_names f c Hc). }
    exists (UsecolsError missing), (open_world w p).
    rewrite (read_csv_header_run w p f) by done. cbv zeta. fold missing.
    rewrite bool_decide_eq_false_2; [eauto 6|].
    intros Heq. rewrite Heq in Hm. by apply elem_of_nil in Hm.
Qed.

(** Columns one at a time *)

Lemma read_column_date records j n :
  n ∈ datetime_cols ->
  read_column datetime_cols dtypes records (j, n)
  = Ok (LStr n, convert_dates (raw_column records j)).
Proof. intros Hn. unfold read_column. simpl. by rewrite bool_decide_eq_true_2. Qed.

Lemma read_column_typed records j n spec :
  n ∉ datetime_cols -> lookup_dtype dtypes n = Some spec ->
  read_column datetime_cols dtypes records (j, n)
  = match convert_column spec (raw_column records j) with
    | Ok c => Ok (LStr n, c)
    | Raise e => Raise e
    end.
Proof.
  intros Hn Hs. unfold read_column. cbn [fst snd].
  by rewrite bool_decide_eq_false_2, Hs.
Qed.

Lemma read_column_label records jn lc :
  read_column datetime_cols dtypes records jn = Ok lc -> fst lc = LStr (snd jn).
Proof.
  unfold read_column. case_bool_decide; [by intros [= <-]|].
  destruct (lookup_dtype dtypes (snd jn)); [|done].
  destruct (convert_column _ _); [by intros [= <-]|done].
Qed.

Lemma column_of_read idx records sel cols j c :
  Forall2 (fun jn lc => read_column datetime_cols dtypes records jn = Ok lc) sel cols ->
  (forall j', (j', c) ∈ sel -> j' = j) ->
  (j, c) ∈ sel ->
  exists col,
    read_column datetime_cols dtypes records (j, c) = Ok (LStr c, col) /\
    column_of (mkDataFrame idx cols) c = Some col.
Proof.
  unfold column_of. simpl.
  induction 1 as [|[j' n] [l col] sel cols Hx Hrest IH]; intros Hfun Hin.
  - by apply elem_of_nil in Hin.
  - pose proof (read_column_label _ _ _ Hx) as Hl. simpl in Hl. subst l. simpl.
    destruct (decide (n = c)) as [->|Hne].
    + rewrite bool_decide_eq_true_2 by done. simpl.
      assert (j' = j) as -> by (apply Hfun; by left). eauto.
    + rewrite bool_decide_eq_false_2 by congruence.
      apply IH.
      * intros j'' Hj''. apply Hfun. by right.
      * apply elem_of_cons in Hin as [[= -> ->]|Hin]; [done|done].
Qed.

(** The missing-value markers *)

(** The reader's set of markers is the documented one. *)
Lemma is_na_markers s : is_na s = true <-> s ∈ default_markers.
Proof.
  unfold is_na. rewrite bool_decide_eq_true.
  assert (Forall (fun x => x ∈ default_markers) STR_NA_VALUES) as H1
    by by apply (bool_decide_unpack _).
  assert (Forall (fun x => x ∈ STR_NA_VALUES) default_markers) as H2
    by by apply (bool_decide_unpack _).
  rewrite Forall_forall in H1, H2. split; auto.
Qed.

Lemma markers_in_is_na raw : markers_in raw = length (List.filter is_na raw).
Proof.
  unfold markers_in. induction raw as [|s raw IH]; [done|].
  rewrite filter_cons. simpl. pose proof (is_na_markers s) as Hs.
  destruct (is_na s); case_decide as Hm; simpl; rewrite IH; try done.
  - destruct Hm. by apply Hs.
  - by apply Hs in Hm.
Qed.

(** Validity of the fields *)

Lemma read_number_fields spec raw :
  fields_ok spec raw = true ->
  exists xs, traverse read_number raw = Ok xs /\
    Forall2 (fun s o => if is_na s then o = None
                        else exists x, o = Some x /\
                               (spec <> by_name "Float64" -> exists neg d, x = Whole neg d))
      raw xs.
Proof.
  induction raw as [|s raw IH]; simpl; [by exists []|].
  rewrite andb_true_iff. intros [Hs Hraw]. destruct (IH Hraw) as (xs & -> & Hall).
  unfold read_number at 1. destruct (is_na s) eqn:Hna.
  - exists (None :: xs). split; [done|]. constructor; [by rewrite Hna|done].
  - simpl in Hs. unfold plain_number in Hs.
    destruct (classify s) as [x| |]; [|done|done].
    exists (Some x :: xs). split; [done|]. constructor; [|done].
    rewrite Hna. exists x. split; [done|]. intros Hspec.
    destruct x as [neg d|neg d k]; [by eauto|]. by apply bool_decide_eq_true in Hs.
Qed.

Lemma Int64_cells xs (raw : list string) :
  Forall2 (fun s o => if is_na s then o = None
                      else exists x, o = Some x /\
                             (by_name "Int64" <> by_name "Float64" ->
                              exists neg d, x = Whole neg d)) raw xs ->
  exists vs, traverse Int64_cell xs = Ok vs /\
    Forall2 (fun s v => if is_na s then v = NA else scalar_isna dt_Int64 v = false) raw vs.
Proof.
  induction 1 as [|s o raw xs Hso _ (vs & IH & Hall)]; simpl; [by exists []|].
  rewrite IH. destruct (is_na s) eqn:Hna.
  - subst o. exists (NA :: vs). split; [done|]. constructor; [by rewrite Hna|done].
  - destruct Hso as (x & -> & Hx). destruct Hx as (neg & d & ->); [done|].
    exists (VInt (signed neg d) :: vs). split; [done|]. constructor; [by rewrite Hna|done].
Qed.

(** What [convert_column] does for a numeric dtype with well-formed fields:
    it returns the masked column, null exactly at the markers. *)
Lemma convert_column_numeric spec raw :
  is_numeric spec = true -> fields_ok spec raw = true ->
  exists t vs,
    convert_column spec raw = Ok (mkColumn t vs) /\
    ((spec = by_name "Float64" /\ t = dt_Float64) \/ (spec = by_name "Int64" /\ t = dt_Int64)) /\
    Forall2 (fun s v => if is_na s then v = NA else scalar_isna t v = false) raw vs.
Proof.
  intros Hnum Hok. destruct (read_number_fields spec raw Hok) as (xs & Hxs & Hall).
  apply bool_decide_eq_true in Hnum as [-> | ->].
  - exists dt_Float64, (map Float64_cell xs). split; [|split; [by left|]].
    + simpl. by rewrite Hxs.
    + apply Forall2_fmap_r. eapply Forall2_impl; [exact Hall|].
      intros s o Hso. simpl in Hso. destruct (is_na s); [by subst o|].
      by destruct Hso as (x & -> & _).
  - destruct (Int64_cells xs raw Hall) as (vs & Hvs & Hcells).
    exists dt_Int64, vs. split; [|split; [by right|done]].
    simpl. by rewrite Hxs, Hvs.
Qed.

Lemma dtypes_cases c spec :
  (c, spec) ∈ dtypes ->
  c ∈ required_columns /\ (c ∉ datetime_cols) /\ lookup_dtype dtypes c = Some spec /\
  (spec = by_name "Float64" \/ spec = by_name "Int64" \/ spec = py_str \/ spec = by_name "category").
Proof.
  unfold dtypes. intros Hin.
  repeat (apply elem_of_cons in Hin as [[= -> ->]|Hin];
          [split; [by apply (bool_decide_unpack _)
                  |split; [by apply (bool_decide_unpack _)|split; [done|tauto]]]|]).
  by apply elem_of_nil in Hin.
Qed.

Lemma required_cases n :
  n ∈ required_columns -> n ∈ datetime_cols \/ exists spec, (n, spec) ∈ dtypes.
Proof.
  unfold required_columns. rewrite elem_of_app, list_elem_of_fmap.
  intros [((c & spec) & -> & Hin)|Hd]; [right; by exists spec|by left].
Qed.

Lemma read_column_declared records j n spec :
  (n, spec) ∈ dtypes ->
  read_column datetime_cols dtypes records (j, n)
  = match convert_column spec (raw_column records j) with
    | Ok c => Ok (LStr n, c)
    | Raise e => Raise e
    end.
Proof. intros (_ & Hd & Hl & _)%dtypes_cases. by apply read_column_typed. Qed.

Lemma convert_column_text spec raw :
  (spec = py_str \/ spec = by_name "category") ->
  exists t, convert_column spec raw = Ok (mkColumn t (map text_field raw)) /\
    ((spec = py_str /\ t = dt_object) \/
     (spec = by_name "category" /\ t = dt_category (categories_of raw))).
Proof. intros [-> | ->]; eexists; (split; [reflexivity|tauto]). Qed.

Lemma non_numeric_spec c spec :
  (c, spec) ∈ dtypes -> is_numeric spec = false ->
  spec = py_str \/ spec = by_name "category".
Proof.
  intros (_ & _ & _ & [-> | [-> | [-> | ->]]])%dtypes_cases; simpl; try done; tauto.
Qed.

Lemma text_field_cells t raw :
  Forall2 (fun s v => if is_na s then v = NA else scalar_isna t v = false)
    raw (map text_field raw).
Proof.
  apply Forall2_fmap_r, Forall_Forall2_diag, Forall_forall. intros s _.
  unfold text_field. simpl. by destruct (is_na s).
Qed.

Lemma length_raw_column records j : length (raw_column records j) = length records.
Proof. unfold raw_column. by rewrite length_map. Qed.

Lemma length_convert_dates raw : length (c_values (convert_dates raw)) = length raw.
Proof. destruct raw as [|s raw]; [done|]. apply to_datetime_length. Qed.

Lemma selected_raw f j n :
  (j, n) ∈ select_usecols required_columns (names_of f) ->
  csv_raw f n = Some (raw_column (data_records f) j).
Proof. intros [_ Hj]%elem_of_select_usecols. unfold csv_raw. by rewrite Hj. Qed.

Lemma shape_ok_required f c :
  shape_ok f = true -> c ∈ required_columns ->
  exists j, (j, c) ∈ select_usecols required_columns (names_of f).
Proof.
  unfold shape_ok. rewrite andb_true_iff, forallb_forall. intros [Hall _] Hc.
  pose proof (Hall c (proj1 (list_elem_of_In _ _) Hc)) as Hin.
  apply bool_decide_eq_true in Hin. apply (required_in_names f c Hc) in Hin.
  apply index_of_elem in Hin as [j Hj]. exists j.
  by apply elem_of_select_usecols.
Qed.

Lemma numeric_ok_column f j c spec :
  numeric_ok f = true -> (c, spec) ∈ dtypes -> is_numeric spec = true ->
  (j, c) ∈ select_usecols required_columns (names_of f) ->
  fields_ok spec (raw_column (data_records f) j) = true.
Proof.
  unfold numeric_ok. rewrite forallb_forall. intros Hall Hin Hp Hsel.
  apply list_elem_of_In, Hall in Hin. simpl in Hin. rewrite Hp in Hin.
  by rewrite (selected_raw f j c Hsel) in Hin.
Qed.

(** A column with a declared dtype, read from well-formed fields: its
    dtype, and its cells, null exactly at the markers. *)
Lemma read_column_typed_cells f j c spec :
  numeric_ok f = true -> (c, spec) ∈ dtypes ->
  (j, c) ∈ select_usecols required_columns (names_of f) ->
  exists col,
    read_column datetime_cols dtypes (data_records f) (j, c) = Ok (LStr c, col) /\
    has_type (c_dtype col) (type_of_spec spec) = true /\
    Forall2 (fun s v => if is_na s then v = NA else scalar_isna (c_dtype col) v = false)
      (raw_column (data_records f) j) (c_values col).
Proof.
  intros Hnum Hspec Hsel.
  rewrite (read_column_declared _ _ _ spec) by done.
  destruct (is_numeric spec) eqn:Hp.
  - pose proof (numeric_ok_column f j c spec Hnum Hspec Hp Hsel) as Hok.
    destruct (convert_column_numeric spec _ Hp Hok) as (t & vs & -> & Ht & Hcells).
    exists (mkColumn t vs). split; [done|]. split; [|done].
    by destruct Ht as [[-> ->]|[-> ->]].
  - destruct (convert_column_text spec (raw_column (data_records f) j)) as (t & -> & Ht);
      [by eapply non_numeric_spec|].
    exists (mkColumn t (map text_field (raw_column (data_records f) j))).
    split; [done|]. split; [by destruct Ht as [[-> ->]|[-> ->]]|]. apply text_field_cells.
Qed.

(** With well-formed numeric fields every selected column converts, to a
    column with one cell per record. *)
Lemma read_column_ok f j n :
  numeric_ok f = true ->
  (j, n) ∈ select_usecols required_columns (names_of f) ->
  exists col,
    read_column datetime_cols dtypes (data_records f) (j, n) = Ok (LStr n, col) /\
    length (c_values col) = length (data_records f).
Proof.
  intros Hnum Hsel. pose proof Hsel as [Hreq _]%elem_of_select_usecols.
  destruct (required_cases n Hreq) as [Hd|[spec Hspec]].
  - rewrite read_column_date by done. eexists. split; [done|].
    by rewrite length_convert_dates, length_raw_column.
  - destruct (read_column_typed_cells f j n spec Hnum Hspec Hsel) as (col & Hcol & _ & Hcells).
    exists col. split; [done|].
    apply Forall2_length in Hcells. by rewrite <- Hcells, length_raw_column.
Qed.

Lemma read_columns_ok f :
  numeric_ok f = true -> exists cols, read_columns f = Ok cols.
Proof.
  intros Hnum. apply traverse_total. intros [j n] Hsel.
  destruct (read_column_ok f j n Hnum Hsel) as (col & -> & _). by eexists.
Qed.

Lemma shape_ok_header f : shape_ok f = true -> csv_header f <> [].
Proof.
  intros Hshape He.
  destruct (shape_ok_required f "X" Hshape) as [j Hj]; [by apply (bool_decide_unpack _)|].
  apply elem_of_select_usecols in Hj as [_ Hj]. apply index_of_Some in Hj.
  unfold names_of in Hj. by rewrite He in Hj.
Qed.

Lemma shape_ok_run w p f :
  fs w !! p = Some (CSVContent f) -> shape_ok f = true -> chunk_ok f = true ->
  load (mkCSVLoader p) w =
    match read_columns f with
    | Ok cols =>
        (Ok (next w), alloc_world (open_world w p)
           (ODataFrame (mkDataFrame (RangeIndex (length (data_records f))) cols)))
    | Raise e => (Raise e, open_world w p)
    end.
Proof.
  intros Hp Hshape Hchunk.
  assert (forall c, c ∈ required_columns -> c ∈ names_of f) as Hall.
  { intros c Hc. destruct (shape_ok_required f c Hshape Hc) as [j Hj].
    apply elem_of_select_usecols in Hj as [_ Hj]. apply index_of_Some in Hj.
    by eapply list_elem_of_lookup_2. }
  rewrite (read_csv_header_run w p f Hp (shape_ok_header f Hshape)). cbv zeta.
  rewrite (bool_decide_eq_true_2 (filter _ _ = [])).
  2:{ destruct (filter _ _) as [|c k] eqn:E; [done|].
      assert (c ∈ filter (fun c => c ∉ names_of f) required_columns) as Hc
        by (rewrite E; left).
      apply list_elem_of_filter in Hc as [Hnot Hc]. by apply Hall in Hc. }
  replace (forallb _ (csv_records f)) with true.
  2:{ unfold shape_ok in Hshape. apply andb_true_iff in Hshape as [_ <-].
      by rewrite length_names_of. }
  simpl negb. cbv iota.
  replace (2 ^ 16 <? _) with false; [done|].
  unfold chunk_ok in Hchunk. rewrite length_names_of. symmetry.
  apply Z.ltb_ge. by apply Z.leb_le.
Qed.

Lemma loads_ok_parts f :
  loads_ok f = true -> shape_ok f = true /\ chunk_ok f = true /\ numeric_ok f = true.
Proof. unfold loads_ok. rewrite !andb_true_iff. tauto. Qed.

(** A file that loads: the run, the table and its columns one by one. *)
Lemma loads_ok_run w p f :
  fs w !! p = Some (CSVContent f) -> loads_ok f = true ->
  exists cols,
    load (mkCSVLoader p) w
    = (Ok (next w), alloc_world (open_world w p)
         (ODataFrame (mkDataFrame (RangeIndex (length (data_records f))) cols))) /\
    Forall2 (fun jn lc => read_column datetime_cols dtypes (data_records f) jn = Ok lc)
      (select_usecols required_columns (names_of f)) cols.
Proof.
  intros Hp (Hshape & Hchunk & Hnum)%loads_ok_parts.
  destruct (read_columns_ok f Hnum) as [cols Hcols]. exists cols.
  split; [rewrite (shape_ok_run w p f Hp Hshape Hchunk); by rewrite Hcols|].
  by apply traverse_Ok in Hcols.
Qed.

Lemma chunk_ok_rows f :
  shape_ok f = true -> chunk_ok f = true -> Z.of_nat (length (data_records f)) < 2 ^ 63.
Proof.
  intros Hshape Hchunk. pose proof (shape_ok_header f Hshape) as Hne.
  unfold chunk_ok in Hchunk. apply Z.leb_le in Hchunk.
  destruct (csv_header f) as [|h hs]; [done|]. simpl length in Hchunk.
  assert (2 ^ 16 < 2 ^ 63) by done. nia.
Qed.


Lemma read_columns_labels records sel cols :
  Forall2 (fun jn lc => read_column datetime_cols dtypes records jn = Ok lc) sel cols ->
  fst <$> cols = LStr <$> (snd <$> sel).
Proof.
  induction 1 as [|jn lc sel cols Hx _ IH]; [done|].
  rewrite !fmap_cons, IH. by rewrite (read_column_label _ _ _ Hx).
Qed.

Lemma selected_permutation f :
  shape_ok f = true ->
  snd <$> select_usecols required_columns (names_of f) ≡ₚ required_columns.
Proof.
  intros Hshape. apply NoDup_Permutation.
  - apply NoDup_select_usecols.
  - by apply (bool_decide_unpack _).
  - intros n. rewrite list_elem_of_fmap. split.
    + intros ([j n'] & -> & Hsel). by apply elem_of_select_usecols in Hsel as [? _].
    + intros Hn. destruct (shape_ok_required f n Hshape Hn) as [j Hj]. by exists (j, n).
Qed.

(** The table of a file that loads is well formed, so [profile_nulls]
    accepts it. *)
Lemma loaded_wf f cols :
  loads_ok f = true ->
  Forall2 (fun jn lc => read_column datetime_cols dtypes (data_records f) jn = Ok lc)
    (select_usecols required_columns (names_of f)) cols ->
  wf_frame (mkDataFrame (RangeIndex (length (data_records f))) cols) = true.
Proof.
  intros (Hshape & Hchunk & Hnum)%loads_ok_parts Hall.
  unfold wf_frame, nrows. simpl. apply andb_true_iff.
  split; [|apply Z.ltb_lt; by apply chunk_ok_rows].
  apply forallb_forall. intros lc Hin. apply list_elem_of_In in Hin.
  apply list_elem_of_lookup in Hin as [i Hi].
  destruct (Forall2_lookup_r _ _ _ _ _ Hall Hi) as ([j n] & Hsel & Hread).
  apply list_elem_of_lookup_2 in Hsel.
  destruct (read_column_ok f j n Hnum Hsel) as (col & Hcol & Hlen).
  rewrite Hcol in Hread. injection Hread as <-. by apply Nat.eqb_eq.
Qed.



(** X7.  A categorical column of a loaded table stores the text of its
    fields, null for the missing-value markers, and its categories are the
    distinct texts that occur in it, each once, in increasing order. *)
Theorem CSVLoader_load_categories w p f :
  fs w !! p = Some (CSVContent f) -> loads_ok f = true ->
  exists l w' T,
    load (mkCSVLoader p) w = (Ok l, w') /\ heap w' !! l = Some (ODataFrame T) /\
    forall c raw, c ∈ categorical_columns -> csv_raw f c = Some raw ->
      exists cats vs,
        column_of T c = Some (mkColumn (dt_category cats) vs) /\
        NoDup cats /\ StronglySorted (fun a b => String.leb a b = true) cats /\
        (forall s, s ∈ cats <-> VStr s ∈ vs) /\
        Forall2 (fun s v => v = if bool_decide (s ∈ default_markers) then NA else VStr s) raw vs.
Proof.
  intros Hp Hloads.
  pose proof (loads_ok_parts f Hloads) as (Hshape & Hchunk & Hnum).
  destruct (loads_ok_run w p f Hp Hloads) as (cols & Hrun & Hall).
  set (T := mkDataFrame (RangeIndex (length (data_records f))) cols) in *.
  exists (next w), (alloc_world (open_world w p) (ODataFrame T)), T.
  split; [done|]. split; [apply (lookup_alloc_new (open_world w p))|].
  intros c raw Hc Hraw.
  unfold categorical_columns in Hc. apply list_elem_of_fmap in Hc as ([c' spec] & -> & Hc).
  apply list_elem_of_filter in Hc as [Hspec Hin]. simpl in *. subst spec.
  pose proof (dtypes_cases c' _ Hin) as (Hreq & _).
  destruct (shape_ok_required f c' Hshape Hreq) as [j Hsel].
  rewrite (selected_raw f j c' Hsel) in Hraw. injection Hraw as <-.
  destruct (column_of_read (RangeIndex (length (data_records f))) _ _ _ j c' Hall)
    as (col & Hcol & Hof);
    [intros j' Hj'; by eapply select_usecols_functional|done|].
  rewrite (read_column_declared _ _ _ (by_name "category")) in Hcol by done.
  injection Hcol as <-.
  set (raw := raw_column (data_records f) j) in *.
  destruct (categories_of_spec raw) as (Hnd & Hsorted & Hmem).
  exists (categories_of raw), (map text_field raw).
  split; [done|]. split; [done|]. split; [done|]. split.
  - intros s. by rewrite Hmem, elem_of_text_fields.
  - apply Forall2_fmap_r, Forall_Forall2_diag, Forall_forall. intros s _.
    unfold text_field. simpl. pose proof (is_na_markers s) as Hs.
    destruct (is_na s); case_bool_decide as Hm; try done.
    + destruct Hm. by apply Hs.
    + by apply Hs in Hm.
Qed.

(** X8.  A record with fewer fields than the header loads with a null in
    every column with a declared dtype that it does not reach. *)
Theorem CSVLoader_load_short_record w p f :
  fs w !! p = Some (CSVContent f) -> loads_ok f = true ->
  exists l w' T,
    load (mkCSVLoader p) w = (Ok l, w') /\ heap w' !! l = Some (ODataFrame T) /\
    forall c j i rec,
      c ∈ typed_columns -> index_of c (names_of f) = Some j ->
      data_records f !! i = Some rec -> (length rec <= j)%nat ->
      cell T c i = Some NA.
Proof.
  intros Hp Hloads.
  pose proof (loads_ok_parts f Hloads) as (Hshape & Hchunk & Hnum).
  destruct (loads_ok_run w p f Hp Hloads) as (cols & Hrun & Hall).
  set (T := mkDataFrame (RangeIndex (length (data_records f))) cols) in *.
  exists (next w), (alloc_world (open_world w p) (ODataFrame T)), T.
  split; [done|]. split; [apply (lookup_alloc_new (open_world w p))|].
  intros c j i rec Hc Hj Hi Hshort.
  unfold typed_columns in Hc. apply list_elem_of_fmap in Hc as ([c' spec] & -> & Hin).
  simpl in *. pose proof (dtypes_cases c' spec Hin) as (Hreq & _).
  assert ((j, c') ∈ select_usecols required_columns (names_of f)) as Hsel
    by by apply elem_of_select_usecols.
  destruct (column_of_read (RangeIndex (length (data_records f))) _ _ _ j c' Hall)
    as (col & Hcol & Hof);
    [intros j' Hj'; by eapply select_usecols_functional|done|].
  destruct (read_column_typed_cells f j c' spec Hnum Hin Hsel) as (col' & Hcol' & _ & Hcells).
  rewrite Hcol in Hcol'. injection Hcol' as <-.
  assert (raw_column (data_records f) j !! i = Some EmptyString) as Hraw.
  { unfold raw_column. change (map ?g ?l) with (g <$> l). rewrite list_lookup_fmap, Hi. simpl.
    by rewrite (lookup_ge_None_2 rec j). }
  destruct (Forall2_lookup_l _ _ _ _ _ Hcells Hraw) as (v & Hv & Hcell).
  unfold cell, values_of, T. rewrite Hof. simpl. rewrite Hv. simpl in Hcell. congruence.
Qed.

(** X5.  When the header lacks required columns and no record is longer
    than the header, the load raises the usecols error, and the columns the
    error names are exactly the required columns absent from the header,
    whatever the fields hold. *)
Theorem CSVLoader_load_names_missing w p f :
  fs w !! p = Some (CSVContent f) -> csv_header f <> [] -> records_fit f = true ->
  (exists c, c ∈ required_columns /\ c ∉ csv_header f) ->
  exists missing,
    load (mkCSVLoader p) w = (Raise (UsecolsError missing), open_world w p) /\
    forall c, c ∈ missing <-> c ∈ required_columns /\ c ∉ csv_header f.
Proof.
  intros Hp Hne _ (c0 & Hc0 & Hnot0).
  set (missing := filter (fun c => c ∉ names_of f) required_columns).
  assert (forall c, c ∈ missing <-> c ∈ required_columns /\ c ∉ csv_header f) as Hmem.
  { intros c. unfold missing. rewrite list_elem_of_filter. split.
    - intros [Hn Hc]. split; [done|]. by rewrite <- (required_in_names f c Hc).
    - intros [Hc Hn]. split; [|done]. by rewrite (required_in_names f c Hc). }
  exists missing. split; [|done].
  rewrite (read_csv_header_run w p f Hp Hne). cbv zeta. fold missing.
  rewrite bool_decide_eq_false_2; [done|].
  intros Heq. assert (c0 ∈ missing) as Hin by by apply Hmem.
  rewrite Heq in Hin. by apply elem_of_nil in Hin.
Qed.

Lemma nulls_in_markers t raw vs :
  Forall2 (fun s v => if is_na s then v = NA else scalar_isna t v = false) raw vs ->
  nulls_in (mkColumn t vs) = markers_in raw.
Proof.
  rewrite markers_in_is_na. unfold nulls_in. simpl.
  induction 1 as [|s v raw vs Hsv _ IH]; [done|].
  simpl. destruct (is_na s); [subst v|rewrite Hsv]; simpl; by rewrite IH.
Qed.

(** X11.  Loading a file through [LoadProcess.run] and profiling the
    result: the report has one row for each of the ten required columns, and
    for each of the eight columns with a declared dtype its [Null Count] is
    the number of missing-value markers among the fields of that column in
    the file. *)
Theorem run_profile_counts_markers w p f :
  fs w !! p = Some (CSVContent f) -> loads_ok f = true ->
  exists l w1 r w2 R names counts,
    run (mkLoadProcess (mkCSVLoader p)) w = (Ok l, w1) /\
    profile_nulls l w1 = (Ok r, w2) /\ heap w2 !! r = Some (ODataFrame R) /\
    values_of R "Column" = Some (VStr <$> names) /\
    values_of R "Null Count" = Some (VInt <$> counts) /\
    names ≡ₚ required_columns /\
    Forall2 (fun c k => c ∈ typed_columns ->
                        exists raw, csv_raw f c = Some raw /\ k = Z.of_nat (markers_in raw))
      names counts.
Proof.
  intros Hp Hloads.
  pose proof (loads_ok_parts f Hloads) as (Hshape & Hchunk & Hnum).
  destruct (loads_ok_run w p f Hp Hloads) as (cols & Hload & Hall).
  set (T := mkDataFrame (RangeIndex (length (data_records f))) cols) in *.
  set (w1 := alloc_world (open_world w p) (ODataFrame T)) in *.
  assert (heap w1 !! next w = Some (ODataFrame T)) as Hl
    by apply (lookup_alloc_new (open_world w p)).
  destruct (profile_nulls_run w1 (next w) T Hl) as (r & w2 & Hrun & _ & Hr & _).
  set (sel := select_usecols required_columns (names_of f)) in *.
  exists (next w), w1, r, w2, (report T), (snd <$> sel),
    ((fun lc => Z.of_nat (nulls_in (snd lc))) <$> cols).
  split; [done|]. split; [done|]. split; [done|]. split; [|split; [|split]].
  - unfold values_of, column_of. simpl. unfold label_column.
    assert (columns T = LStr <$> (snd <$> sel)) as -> by apply (read_columns_labels _ _ _ Hall).
    by rewrite <- list_fmap_compose.
  - unfold values_of, column_of. simpl.
    by rewrite (null_counts_wf T (loaded_wf f cols Hloads Hall)).
  - by apply selected_permutation.
  - apply Forall2_fmap, Forall2_same_length_lookup. split; [by eapply Forall2_length|].
    intros i [j n] [lbl col] Hsel Hcol Hn.
    pose proof (Forall2_lookup_lr _ _ _ _ _ _ Hall Hsel Hcol) as Hread.
    apply list_elem_of_lookup_2 in Hsel. simpl in *.
    unfold typed_columns in Hn. apply list_elem_of_fmap in Hn as ([c' spec] & -> & Hin).
    simpl in *.
    exists (raw_column (data_records f) j). split; [by apply selected_raw|].
    destruct (read_column_typed_cells f j c' spec Hnum Hin Hsel) as (col' & Hcol' & _ & Hcells).
    rewrite Hread in Hcol'. injection Hcol' as _ ->.
    destruct col' as [t vs]. by rewrite (nulls_in_markers t _ vs Hcells).
Qed.

Lemma csv_raw_required f c :
  shape_ok f = true -> c ∈ required_columns ->
  exists j, (j, c) ∈ select_usecols required_columns (names_of f) /\
    csv_raw f c = Some (raw_column (data_records f) j).
Proof.
  intros Hshape Hc. destruct (shape_ok_required f c Hshape Hc) as [j Hj].
  exists j. split; [done|]. by apply selected_raw.
Qed.

(** A file without records loads as soon as its header is complete. *)
Lemma loads_ok_header_only f :
  shape_ok f = true -> csv_records f = [] -> loads_ok f = true.
Proof.
  intros Hshape Hrec. unfold loads_ok. rewrite Hshape. simpl.
  assert (data_records f = []) as Hdata by (unfold data_records; by rewrite Hrec).
  apply andb_true_iff. split.
  - unfold chunk_ok. by rewrite Hdata.
  - unfold numeric_ok. apply forallb_forall. intros [c spec] Hin.
    apply list_elem_of_In in Hin. simpl.
    destruct (is_numeric spec); [|done].
    destruct (csv_raw_required f c Hshape) as (j & _ & ->); [by apply (dtypes_cases c spec)|].
    by rewrite Hdata.
Qed.

(** X10.  A file with a complete header and no records loads as a table
    of ten columns and no rows; its profile has ten rows, every [Null Count]
    0 and every [Null Pct] not-a-number. *)
Theorem CSVLoader_load_header_only w p f :
  fs w !! p = Some (CSVContent f) -> shape_ok f = true -> csv_records f = [] ->
  exists l w1 T r w2 R,
    load (mkCSVLoader p) w = (Ok l, w1) /\ heap w1 !! l = Some (ODataFrame T) /\
    nrows T = 0%nat /\ length (columns T) = 10%nat /\
    profile_nulls l w1 = (Ok r, w2) /\ heap w2 !! r = Some (ODataFrame R) /\
    values_of R "Null Count" = Some (replicate 10 (VInt 0)) /\
    values_of R "Null Pct" = Some (replicate 10 (VFloat S754_nan)).
Proof.
  intros Hp Hshape Hrec.
  pose proof (loads_ok_header_only f Hshape Hrec) as Hloads.
  destruct (loads_ok_run w p f Hp Hloads) as (cols & Hload & Hall).
  assert (data_records f = []) as Hdata by (unfold data_records; by rewrite Hrec).
  set (T := mkDataFrame (RangeIndex (length (data_records f))) cols) in *.
  set (w1 := alloc_world (open_world w p) (ODataFrame T)) in *.
  assert (heap w1 !! next w = Some (ODataFrame T)) as Hl
    by apply (lookup_alloc_new (open_world w p)).
  destruct (profile_nulls_run w1 (next w) T Hl) as (r & w2 & Hrun & _ & Hr & _).
  pose proof (loaded_wf f cols Hloads Hall) as Hwf. fold T in Hwf.
  assert (nrows T = 0%nat) as H0 by (unfold T, nrows; simpl; by rewrite Hdata).
  assert (length (columns T) = 10%nat) as H10.
  { assert (columns T = LStr <$> (snd <$> select_usecols required_columns (names_of f))) as ->
      by apply (read_columns_labels _ _ _ Hall).
    rewrite length_fmap. by rewrite (selected_permutation f Hshape). }
  exists (next w), w1, T, r, w2, (report T).
  split; [done|].
  split; [done|]. split; [done|]. split; [done|]. split; [done|]. split; [done|].
  rewrite <- H10. split.
  - unfold values_of, column_of. simpl. rewrite (nrows_zero_counts T Hwf H0).
    by rewrite fmap_replicate.
  - unfold values_of, column_of. simpl. unfold null_pcts.
    rewrite (nrows_zero_counts T Hwf H0), H0. by rewrite !fmap_replicate.
Qed.

Lemma read_column_raw records1 j1 records2 j2 n :
  raw_column records1 j1 = raw_column records2 j2 ->
  read_column datetime_cols dtypes records1 (j1, n)
  = read_column datetime_cols dtypes records2 (j2, n).
Proof. unfold read_column. simpl. by intros ->. Qed.

(** X9.  The columns the loader does not select, and the order of the
    columns in the file, have no influence on the cells: two files that load
    and agree on the fields of the ten required columns give tables with
    equal row counts and equal columns under each required name. *)
Theorem CSVLoader_load_other_columns w1 p1 f1 w2 p2 f2 :
  fs w1 !! p1 = Some (CSVContent f1) -> fs w2 !! p2 = Some (CSVContent f2) ->
  loads_ok f1 = true -> loads_ok f2 = true ->
  (forall c, c ∈ required_columns -> csv_raw f1 c = csv_raw f2 c) ->
  exists l1 w1' T1 l2 w2' T2,
    load (mkCSVLoader p1) w1 = (Ok l1, w1') /\ load (mkCSVLoader p2) w2 = (Ok l2, w2') /\
    heap w1' !! l1 = Some (ODataFrame T1) /\ heap w2' !! l2 = Some (ODataFrame T2) /\
    nrows T1 = nrows T2 /\
    forall c, c ∈ required_columns -> column_of T1 c = column_of T2 c.
Proof.
  intros Hp1 Hp2 Hl1 Hl2 Hraw.
  pose proof (loads_ok_parts f1 Hl1) as (Hs1 & _ & _).
  pose proof (loads_ok_parts f2 Hl2) as (Hs2 & _ & _).
  destruct (loads_ok_run w1 p1 f1 Hp1 Hl1) as (cols1 & Hrun1 & Hc1).
  destruct (loads_ok_run w2 p2 f2 Hp2 Hl2) as (cols2 & Hrun2 & Hc2).
  do 6 eexists. split; [exact Hrun1|]. split; [exact Hrun2|].
  split; [apply (lookup_alloc_new (open_world w1 p1))|].
  split; [apply (lookup_alloc_new (open_world w2 p2))|]. split.
  - unfold nrows. simpl.
    assert ("X" ∈ required_columns) as HX by by apply (bool_decide_unpack _).
    destruct (csv_raw_required f1 "X" Hs1 HX) as (j1 & _ & Hr1).
    destruct (csv_raw_required f2 "X" Hs2 HX) as (j2 & _ & Hr2).
    rewrite (Hraw "X" HX), Hr2 in Hr1. injection Hr1 as Hr1.
    apply (f_equal length) in Hr1. by rewrite !length_raw_column in Hr1.
  - intros c Hc.
    destruct (csv_raw_required f1 c Hs1 Hc) as (j1 & Hsel1 & Hr1).
    destruct (csv_raw_required f2 c Hs2 Hc) as (j2 & Hsel2 & Hr2).
    destruct (column_of_read (RangeIndex (length (data_records f1))) _ _ _ j1 c Hc1)
      as (col1 & Hcol1 & ->);
      [intros j' Hj'; by eapply select_usecols_functional|done|].
    destruct (column_of_read (RangeIndex (length (data_records f2))) _ _ _ j2 c Hc2)
      as (col2 & Hcol2 & ->);
      [intros j' Hj'; by eapply select_usecols_functional|done|].
    rewrite (Hraw c Hc), Hr2 in Hr1. injection Hr1 as Hr1.
    rewrite (read_column_raw _ j1 (data_records f2) j2 c) in Hcol1 by done.
    congruence.
Qed.

End CSVLoader.
(** ** The columnar loader *)

Section Parquet.

Lemma read_parquet_run w p f :
  fs w !! p = Some (ParquetContent f) -> pq_plain f = true ->
  load (mkParquetLoader p) w
  = (Ok (next w),
     alloc_world (open_world w p)
       (ODataFrame
          (mkDataFrame (RangeIndex (stored_rows f))
             (map (fun nc => (LStr (fst nc), to_pandas (snd nc))) (pq_columns f))))).
Proof.
  intros Hp Hplain.
  change (load (mkParquetLoader p) w) with (read_parquet p "pyarrow" None w).
  unfold read_parquet.
  replace (bool_decide ("pyarrow" ∈ ["auto"; "pyarrow"; "fastparquet"])) with true
    by (symmetry; by apply bool_decide_eq_true_2, (bool_decide_unpack _)).
  cbn [negb].
  rewrite (bind_run _ _ w (ParquetContent f) (open_world w p)) by by apply open_file_run.
  by rewrite Hplain.
Qed.

Lemma pq_plain_lengths f na :
  pq_plain f = true -> na ∈ pq_columns f -> array_length (snd na) = stored_rows f.
Proof.
  unfold pq_plain. rewrite !andb_true_iff, forallb_forall. intros [_ Hall] Hin.
  apply list_elem_of_In, Hall, andb_true_iff in Hin as [Hlen _]. by apply Nat.eqb_eq.
Qed.

(** Stored nulls, type by type *)

Lemma has_null_entries {A} (g : A -> scalar) (vs : list (option A)) :
  has_null vs
  = negb (Nat.eqb (length (List.filter
                             (fun o : option scalar =>
                                match o with None => true | Some _ => false end)
                             (map (option_map g) vs))) 0).
Proof.
  unfold has_null. induction vs as [|[x|] vs IH]; simpl; [done|by rewrite IH|done].
Qed.

Lemma has_null_stored a :
  match a with
  | Int64Array vs => has_null vs
  | DoubleArray vs => has_null vs
  | StringArray vs => has_null vs
  | BoolArray vs => has_null vs
  end = bool_decide (stored_nulls a <> 0%nat).
Proof.
  unfold stored_nulls.
  destruct a as [vs|vs|vs|vs]; simpl;
    [rewrite (has_null_entries VInt vs)|rewrite (has_null_entries VFloat vs)
    |rewrite (has_null_entries VStr vs)|rewrite (has_null_entries VBool vs)];
    destruct (length _); simpl; first [done|by case_bool_decide].
Qed.

Lemma no_null_entries {A} (g : A -> scalar) (vs : list (option A)) :
  length (List.filter (fun o : option scalar =>
                         match o with None => true | Some _ => false end)
            (map (option_map g) vs)) = 0%nat ->
  Some <$> map (from_option g NA) vs = map (option_map g) vs.
Proof.
  induction vs as [|[x|] vs IH]; simpl; [done| |done].
  intros H. by rewrite <- IH.
Qed.

(** What the reader makes of one stored column: the dtype, the length,
    the values of a column without nulls, and a null for every stored
    null. *)
Lemma to_pandas_spec a :
  c_dtype (to_pandas a)
  = loaded_dtype (type_of_array a) (bool_decide (stored_nulls a <> 0%nat)) /\
  length (c_values (to_pandas a)) = array_length a /\
  (stored_nulls a = 0%nat ->
     c_dtype (to_pandas a) = embedded_dtype (type_of_array a) /\
     Some <$> c_values (to_pandas a) = entries a) /\
  Forall2 (fun e v => e = None -> null_cell (c_dtype (to_pandas a)) v)
    (entries a) (c_values (to_pandas a)).
Proof.
  pose proof (has_null_stored a) as Hnull.
  destruct a as [vs|vs|vs|vs]; simpl in *.
  - rewrite Hnull. case_bool_decide as H0; simpl.
    + split; [done|]. split; [by rewrite length_map|]. split; [done|].
      apply Forall2_fmap, Forall_Forall2_diag, Forall_forall.
      intros [z|] _; simpl; [done|]. intros _. by constructor.
    + split; [done|]. split; [by rewrite length_map|].
      split; [intros _; split; [done|apply no_null_entries; unfold stored_nulls in H0; simpl in H0; lia]|].
      apply Forall2_fmap, Forall_Forall2_diag, Forall_forall.
      intros [z|] _; simpl; [done|]. intros _. by constructor.
  - split; [by destruct (bool_decide _)|]. split; [by rewrite length_map|]. split.
    + intros H0. split; [done|]. unfold stored_nulls in H0. simpl in H0.
      induction vs as [|[x|] vs IH]; simpl in *; [done| |done]. by rewrite <- IH.
    + apply Forall2_fmap, Forall_Forall2_diag, Forall_forall.
      intros [z|] _; simpl; [done|]. intros _. by constructor.
  - split; [by destruct (bool_decide _)|]. split; [by rewrite length_map|]. split.
    + intros H0. split; [done|]. by apply no_null_entries.
    + apply Forall2_fmap, Forall_Forall2_diag, Forall_forall.
      intros [z|] _; simpl; [done|]. intros _. by constructor.
  - rewrite Hnull. split; [by case_bool_decide|]. split; [by rewrite length_map|]. split.
    + intros H0. rewrite bool_decide_eq_false_2 by lia. split; [done|].
      by apply no_null_entries.
    + apply Forall2_fmap, Forall_Forall2_diag, Forall_forall.
      intros [z|] _; simpl; [done|]. intros _. by constructor.
Qed.


Lemma stored_wf (f : ParquetFile) :
  pq_plain f = true -> Z.of_nat (stored_rows f) < 2 ^ 63 ->
  wf_frame (mkDataFrame (RangeIndex (stored_rows f))
              (map (fun nc => (LStr (fst nc), to_pandas (snd nc))) (pq_columns f))) = true.
Proof.
  intros Hplain Hsize.
  unfold wf_frame, nrows. simpl. apply andb_true_iff. split; [|by apply Z.ltb_lt].
  apply forallb_forall. intros lc Hin. apply list_elem_of_In in Hin.
  change (map ?g ?l) with (g <$> l) in Hin.
  apply list_elem_of_fmap in Hin as ([n a] & -> & Hin). simpl.
  destruct (to_pandas_spec a) as (_ & Hlen & _). rewrite Hlen.
  apply Nat.eqb_eq. by apply (pq_plain_lengths f (n, a)).
Qed.

(** The cells [isna] marks in a loaded column are the entries stored
    without a value. *)
Lemma nulls_in_to_pandas a : nulls_in (to_pandas a) = missing_entries a.
Proof.
  unfold nulls_in, missing_entries.
  destruct a as [vs|vs|vs|vs]; simpl.
  - destruct (has_null vs); simpl.
    + induction vs as [|[z|] vs IH]; simpl; [done| |by rewrite IH].
      rewrite of_int_not_nan. simpl. by rewrite IH.
    + induction vs as [|[z|] vs IH]; simpl; [done|done|by rewrite IH].
  - induction vs as [|[x|] vs IH]; simpl; [done| |by rewrite IH].
    destruct x; simpl; by rewrite IH.
  - induction vs as [|[x|] vs IH]; simpl; [done|done|by rewrite IH].
  - destruct (has_null vs); simpl;
      induction vs as [|[x|] vs IH]; simpl; try done; by rewrite IH.
Qed.

(** X12.  Loading a columnar file through [LoadProcess.run] and profiling
    the result: the report has one row per column of the embedded schema, in
    its order and under its names, and each [Null Count] is the number of
    entries stored without a value for the column: the stored nulls and, in
    a float column, the stored not-a-numbers. *)
Theorem run_profile_parquet w p f :
  fs w !! p = Some (ParquetContent f) -> pq_plain f = true ->
  Z.of_nat (stored_rows f) < 2 ^ 63 ->
  exists l w1 r w2 R,
    run (mkLoadProcess (mkParquetLoader p)) w = (Ok l, w1) /\
    profile_nulls l w1 = (Ok r, w2) /\ heap w2 !! r = Some (ODataFrame R) /\
    values_of R "Column" = Some (VStr <$> (fst <$> pq_columns f)) /\
    values_of R "Null Count"
    = Some ((fun nc => VInt (Z.of_nat (missing_entries (snd nc)))) <$> pq_columns f).
Proof.
  intros Hp Hplain Hsize.
  set (T := mkDataFrame (RangeIndex (stored_rows f))
              (map (fun nc => (LStr (fst nc), to_pandas (snd nc))) (pq_columns f))).
  set (w1 := alloc_world (open_world w p) (ODataFrame T)).
  assert (heap w1 !! next w = Some (ODataFrame T)) as Hl
    by apply (lookup_alloc_new (open_world w p)).
  destruct (profile_nulls_run w1 (next w) T Hl) as (r & w2 & Hrun & _ & Hr & _).
  exists (next w), w1, r, w2, (report T).
  split; [by apply read_parquet_run|]. split; [done|]. split; [done|].
  split.
  - unfold values_of, column_of. simpl. f_equal. unfold columns, T. simpl.
    by rewrite !map_map.
  - unfold values_of, column_of. simpl. f_equal.
    rewrite (null_counts_wf T (stored_wf f Hplain Hsize)). unfold T. simpl.
    rewrite !map_map. simpl. apply map_ext. intros [n a]. simpl.
    by rewrite nulls_in_to_pandas.
Qed.

End Parquet.
Section Orchestrator.

Lemma read_csv_opened {date_parser : DateParser} p pd dt uc w :
  opened (snd (read_csv p pd dt uc w)) = opened w ++ [p].
Proof.
  unfold read_csv, open_file, mbind, M_bind, raise, lift, alloc.
  destruct (fs w !! p) as [[f|f]|]; simpl; [|done|done].
  repeat (case_match; simpl; try done).
Qed.

Lemma read_parquet_opened p w :
  opened (snd (read_parquet p "pyarrow" None w)) = opened w ++ [p].
Proof.
  unfold read_parquet.
  replace (bool_decide ("pyarrow" ∈ ["auto"; "pyarrow"; "fastparquet"])) with true
    by (symmetry; by apply bool_decide_eq_true_2, (bool_decide_unpack _)).
  cbn [negb]. unfold open_file, mbind, M_bind, raise, alloc.
  destruct (fs w !! p) as [[f|f]|]; simpl; [done| |done].
  by destruct (pq_plain f).
Qed.

(** C7.  A [LoadProcess] holds the loader it was constructed with, and
    [run] is [load] of that loader: the same result and the same final
    world, for every loader.  With either concrete loader one run opens the
    file exactly once. *)
Theorem LoadProcess_run_delegates {date_parser : DateParser} :
  (forall (L : Type) (loader : Loader L) (l : L) (w : World),
     data_loader (mkLoadProcess l) = l /\ run (mkLoadProcess l) w = load l w) /\
  (forall p w, opened (snd (run (mkLoadProcess (mkCSVLoader p)) w)) = opened w ++ [p]) /\
  (forall p w, opened (snd (run (mkLoadProcess (mkParquetLoader p)) w)) = opened w ++ [p]).
Proof.
  split; [done|]. split.
  - intros p w. change (run (mkLoadProcess (mkCSVLoader p)) w) with (CSVLoader_load (mkCSVLoader p) w).
    unfold CSVLoader_load. rewrite bind_ret. apply read_csv_opened.
  - intros p w. apply read_parquet_opened.
Qed.

End Orchestrator.

(** ** What a load does to the world *)

Section Effects.
Context {date_parser : DateParser}.

(** X1.  When there is no file at the path, [LoadProcess.run] with either
    loader raises [FileNotFoundError] for that path and allocates nothing. *)
Theorem run_missing_file p w :
  fs w !! p = None ->
  run (mkLoadProcess (mkCSVLoader p)) w = (Raise (FileNotFoundError p), open_world w p) /\
  run (mkLoadProcess (mkParquetLoader p)) w = (Raise (FileNotFoundError p), open_world w p).
Proof.
  intros Hp. split.
  - change (run (mkLoadProcess (mkCSVLoader p)) w) with (CSVLoader_load (mkCSVLoader p) w).
    unfold CSVLoader_load. rewrite bind_ret.
    unfold read_csv, CSVLoader_file_path, open_file, mbind, M_bind. by rewrite Hp.
  - change (run (mkLoadProcess (mkParquetLoader p)) w) with (read_parquet p "pyarrow" None w).
    unfold read_parquet.
    replace (bool_decide ("pyarrow" ∈ ["auto"; "pyarrow"; "fastparquet"])) with true
      by (symmetry; by apply bool_decide_eq_true_2, (bool_decide_unpack _)).
    cbn [negb]. unfold open_file, mbind, M_bind. by rewrite Hp.
Qed.

(** The outcome of a load is a function of the content at the path: a table
    put at the next free reference, or an error. *)
Lemma CSVLoader_load_result p (c : option FileContent) :
  exists r : result DataFrame,
    forall w, fs w !! p = c ->
      load (mkCSVLoader p) w
      = match r with
        | Ok T => (Ok (next w), alloc_world (open_world w p) (ODataFrame T))
        | Raise e => (Raise e, open_world w p)
        end.
Proof.
  destruct c as [[f|f]|].
  - destruct (decide (csv_header f = [])) as [He|Hne].
    + exists (Raise EmptyDataError). intros w Hp. by apply (read_csv_empty_run w p f).
    + set (missing := filter (fun c => c ∉ names_of f) required_columns).
      exists (if negb (bool_decide (missing = [])) then Raise (UsecolsError missing)
              else if negb (forallb (fun r => (length r <=? length (names_of f))%nat)
                              (csv_records f))
              then Raise (NotModelled "record longer than the header")
              else if 2 ^ 16 <? Z.of_nat (length (data_records f))
                                * Z.of_nat (length (names_of f))
              then Raise (NotModelled "file read in several chunks")
              else match read_columns f with
                   | Ok cols => Ok (mkDataFrame (RangeIndex (length (data_records f))) cols)
                   | Raise e => Raise e
                   end).
      intros w Hp. rewrite (read_csv_header_run w p f Hp Hne). cbv zeta. fold missing.
      destruct (negb (bool_decide (missing = []))); [done|].
      destruct (negb (forallb _ (csv_records f))); [done|].
      destruct (2 ^ 16 <? _); [done|].
      by destruct (read_columns f).
  - exists (Raise ParserError). intros w Hp.
    change (load (mkCSVLoader p) w) with (CSVLoader_load (mkCSVLoader p) w).
    unfold CSVLoader_load. rewrite bind_ret. unfold read_csv, CSVLoader_file_path.
    by rewrite (bind_run _ _ w (ParquetContent f) (open_world w p)) by by apply open_file_run.
  - exists (Raise (FileNotFoundError p)). intros w Hp.
    change (load (mkCSVLoader p) w) with (CSVLoader_load (mkCSVLoader p) w).
    unfold CSVLoader_load. rewrite bind_ret.
    unfold read_csv, CSVLoader_file_path, open_file, mbind, M_bind. by rewrite Hp.
Qed.

Lemma ParquetLoader_load_result p (c : option FileContent) :
  exists r : result DataFrame,
    forall w, fs w !! p = c ->
      load (mkParquetLoader p) w
      = match r with
        | Ok T => (Ok (next w), alloc_world (open_world w p) (ODataFrame T))
        | Raise e => (Raise e, open_world w p)
        end.
Proof.
  destruct c as [[f|f]|].
  - exists (Raise ArrowInvalid). intros w Hp.
    change (load (mkParquetLoader p) w) with (read_parquet p "pyarrow" None w).
    unfold read_parquet.
    replace (bool_decide ("pyarrow" ∈ ["auto"; "pyarrow"; "fastparquet"])) with true
      by (symmetry; by apply bool_decide_eq_true_2, (bool_decide_unpack _)).
    cbn [negb].
    by rewrite (bind_run _ _ w (CSVContent f) (open_world w p)) by by apply open_file_run.
  - destruct (pq_plain f) eqn:Hwf.
    + eexists (Ok _). intros w Hp. by apply read_parquet_run.
    + exists (Raise (NotModelled "columnar file outside the fragment")). intros w Hp.
      change (load (mkParquetLoader p) w) with (read_parquet p "pyarrow" None w).
      unfold read_parquet.
      replace (bool_decide ("pyarrow" ∈ ["auto"; "pyarrow"; "fastparquet"])) with true
        by (symmetry; by apply bool_decide_eq_true_2, (bool_decide_unpack _)).
      cbn [negb].
      rewrite (bind_run _ _ w (ParquetContent f) (open_world w p)) by by apply open_file_run.
      by rewrite Hwf.
  - exists (Raise (FileNotFoundError p)). intros w Hp.
    change (load (mkParquetLoader p) w) with (read_parquet p "pyarrow" None w).
    unfold read_parquet.
    replace (bool_decide ("pyarrow" ∈ ["auto"; "pyarrow"; "fastparquet"])) with true
      by (symmetry; by apply bool_decide_eq_true_2, (bool_decide_unpack _)).
    cbn [negb]. unfold open_file, mbind, M_bind. by rewrite Hp.
Qed.

(** What a load does to the world, for a loader whose outcome is a function
    of the file content. *)
Lemma load_result_effects {L} `{Loader L} (ld : L) p w (r : result DataFrame) :
  load ld w
  = match r with
    | Ok T => (Ok (next w), alloc_world (open_world w p) (ODataFrame T))
    | Raise e => (Raise e, open_world w p)
    end ->
  let '(res, w') := load ld w in
  fs w' = fs w /\
  match res with
  | Ok l => heap w !! l = None /\ exists T, heap w' = <[l := ODataFrame T]> (heap w)
  | Raise _ => heap w' = heap w
  end.
Proof.
  intros ->. destruct r as [T|e]; [|done].
  split; [done|]. split; [apply next_fresh|]. by exists T.
Qed.

Lemma load_result_twice {L} `{Loader L} (ld : L) p w (r : result DataFrame) :
  (forall w', fs w' !! p = fs w !! p ->
     load ld w'
     = match r with
       | Ok T => (Ok (next w'), alloc_world (open_world w' p) (ODataFrame T))
       | Raise e => (Raise e, open_world w' p)
       end) ->
  let '(r1, w1) := load ld w in
  let '(r2, w2) := load ld w1 in
  match r1, r2 with
  | Ok l1, Ok l2 =>
      l1 <> l2 /\
      exists T, heap w2 !! l1 = Some (ODataFrame T) /\ heap w2 !! l2 = Some (ODataFrame T)
  | Raise e1, Raise e2 => e1 = e2 /\ heap w2 = heap w
  | _, _ => False
  end.
Proof.
  intros Hr. rewrite (Hr w eq_refl). destruct r as [T|e].
  - rewrite (Hr (alloc_world (open_world w p) (ODataFrame T)) eq_refl).
    set (w1 := alloc_world (open_world w p) (ODataFrame T)).
    assert (heap w1 !! next w = Some (ODataFrame T)) as H1
      by apply (lookup_alloc_new (open_world w p)).
    split.
    + intros Heq. pose proof (next_fresh w1) as Hf. rewrite <- Heq in Hf. congruence.
    + exists T. split.
      * by apply (lookup_alloc_old (open_world w1 p)).
      * apply (lookup_alloc_new (open_world w1 p)).
  - by rewrite (Hr (open_world w p) eq_refl).
Qed.

(** X3.  A load never changes the files.  When it returns, it has added one
    object, a frame at a reference that was free, and left every other
    object as it was; when it raises, the objects are unchanged. *)
Theorem run_effects p w :
  (let '(res, w') := run (mkLoadProcess (mkCSVLoader p)) w in
   fs w' = fs w /\
   match res with
   | Ok l => heap w !! l = None /\ exists T, heap w' = <[l := ODataFrame T]> (heap w)
   | Raise _ => heap w' = heap w
   end) /\
  (let '(res, w') := run (mkLoadProcess (mkParquetLoader p)) w in
   fs w' = fs w /\
   match res with
   | Ok l => heap w !! l = None /\ exists T, heap w' = <[l := ODataFrame T]> (heap w)
   | Raise _ => heap w' = heap w
   end).
Proof.
  unfold run. cbn [data_loader]. split.
  - destruct (CSVLoader_load_result p (fs w !! p)) as [r Hr].
    by apply (load_result_effects _ p w r), Hr.
  - destruct (ParquetLoader_load_result p (fs w !! p)) as [r Hr].
    by apply (load_result_effects _ p w r), Hr.
Qed.

(** X4.  Nothing is cached or shared between loads: a second load of the
    same path returns another reference holding an equal table and leaves
    the first table in place; a load that fails fails again with the same
    error. *)
Theorem run_twice p w :
  (let '(r1, w1) := run (mkLoadProcess (mkCSVLoader p)) w in
   let '(r2, w2) := run (mkLoadProcess (mkCSVLoader p)) w1 in
   match r1, r2 with
   | Ok l1, Ok l2 =>
       l1 <> l2 /\
       exists T, heap w2 !! l1 = Some (ODataFrame T) /\ heap w2 !! l2 = Some (ODataFrame T)
   | Raise e1, Raise e2 => e1 = e2 /\ heap w2 = heap w
   | _, _ => False
   end) /\
  (let '(r1, w1) := run (mkLoadProcess (mkParquetLoader p)) w in
   let '(r2, w2) := run (mkLoadProcess (mkParquetLoader p)) w1 in
   match r1, r2 with
   | Ok l1, Ok l2 =>
       l1 <> l2 /\
       exists T, heap w2 !! l1 = Some (ODataFrame T) /\ heap w2 !! l2 = Some (ODataFrame T)
   | Raise e1, Raise e2 => e1 = e2 /\ heap w2 = heap w
   | _, _ => False
   end).
Proof.
  unfold run. cbn [data_loader]. split.
  - destruct (CSVLoader_load_result p (fs w !! p)) as [r Hr].
    apply (load_result_twice _ p w r). intros w' Hw'. by apply Hr.
  - destruct (ParquetLoader_load_result p (fs w !! p)) as [r Hr].
    apply (load_result_twice _ p w r). intros w' Hw'. by apply Hr.
Qed.

End Effects.

(** ** The scenarios, on the sample data *)

Section Scenarios.





Lemma profile_nulls_pct_witness :
  heap world0 !! 3%positive = Some (ODataFrame empty_table) /\
  wf_frame empty_table = true /\
  exists r w' R counts,
    profile_nulls 3%positive world0 = (Ok r, w') /\ heap w' !! r = Some (ODataFrame R) /\
    length counts = length (columns empty_table) /\
    values_of R "Null Count" = Some (map VInt counts) /\
    values_of R "Null Pct"
      = Some (map (fun n => VFloat (Float64.div (Float64.of_int n)
                                      (Float64.of_int (Z.of_nat (nrows empty_table))))) counts) /\
    (nrows empty_table = 0%nat ->
       values_of R "Null Count" = Some (replicate (length (columns empty_table)) (VInt 0)) /\
       values_of R "Null Pct"
       = Some (replicate (length (columns empty_table)) (VFloat S754_nan))) /\
    (0 < Z.of_nat (nrows empty_table) < 2 ^ 53 ->
       Forall (fun n =>
                 exists v,
                   Float64.to_Q (Float64.div (Float64.of_int n)
                                   (Float64.of_int (Z.of_nat (nrows empty_table)))) = Some v /\
                   (Qabs (v - (n # Z.to_pos (Z.of_nat (nrows empty_table)))) <= 1 # 2 ^ 53)%Q)
         counts).
Proof.
  split; [reflexivity|]. split; [reflexivity|].
  apply (profile_nulls_pct world0 3%positive empty_table); reflexivity.
Defined.

Lemma profile_nulls_rows_witness :
  (heap world0 !! 1%positive = Some (ODataFrame fines) /\
   wf_frame fines = true /\
   exists r w' R,
     profile_nulls 1%positive world0 = (Ok r, w') /\ heap w' !! r = Some (ODataFrame R) /\
     nrows R = 3%nat /\
     values_of R "Column" = Some [VStr "OBJECTID"; VStr "VIOFINE"; VStr "ADDRESS"] /\
     values_of R "Null Count" = Some [VInt 0; VInt 1; VInt 2] /\
     Forall (fun lc => 0 <= Z.of_nat (null_rows (snd lc)) <= Z.of_nat (nrows fines))
       (df_columns fines)) /\
  (heap world1 !! 5%positive = Some (ODataFrame readings) /\
   wf_frame readings = true /\
   exists r w' R,
     profile_nulls 5%positive world1 = (Ok r, w') /\ heap w' !! r = Some (ODataFrame R) /\
     nrows R = 2%nat /\
     values_of R "Column" = Some [VStr "raw"; VStr "ratio"] /\
     values_of R "Null Count" = Some [VInt 1; VInt 1] /\
     Forall (fun lc => 0 <= Z.of_nat (null_rows (snd lc)) <= Z.of_nat (nrows readings))
       (df_columns readings)).
Proof.
  split.
  - split; [reflexivity|]. split; [reflexivity|].
    apply (profile_nulls_rows world0 1%positive fines); reflexivity.
  - split; [reflexivity|]. split; [reflexivity|].
    apply (profile_nulls_rows world1 5%positive readings); reflexivity.
Defined.

Lemma CSVLoader_load_missing_column_witness :
  fs world0 !! "no_objectid.csv" = Some (CSVContent no_objectid_csv) /\
  "OBJECTID" ∈ required_columns /\ ("OBJECTID" ∉ csv_header no_objectid_csv) /\
  exists e w',
    @load _ (@CSVLoader_Loader iso_datetime) (mkCSVLoader "no_objectid.csv") world0
    = (Raise e, w') /\ heap w' = heap world0 /\
    (e = EmptyDataError \/ exists missing, e = UsecolsError missing /\ "OBJECTID" ∈ missing).
Proof.
  assert ("OBJECTID" ∈ required_columns) as Hin by by apply (bool_decide_unpack _).
  assert ("OBJECTID" ∉ csv_header no_objectid_csv) as Hout by by apply (bool_decide_unpack _).
  split; [reflexivity|]. split; [exact Hin|]. split; [exact Hout|].
  exact (@CSVLoader_load_missing_column iso_datetime world0 "no_objectid.csv"
           no_objectid_csv "OBJECTID" eq_refl Hin Hout).
Defined.



(** Scenario C: the file with schema A: integer, B: text loads with these
    columns and types. *)
Example scenario_C_schema :
  exists l w' T,
    load (mkParquetLoader "ab.parquet") world0 = (Ok l, w') /\
    heap w' !! l = Some (ODataFrame T) /\
    dtypes_of T = [(LStr "A", dt_int64); (LStr "B", dt_object)] /\
    values_of T "A" = Some [VInt 1; VInt 2] /\ values_of T "B" = Some [VStr "x"; NA].
Proof.
  eexists _, _, _. split; [vm_compute; reflexivity|].
  split; [vm_compute; reflexivity|]. by vm_compute.
Qed.

Lemma profile_nulls_twice_witness :
  heap world0 !! 1%positive = Some (ODataFrame fines) /\
  exists r1 w1 r2 w2 R,
    profile_nulls 1%positive world0 = (Ok r1, w1) /\
    profile_nulls 1%positive w1 = (Ok r2, w2) /\
    heap w1 !! r1 = Some (ODataFrame R) /\
    heap w2 !! r1 = Some (ODataFrame R) /\ heap w2 !! r2 = Some (ODataFrame R) /\
    r1 <> r2.
Proof.
  split; [reflexivity|].
  apply (profile_nulls_twice world0 1%positive fines); reflexivity.
Defined.

Lemma profile_nulls_leaves_table_witness :
  heap world0 !! 1%positive = Some (ODataFrame fines) /\
  exists r w',
    profile_nulls 1%positive world0 = (Ok r, w') /\
    heap w' !! 1%positive = Some (ODataFrame fines) /\
    (forall l o, heap world0 !! l = Some o -> heap w' !! l = Some o) /\
    fs w' = fs world0 /\ opened w' = opened world0 /\ r <> 1%positive.
Proof.
  split; [reflexivity|].
  apply (profile_nulls_leaves_table world0 1%positive fines); reflexivity.
Defined.

Lemma profile_nulls_nullness_only_witness :
  heap world0 !! 1%positive = Some (ODataFrame fines) /\
  heap world0 !! 2%positive = Some (ODataFrame other_fines) /\
  columns fines = columns other_fines /\ nrows fines = nrows other_fines /\
  null_pattern fines = null_pattern other_fines /\ fines <> other_fines /\
  exists r1 w1' r2 w2' R,
    profile_nulls 1%positive world0 = (Ok r1, w1') /\
    profile_nulls 2%positive world0 = (Ok r2, w2') /\
    heap w1' !! r1 = Some (ODataFrame R) /\ heap w2' !! r2 = Some (ODataFrame R).
Proof.
  do 5 (split; [reflexivity|]). split; [discriminate|].
  apply (profile_nulls_nullness_only world0 1%positive fines world0 2%positive other_fines);
    reflexivity.
Defined.

(** Scenario A, the profile of the loaded VIOFINE column: one null in three
    rows, a third as the percentage. *)
Example scenario_A_profile :
  exists l w1 r w2 R,
    @load _ (@CSVLoader_Loader iso_datetime) (mkCSVLoader "tickets.csv") world0 = (Ok l, w1) /\
    profile_nulls l w1 = (Ok r, w2) /\ heap w2 !! r = Some (ODataFrame R) /\
    cell R "Column" 6 = Some (VStr "VIOFINE") /\
    cell R "Null Count" 6 = Some (VInt 1) /\
    cell R "Null Pct" 6 = Some (VFloat (S754_finite false 6004799503160661 (-54))).
Proof.
  eexists _, _, _, _, _. split; [vm_compute; reflexivity|].
  split; [vm_compute; reflexivity|]. split; [vm_compute; reflexivity|].
  by vm_compute.
Qed.

(** Scenario D: the report of the table without rows. *)
Example scenario_D_report :
  exists r w' R,
    profile_nulls 3%positive world0 = (Ok r, w') /\ heap w' !! r = Some (ODataFrame R) /\
    nrows R = 2%nat /\
    values_of R "Null Count" = Some [VInt 0; VInt 0] /\
    values_of R "Null Pct" = Some [VFloat S754_nan; VFloat S754_nan].
Proof.
  eexists _, _, _. split; [vm_compute; reflexivity|].
  split; [vm_compute; reflexivity|]. by vm_compute.
Qed.

(** Further scenarios *)

Lemma run_missing_file_witness :
  fs world0 !! "nowhere.csv" = None /\
  @run _ (@CSVLoader_Loader iso_datetime) (mkLoadProcess (mkCSVLoader "nowhere.csv")) world0
  = (Raise (FileNotFoundError "nowhere.csv"), open_world world0 "nowhere.csv") /\
  run (mkLoadProcess (mkParquetLoader "nowhere.csv")) world0
  = (Raise (FileNotFoundError "nowhere.csv"), open_world world0 "nowhere.csv").
Proof.
  split; [reflexivity|].
  apply (@run_missing_file iso_datetime "nowhere.csv" world0). reflexivity.
Defined.

Lemma CSVLoader_load_names_missing_witness :
  fs world0 !! "no_objectid.csv" = Some (CSVContent no_objectid_csv) /\
  csv_header no_objectid_csv <> [] /\ records_fit no_objectid_csv = true /\
  (exists c, c ∈ required_columns /\ c ∉ csv_header no_objectid_csv) /\
  exists missing,
    @load _ (@CSVLoader_Loader iso_datetime) (mkCSVLoader "no_objectid.csv") world0
    = (Raise (UsecolsError missing), open_world world0 "no_objectid.csv") /\
    forall c, c ∈ missing <-> c ∈ required_columns /\ c ∉ csv_header no_objectid_csv.
Proof.
  assert (csv_header no_objectid_csv <> []) as Hne by discriminate.
  assert (exists c, c ∈ required_columns /\ c ∉ csv_header no_objectid_csv) as Hc.
  { exists "OBJECTID". split; by apply (bool_decide_unpack _). }
  split; [reflexivity|]. split; [exact Hne|]. split; [reflexivity|]. split; [exact Hc|].
  exact (@CSVLoader_load_names_missing iso_datetime world0 "no_objectid.csv"
           no_objectid_csv eq_refl Hne eq_refl Hc).
Defined.

Lemma CSVLoader_load_categories_witness :
  fs world0 !! "tickets.csv" = Some (CSVContent tickets_csv) /\
  loads_ok tickets_csv = true /\
  exists l w' T,
    @load _ (@CSVLoader_Loader iso_datetime) (mkCSVLoader "tickets.csv") world0 = (Ok l, w') /\
    heap w' !! l = Some (ODataFrame T) /\
    forall c raw, c ∈ categorical_columns -> csv_raw tickets_csv c = Some raw ->
      exists cats vs,
        column_of T c = Some (mkColumn (dt_category cats) vs) /\
        NoDup cats /\ StronglySorted (fun a b => String.leb a b = true) cats /\
        (forall s, s ∈ cats <-> VStr s ∈ vs) /\
        Forall2 (fun s v => v = if bool_decide (s ∈ default_markers) then NA else VStr s) raw vs.
Proof.
  split; [reflexivity|]. split; [reflexivity|].
  apply (@CSVLoader_load_categories iso_datetime world0 "tickets.csv" tickets_csv); reflexivity.
Defined.

Lemma CSVLoader_load_short_record_witness :
  fs world1 !! "short.csv" = Some (CSVContent short_csv) /\
  loads_ok short_csv = true /\
  exists l w' T,
    @load _ (@CSVLoader_Loader iso_datetime) (mkCSVLoader "short.csv") world1 = (Ok l, w') /\
    heap w' !! l = Some (ODataFrame T) /\
    forall c j i rec,
      c ∈ typed_columns -> index_of c (names_of short_csv) = Some j ->
      data_records short_csv !! i = Some rec -> (length rec <= j)%nat ->
      cell T c i = Some NA.
Proof.
  split; [reflexivity|]. split; [reflexivity|].
  apply (@CSVLoader_load_short_record iso_datetime world1 "short.csv" short_csv); reflexivity.
Defined.

Lemma CSVLoader_load_other_columns_witness :
  fs world0 !! "tickets.csv" = Some (CSVContent tickets_csv) /\
  fs world1 !! "wide.csv" = Some (CSVContent wide_csv) /\
  loads_ok tickets_csv = true /\ loads_ok wide_csv = true /\
  (forall c, c ∈ required_columns -> csv_raw tickets_csv c = csv_raw wide_csv c) /\
  exists l1 w1' T1 l2 w2' T2,
    @load _ (@CSVLoader_Loader iso_datetime) (mkCSVLoader "tickets.csv") world0 = (Ok l1, w1') /\
    @load _ (@CSVLoader_Loader iso_datetime) (mkCSVLoader "wide.csv") world1 = (Ok l2, w2') /\
    heap w1' !! l1 = Some (ODataFrame T1) /\ heap w2' !! l2 = Some (ODataFrame T2) /\
    nrows T1 = nrows T2 /\
    forall c, c ∈ required_columns -> column_of T1 c = column_of T2 c.
Proof.
  assert (forall c, c ∈ required_columns -> csv_raw tickets_csv c = csv_raw wide_csv c) as Hraw.
  { intros c Hc. unfold required_columns in Hc. simpl in Hc.
    repeat (apply elem_of_cons in Hc as [->|Hc]; [reflexivity|]).
    by apply elem_of_nil in Hc. }
  split; [reflexivity|]. split; [reflexivity|]. split; [reflexivity|]. split; [reflexivity|].
  split; [exact Hraw|].
  exact (@CSVLoader_load_other_columns iso_datetime world0 "tickets.csv" tickets_csv
           world1 "wide.csv" wide_csv eq_refl eq_refl eq_refl eq_refl Hraw).
Defined.

Lemma CSVLoader_load_header_only_witness :
  fs world1 !! "header_only.csv" = Some (CSVContent header_only_csv) /\
  shape_ok header_only_csv = true /\ csv_records header_only_csv = [] /\
  exists l w1 T r w2 R,
    @load _ (@CSVLoader_Loader iso_datetime) (mkCSVLoader "header_only.csv") world1
    = (Ok l, w1) /\ heap w1 !! l = Some (ODataFrame T) /\
    nrows T = 0%nat /\ length (columns T) = 10%nat /\
    profile_nulls l w1 = (Ok r, w2) /\ heap w2 !! r = Some (ODataFrame R) /\
    values_of R "Null Count" = Some (replicate 10 (VInt 0)) /\
    values_of R "Null Pct" = Some (replicate 10 (VFloat S754_nan)).
Proof.
  split; [reflexivity|]. split; [reflexivity|]. split; [reflexivity|].
  apply (@CSVLoader_load_header_only iso_datetime world1 "header_only.csv" header_only_csv);
    reflexivity.
Defined.

Lemma run_profile_counts_markers_witness :
  fs world0 !! "tickets.csv" = Some (CSVContent tickets_csv) /\
  loads_ok tickets_csv = true /\
  exists l w1 r w2 R names counts,
    @run _ (@CSVLoader_Loader iso_datetime) (mkLoadProcess (mkCSVLoader "tickets.csv")) world0
    = (Ok l, w1) /\
    profile_nulls l w1 = (Ok r, w2) /\ heap w2 !! r = Some (ODataFrame R) /\
    values_of R "Column" = Some (VStr <$> names) /\
    values_of R "Null Count" = Some (VInt <$> counts) /\
    names ≡ₚ required_columns /\
    Forall2 (fun c k => c ∈ typed_columns ->
                        exists raw, csv_raw tickets_csv c = Some raw /\
                          k = Z.of_nat (markers_in raw))
      names counts.
Proof.
  split; [reflexivity|]. split; [reflexivity|].
  apply (@run_profile_counts_markers iso_datetime world0 "tickets.csv" tickets_csv);
    reflexivity.
Defined.

Lemma run_profile_parquet_witness :
  fs world1 !! "ab_null.parquet" = Some (ParquetContent ab_null_parquet) /\
  pq_plain ab_null_parquet = true /\ Z.of_nat (stored_rows ab_null_parquet) < 2 ^ 63 /\
  exists l w1 r w2 R,
    run (mkLoadProcess (mkParquetLoader "ab_null.parquet")) world1 = (Ok l, w1) /\
    profile_nulls l w1 = (Ok r, w2) /\ heap w2 !! r = Some (ODataFrame R) /\
    values_of R "Column" = Some [VStr "A"; VStr "B"] /\
    values_of R "Null Count" = Some [VInt 1; VInt 0].
Proof.
  split; [reflexivity|]. split; [reflexivity|]. split; [reflexivity|].
  apply (run_profile_parquet world1 "ab_null.parquet" ab_null_parquet); reflexivity.
Defined.

Lemma profile_nulls_layout_witness :
  heap world0 !! 1%positive = Some (ODataFrame fines) /\
  exists r w' R,
    profile_nulls 1%positive world0 = (Ok r, w') /\ heap w' !! r = Some (ODataFrame R) /\
    columns R = [LStr "Column"; LStr "Null Count"; LStr "Null Pct"] /\
    df_index R = RangeIndex (length (columns fines)) /\
    Forall (fun lc => length (c_values (snd lc)) = length (columns fines)) (df_columns R).
Proof.
  split; [reflexivity|].
  apply (profile_nulls_layout world0 1%positive fines); reflexivity.
Defined.

Lemma profile_nulls_pct_unit_witness :
  heap world0 !! 1%positive = Some (ODataFrame fines) /\ wf_frame fines = true /\
  0 < Z.of_nat (nrows fines) < 2 ^ 53 /\
  exists r w' R pcts,
    profile_nulls 1%positive world0 = (Ok r, w') /\ heap w' !! r = Some (ODataFrame R) /\
    values_of R "Null Pct" = Some (map VFloat pcts) /\
    Forall2 (fun lc x =>
               exists v, Float64.to_Q x = Some v /\ (0 <= v <= 1)%Q /\
                 ((v == 0)%Q <-> nulls_in (snd lc) = 0%nat) /\
                 ((v == 1)%Q <-> nulls_in (snd lc) = nrows fines))
      (df_columns fines) pcts.
Proof.
  assert (0 < Z.of_nat (nrows fines) < 2 ^ 53) as Hrows by (split; reflexivity).
  split; [reflexivity|]. split; [reflexivity|]. split; [exact Hrows|].
  exact (profile_nulls_pct_unit world0 1%positive fines eq_refl eq_refl Hrows).
Defined.

Lemma profile_nulls_pct_order_witness :
  heap world0 !! 1%positive = Some (ODataFrame fines) /\ wf_frame fines = true /\
  0 < Z.of_nat (nrows fines) < 2 ^ 53 /\
  exists r w' R pcts,
    profile_nulls 1%positive world0 = (Ok r, w') /\ heap w' !! r = Some (ODataFrame R) /\
    values_of R "Null Pct" = Some (map VFloat pcts) /\
    forall i j a b,
      df_columns fines !! i = Some a -> df_columns fines !! j = Some b ->
      (nulls_in (snd a) < nulls_in (snd b))%nat ->
      exists x y u v,
        pcts !! i = Some x /\ pcts !! j = Some y /\
        Float64.to_Q x = Some u /\ Float64.to_Q y = Some v /\ (u < v)%Q.
Proof.
  assert (0 < Z.of_nat (nrows fines) < 2 ^ 53) as Hrows by (split; reflexivity).
  split; [reflexivity|]. split; [reflexivity|]. split; [exact Hrows|].
  exact (profile_nulls_pct_order world0 1%positive fines eq_refl eq_refl Hrows).
Defined.

Lemma profile_nulls_row_order_witness :
  heap world1 !! 1%positive = Some (ODataFrame fines) /\
  heap world1 !! 4%positive = Some (ODataFrame shuffled_fines) /\
  nrows fines = nrows shuffled_fines /\
  Forall2 (fun a b => fst a = fst b /\ c_dtype (snd a) = c_dtype (snd b) /\
                      c_values (snd a) ≡ₚ c_values (snd b))
    (df_columns fines) (df_columns shuffled_fines) /\
  fines <> shuffled_fines /\
  exists r1 w1' r2 w2' R,
    profile_nulls 1%positive world1 = (Ok r1, w1') /\
    profile_nulls 4%positive world1 = (Ok r2, w2') /\
    heap w1' !! r1 = Some (ODataFrame R) /\ heap w2' !! r2 = Some (ODataFrame R).
Proof.
  assert (Forall2 (fun a b => fst a = fst b /\ c_dtype (snd a) = c_dtype (snd b) /\
                              c_values (snd a) ≡ₚ c_values (snd b))
            (df_columns fines) (df_columns shuffled_fines)) as Hcols.
  { simpl.
    do 3 (constructor;
            [split; [reflexivity|split; [reflexivity|]];
             simpl; symmetry; apply (Permutation_cons_append [_; _])|]).
    constructor. }
  split; [reflexivity|]. split; [reflexivity|]. split; [reflexivity|].
  split; [exact Hcols|]. split; [discriminate|].
  exact (profile_nulls_row_order world1 1%positive fines world1 4%positive shuffled_fines
           eq_refl eq_refl eq_refl Hcols).
Defined.

Lemma profile_nulls_of_report_witness :
  heap world0 !! 3%positive = Some (ODataFrame empty_table) /\
  wf_frame empty_table = true /\ Z.of_nat (length (columns empty_table)) < 2 ^ 63 /\
  exists r w1 r2 w2 R2,
    profile_nulls 3%positive world0 = (Ok r, w1) /\ profile_nulls r w1 = (Ok r2, w2) /\
    heap w2 !! r2 = Some (ODataFrame R2) /\
    values_of R2 "Column" = Some [VStr "Column"; VStr "Null Count"; VStr "Null Pct"] /\
    (nrows empty_table = 0%nat ->
       values_of R2 "Null Count"
       = Some [VInt 0; VInt 0; VInt (Z.of_nat (length (columns empty_table)))]) /\
    (0 < Z.of_nat (nrows empty_table) < 2 ^ 53 ->
       values_of R2 "Null Count" = Some [VInt 0; VInt 0; VInt 0]).
Proof.
  split; [reflexivity|]. split; [reflexivity|]. split; [reflexivity|].
  apply (profile_nulls_of_report world0 3%positive empty_table); reflexivity.
Defined.

End Scenarios.
